(** * uc-intg-nzbinfo: client, configuration, setup and media player

    A shallow embedding of [NZBInfoClient] ([uc_intg_nzbinfo/client.py]):
    the display helpers ([_clean_file_path], [_smart_truncate],
    [_format_recent_files], [_calculate_eta], [_format_upcoming_date]),
    the per-application adapters as stateful code over the mutable
    [AppStatus] object, and the aggregator ([connect],
    [update_all_statuses], [get_all_statuses]).  Beside it, the
    configuration dictionary of [NZBInfoConfig] ([config.py]), the
    parsing and collecting steps of [NZBInfoSetup] ([setup.py]) and the
    text-producing parts of [NZBInfoPlayer] ([media_player.py]).

    Modelling conventions.
    - A Python [str] is a Rocq [string]; characters are ASCII, so
      [lower]/[upper] act on ASCII letters only.
    - Python [int] is [Z]; Python [float] values are rationals [Q]
      (the decimal literals the adapters parse are read exactly).
    - HTTP calls are not executed: every call of an adapter takes its
      outcome (an exception with its message, or a response with a status
      code, a content type and a JSON body that may fail to decode) from
      an oracle, so theorems quantify over all server behaviours. *)

From Stdlib Require Import ZArith QArith Qround Ascii String List.
From stdpp Require Import base gmap strings list.
Import ListNotations.

Open Scope Z_scope.

Local Notation "a +++ b" := (String.append a b) (at level 60, right associativity).

(* ------------------------------------------------------------------ *)
(** ** Python string primitives *)

Module Py.

(** [len(s)] as an [int]. *)
Definition len (s : string) : Z := Z.of_nat (String.length s).

(** [s[:k]] with Python's slicing: a negative [k] counts from the end,
    out-of-range bounds are clipped. *)
Definition slice_to (s : string) (k : Z) : string :=
  let n := if 0 <=? k then k else len s + k in
  String.substring 0 (Z.to_nat n) s.

(** [s[k:]] for [k >= 0]. *)
Definition slice_from (s : string) (k : nat) : string :=
  String.substring k (String.length s - k)%nat s.

(** [c in s] for a one-character needle. *)
Fixpoint has_char (c : ascii) (s : string) : bool :=
  match s with
  | EmptyString => false
  | String c' s' => if Ascii.eqb c c' then true else has_char c s'
  end.

(** [needle in s] for a general needle. *)
Definition contains (needle s : string) : bool :=
  match String.index 0 needle s with Some _ => true | None => false end.

Definition lower_char (c : ascii) : ascii :=
  let n := nat_of_ascii c in
  if andb (65 <=? n)%nat (n <=? 90)%nat then ascii_of_nat (n + 32) else c.

Definition upper_char (c : ascii) : ascii :=
  let n := nat_of_ascii c in
  if andb (97 <=? n)%nat (n <=? 122)%nat then ascii_of_nat (n - 32) else c.

Fixpoint map_chars (f : ascii -> ascii) (s : string) : string :=
  match s with
  | EmptyString => EmptyString
  | String c s' => String (f c) (map_chars f s')
  end.

(** [s.lower()] and [s.upper()]. *)
Definition lower (s : string) : string := map_chars lower_char s.
Definition upper (s : string) : string := map_chars upper_char s.

(** [s.startswith(p)]. *)
Definition startswith (s p : string) : bool := String.prefix p s.

(** [s.split(sep)] for a non-empty separator, scanning left to right
    for non-overlapping occurrences.  Every step consumes at least one
    character, so [String.length s + 1] steps suffice. *)
Fixpoint split_fuel (fuel : nat) (sep s : string) : list string :=
  match fuel with
  | O => [s]
  | S f =>
      match String.index 0 sep s with
      | None => [s]
      | Some i =>
          String.substring 0 i s
            :: split_fuel f sep (slice_from s (i + String.length sep))
      end
  end.

Definition split (s sep : string) : list string :=
  split_fuel (S (String.length s)) sep s.

(** [xs[-1]] of a non-empty list (a [split] result is never empty). *)
Definition last_item (xs : list string) : string := List.last xs EmptyString.

(** Index of the last occurrence of a character, if any. *)
Fixpoint rindex_char_from (c : ascii) (i : nat) (s : string) (acc : option nat)
  : option nat :=
  match s with
  | EmptyString => acc
  | String c' s' =>
      rindex_char_from c (S i) s' (if Ascii.eqb c c' then Some i else acc)
  end.

Definition rindex_char (c : ascii) (s : string) : option nat :=
  rindex_char_from c 0 s None.

(** [s.rsplit(c, 1)] when [c in s]: the text before and after the last
    occurrence of [c]. *)
Definition rsplit1 (c : ascii) (s : string) : string * string :=
  match rindex_char c s with
  | Some i => (String.substring 0 i s, slice_from s (S i))
  | None => (s, EmptyString)
  end.

(** [sep.join(xs)]. *)
Definition join (sep : string) (xs : list string) : string :=
  String.concat sep xs.

(** [s.replace(old, new)] for a non-empty [old]. *)
Definition replace (s old new : string) : string :=
  join new (split s old).

(** [str.split()] with no argument: runs of whitespace separate the
    words, leading and trailing whitespace is dropped. *)
Definition is_ws (c : ascii) : bool :=
  let n := nat_of_ascii c in
  orb (n =? 32)%nat (andb (9 <=? n)%nat (n <=? 13)%nat).

Fixpoint words_go (cur : string) (s : string) : list string :=
  match s with
  | EmptyString => if String.eqb cur "" then [] else [cur]
  | String c s' =>
      if is_ws c then
        (if String.eqb cur "" then [] else [cur]) ++ words_go "" s'
      else words_go (cur +++ String c EmptyString) s'
  end.

Definition split_ws (s : string) : list string := words_go "" s.

(** Decimal rendering of an [int], as [str(n)] / [f"{n}"]. *)
Definition digit_char (d : Z) : ascii := ascii_of_nat (48 + Z.to_nat d).

Fixpoint nat_digits (fuel : nat) (n : Z) (acc : string) : string :=
  match fuel with
  | O => acc
  | S f =>
      let acc' := String (digit_char (n mod 10)) acc in
      if n <? 10 then acc' else nat_digits f (n / 10) acc'
  end.

Definition z_str (n : Z) : string :=
  let m := Z.abs n in
  let ds := nat_digits (S (Z.to_nat (Z.log2 m))) m EmptyString in
  if n <? 0 then "-" +++ ds else ds.

(** [f"{n:02d}"]: zero-padded to width two (the sign counts). *)
Definition z_str02 (n : Z) : string :=
  let s := z_str n in
  if (String.length s <? 2)%nat then "0" +++ s else s.

End Py.


(* ------------------------------------------------------------------ *)
(** ** Display helpers of [NZBInfoClient] *)

(** [path_prefixes_to_remove] in [_clean_file_path]. The Python literal
    ["\\\\tvshows\\\\"] is the text with two backslashes on each side, and
    ["C:\\\\"] is [C:] followed by two backslashes. *)
Definition path_prefixes_to_remove : list string :=
  [ "/tvshows/"; "/movies/"; "/downloads/"; "/media/";
    "\\tvshows\\"; "\\movies\\"; "\\downloads\\"; "\\media\\";
    "C:\\"; "D:\\"; "/home/"; "/mnt/" ].

(** The [for prefix in ...: if ...: clean_path = clean_path[len(prefix):]; break]
    loop. *)
Fixpoint strip_known_prefix (prefixes : list string) (clean_path : string) : string :=
  match prefixes with
  | [] => clean_path
  | prefix :: rest =>
      if Py.startswith (Py.lower clean_path) (Py.lower prefix)
      then Py.slice_from clean_path (String.length prefix)
      else strip_known_prefix rest clean_path
  end.

(** The separator of the second branch: the Python literal ['\\\\'], two
    backslashes. *)
Definition backslash_sep : string := "\\".

(** [NZBInfoClient._clean_file_path]. *)
Definition _clean_file_path (file_path : string) : string :=
  if String.eqb file_path "" then "Unknown"
  else
    let clean_path := strip_known_prefix path_prefixes_to_remove file_path in
    if Py.has_char "/" clean_path then Py.last_item (Py.split clean_path "/")
    else if Py.contains backslash_sep clean_path
    then Py.last_item (Py.split clean_path backslash_sep)
    else clean_path.

(** [NZBInfoClient._smart_truncate]. *)
Definition _smart_truncate (text : string) (max_length : Z) : string :=
  if Py.len text <=? max_length then text
  else
    let fallback := Py.slice_to text (max_length - 3) +++ "..." in
    if Py.has_char "." text then
      let '(name, ext) := Py.rsplit1 "." text in
      if Py.len ext <=? 4 then
        let available := max_length - Py.len ext - 4 in
        if available >? 10 then Py.slice_to name available +++ "..." +++ ext
        else fallback
      else fallback
    else fallback.

(** [NZBInfoClient._format_recent_files]. *)
Definition _format_recent_files (files : list string) : string :=
  match files with
  | [] => "No recent activity"
  | _ =>
      let recent_files :=
        List.map (fun file => _smart_truncate (_clean_file_path file) 30)
                 (List.firstn 2 files) in
      "Recent: " +++ Py.join " | " recent_files
  end.

(* ------------------------------------------------------------------ *)
(** ** Numbers: [float(s)] and fixed-point formatting *)

Module PyNum.

Definition is_digit (c : ascii) : bool :=
  let n := nat_of_ascii c in andb (48 <=? n)%nat (n <=? 57)%nat.

Fixpoint all_digits (s : string) : bool :=
  match s with
  | EmptyString => true
  | String c s' => andb (is_digit c) (all_digits s')
  end.

Fixpoint digits_value (s : string) (acc : Z) : Z :=
  match s with
  | EmptyString => acc
  | String c s' => digits_value s' (10 * acc + Z.of_nat (nat_of_ascii c - 48))
  end.

(** An unsigned decimal literal [ddd], [ddd.], [.ddd] or [ddd.ddd]. *)
Definition parse_unsigned (s : string) : option Q :=
  match Py.split s "." with
  | [a] =>
      if andb (negb (String.eqb a "")) (all_digits a)
      then Some (inject_Z (digits_value a 0)) else None
  | [a; b] =>
      if andb (negb (andb (String.eqb a "") (String.eqb b "")))
              (andb (all_digits a) (all_digits b))
      then Some (inject_Z (digits_value (a +++ b) 0)
                 / inject_Z (10 ^ Z.of_nat (String.length b)))%Q
      else None
  | _ => None
  end.

(** [float(s)] on a decimal literal with an optional sign; any other
    text raises [ValueError] ([None]). Exponents, [inf], [nan] and
    digit-group underscores, which Python also accepts, are read as
    errors here. *)
Definition parse_float (s : string) : option Q :=
  match s with
  | String c r =>
      if Ascii.eqb c "-" then option_map Qopp (parse_unsigned r)
      else if Ascii.eqb c "+" then parse_unsigned r
      else parse_unsigned s
  | EmptyString => None
  end.

Definition qlt (a b : Q) : bool := negb (Qle_bool b a).

(** Round half to even, as [format(x, ".0f")]. *)
Definition round_half_even (q : Q) : Z :=
  let n := Qnum q in
  let d := Zpos (Qden q) in
  let fl := n / d in
  let r := n - fl * d in
  match Z.compare (2 * r) d with
  | Lt => fl
  | Gt => fl + 1
  | Eq => if Z.even fl then fl else fl + 1
  end.

(** [f"{x:.0f}"] for a non-negative [x]. *)
Definition fmt0 (q : Q) : string := Py.z_str (round_half_even q).

(** [f"{x:.1f}"] for a non-negative [x]. *)
Definition fmt1 (q : Q) : string :=
  let t := round_half_even (q * 10)%Q in
  Py.z_str (t / 10) +++ "." +++ Py.z_str (t mod 10).

End PyNum.

(** The unit conversion shared by [size_mb] and [speed_mb]. *)
Definition to_mb (value : Q) (unit : string) : Q :=
  if Py.startswith unit "GB" then (value * 1024)%Q
  else if Py.startswith unit "KB" then (value / 1024)%Q
  else value.

(** [f" ({hours}h{minutes:02d}m)"] with [hours = int(eta_minutes // 60)]
    and [minutes = int(eta_minutes % 60)]. *)
Definition eta_hours (eta_minutes : Q) : string :=
  let hours := Qfloor (eta_minutes / 60)%Q in
  let minutes :=
    Qfloor (eta_minutes - 60 * inject_Z (Qfloor (eta_minutes / 60)))%Q in
  " (" +++ Py.z_str hours +++ "h" +++ Py.z_str02 minutes +++ "m)".

(** The ETA rendering of [_calculate_eta] once [eta_minutes] is known. *)
Definition render_eta (eta_minutes : Q) : string :=
  if PyNum.qlt eta_minutes 1%Q then " (<1m)"
  else if PyNum.qlt eta_minutes 60%Q then " (" +++ PyNum.fmt0 eta_minutes +++ "m)"
  else eta_hours eta_minutes.

(** [NZBInfoClient._calculate_eta]; [""] also stands for the [except]
    branch ([ValueError] of [float]). *)
Definition _calculate_eta (size_left speed : string) : string :=
  if orb (String.eqb size_left "") (String.eqb size_left "0 B") then ""
  else if orb (String.eqb speed "")
            (orb (String.eqb speed "0") (Py.contains "0 B/s" speed)) then ""
  else
    match Py.split_ws size_left, Py.split_ws speed with
    | [size_v; size_u], [speed_v; speed_u] =>
        match PyNum.parse_float size_v, PyNum.parse_float speed_v with
        | Some size_value, Some speed_value =>
            let size_unit := Py.upper size_u in
            let speed_unit := Py.replace (Py.upper speed_u) "/S" "" in
            let size_mb := to_mb size_value size_unit in
            let speed_mb := to_mb speed_value speed_unit in
            if Qle_bool speed_mb 0 then ""
            else render_eta (size_mb / speed_mb / 60)%Q
        | _, _ => ""
        end
    | _, _ => ""
    end.

(* ------------------------------------------------------------------ *)
(** ** Dates: [datetime] values and [_format_upcoming_date] *)

Record py_date := { year : Z; month : Z; day : Z }.

(** A parsed [datetime]: its calendar date and its [tzinfo] (the UTC
    offset in minutes, [None] for a naive value). *)
Record py_datetime := { dt_date : py_date; dt_tz : option Z }.

(** The proleptic Gregorian day number of a date; [(d1 - d2).days] is the
    difference of these numbers. *)
Definition days_from_civil (d : py_date) : Z :=
  let y := if month d <=? 2 then year d - 1 else year d in
  let era := y / 400 in
  let yoe := y - era * 400 in
  let mp := (month d + 9) mod 12 in
  let doy := (153 * mp + 2) / 5 + day d - 1 in
  let doe := yoe * 365 + yoe / 4 - yoe / 100 + doy in
  era * 146097 + doe.

(** [%b] in the C locale. *)
Definition month_abbr (m : Z) : string :=
  nth (Z.to_nat (m - 1))
      ["Jan"; "Feb"; "Mar"; "Apr"; "May"; "Jun";
       "Jul"; "Aug"; "Sep"; "Oct"; "Nov"; "Dec"] "".

(** [date_obj.strftime("%b %d")]. *)
Definition strftime_b_d (d : py_date) : string :=
  month_abbr (month d) +++ " " +++ Py.z_str02 (day d).

Section UpcomingDate.

(** [datetime.fromisoformat] (a library function: [None] when it raises)
    and the current date, [datetime.now(tz).date()] for a given [tzinfo]
    or [datetime.now().date()] for [None]. *)
Variable fromisoformat : string -> option py_datetime.
Variable today : option Z -> py_date.

(** The parsing step of [_format_upcoming_date]. *)
Definition parse_date_str (date_str : string) : option py_datetime :=
  if Py.has_char "T" date_str
  then fromisoformat (Py.replace date_str "Z" "+00:00")
  else fromisoformat date_str.

(** [(date_obj.date() - now.date()).days]. *)
Definition days_away (date_obj : py_datetime) : Z :=
  days_from_civil (dt_date date_obj) - days_from_civil (today (dt_tz date_obj)).

(** [NZBInfoClient._format_upcoming_date]. *)
Definition _format_upcoming_date (date_str : string) : string :=
  match parse_date_str date_str with
  | None => "Unknown"
  | Some date_obj =>
      let days_diff := days_away date_obj in
      if days_diff =? 0 then "Today"
      else if days_diff =? 1 then "Tomorrow"
      else if days_diff <? 7 then Py.z_str days_diff +++ "d"
      else strftime_b_d (dt_date date_obj)
  end.

End UpcomingDate.

(** A concrete [fromisoformat] for the forms [YYYY-MM-DD],
    [YYYY-MM-DDTHH:MM:SS] and [YYYY-MM-DDTHH:MM:SS+HH:MM]; it stands for
    the library function in concrete runs. *)
Definition digits_of (s : string) : option Z :=
  if andb (negb (String.eqb s "")) (PyNum.all_digits s)
  then Some (PyNum.digits_value s 0) else None.

Definition is_leap (y : Z) : bool :=
  orb (andb (y mod 4 =? 0) (negb (y mod 100 =? 0))) (y mod 400 =? 0).

Definition days_in_month (y m : Z) : Z :=
  if m =? 2 then (if is_leap y then 29 else 28)
  else if orb (orb (m =? 4) (m =? 6)) (orb (m =? 9) (m =? 11)) then 30
  else 31.

Definition parse_ymd (s : string) : option py_date :=
  match Py.split s "-" with
  | [ys; ms; ds] =>
      if andb (String.length ys =? 4)%nat
           (andb (String.length ms =? 2)%nat (String.length ds =? 2)%nat) then
        match digits_of ys, digits_of ms, digits_of ds with
        | Some y, Some m, Some d =>
            if andb (andb (1 <=? y) (andb (1 <=? m) (m <=? 12)))
                    (andb (1 <=? d) (d <=? days_in_month y m))
            then Some {| year := y; month := m; day := d |} else None
        | _, _, _ => None
        end
      else None
  | _ => None
  end.

Definition parse_hms (s : string) : bool :=
  match Py.split s ":" with
  | [hs; ms; ss] =>
      match digits_of hs, digits_of ms, digits_of ss with
      | Some h, Some m, Some sec =>
          andb (andb (String.length hs =? 2)%nat
                 (andb (String.length ms =? 2)%nat (String.length ss =? 2)%nat))
               (andb (h <=? 23) (andb (m <=? 59) (sec <=? 59)))
      | _, _, _ => false
      end
  | _ => false
  end.

Definition parse_offset (s : string) : option (option Z) :=
  match s with
  | EmptyString => Some None
  | String c r =>
      match Py.split r ":" with
      | [hs; ms] =>
          match digits_of hs, digits_of ms with
          | Some h, Some m =>
              if andb (andb (String.length hs =? 2)%nat (String.length ms =? 2)%nat)
                      (andb (h <=? 23) (m <=? 59)) then
                if Ascii.eqb c "+" then Some (Some (60 * h + m))
                else if Ascii.eqb c "-" then Some (Some (- (60 * h + m)))
                else None
              else None
          | _, _ => None
          end
      | _ => None
      end
  end.

Definition iso_fromisoformat (s : string) : option py_datetime :=
  match parse_ymd (String.substring 0 10 s) with
  | None => None
  | Some d =>
      let rest := Py.slice_from s 10 in
      match rest with
      | EmptyString => Some {| dt_date := d; dt_tz := None |}
      | String c r =>
          if andb (Ascii.eqb c "T") (parse_hms (String.substring 0 8 r)) then
            match parse_offset (Py.slice_from r 8) with
            | Some tz => Some {| dt_date := d; dt_tz := tz |}
            | None => None
            end
          else None
      end
  end.

(* ------------------------------------------------------------------ *)
(** ** [AppStatus] and the adapter monad *)

(** Values stored in [raw_data]. *)
Inductive pyval := PInt (z : Z) | PNum (q : Q) | PStr (s : string).

(** [AppStatus]: [last_updated] is the [time.time()] reading. *)
Record AppStatus := {
  app_name : string;
  is_online : bool;
  title : string;
  primary_info : string;
  secondary_info : string;
  last_updated : Q;
  raw_data : list (string * pyval)
}.

(** [str.title()] on ASCII text: a letter is upper-cased after a
    non-letter and lower-cased after a letter. *)
Definition is_alpha (c : ascii) : bool :=
  let n := nat_of_ascii c in
  orb (andb (65 <=? n)%nat (n <=? 90)%nat) (andb (97 <=? n)%nat (n <=? 122)%nat).

Fixpoint title_go (prev_alpha : bool) (s : string) : string :=
  match s with
  | EmptyString => EmptyString
  | String c s' =>
      String (if prev_alpha then Py.lower_char c else Py.upper_char c)
             (title_go (is_alpha c) s')
  end.

Definition py_title (s : string) : string := title_go false s.

(** [AppStatus(app_name)]. *)
Definition new_AppStatus (name : string) (now : Q) : AppStatus := {|
  app_name := name; is_online := false; title := py_title name;
  primary_info := "Offline"; secondary_info := "Not connected";
  last_updated := now; raw_data := [] |}.

Definition set_is_online (b : bool) (s : AppStatus) : AppStatus :=
  {| app_name := app_name s; is_online := b; title := title s;
     primary_info := primary_info s; secondary_info := secondary_info s;
     last_updated := last_updated s; raw_data := raw_data s |}.
Definition set_title (t : string) (s : AppStatus) : AppStatus :=
  {| app_name := app_name s; is_online := is_online s; title := t;
     primary_info := primary_info s; secondary_info := secondary_info s;
     last_updated := last_updated s; raw_data := raw_data s |}.
Definition set_primary_info (t : string) (s : AppStatus) : AppStatus :=
  {| app_name := app_name s; is_online := is_online s; title := title s;
     primary_info := t; secondary_info := secondary_info s;
     last_updated := last_updated s; raw_data := raw_data s |}.
Definition set_secondary_info (t : string) (s : AppStatus) : AppStatus :=
  {| app_name := app_name s; is_online := is_online s; title := title s;
     primary_info := primary_info s; secondary_info := t;
     last_updated := last_updated s; raw_data := raw_data s |}.
Definition set_last_updated (q : Q) (s : AppStatus) : AppStatus :=
  {| app_name := app_name s; is_online := is_online s; title := title s;
     primary_info := primary_info s; secondary_info := secondary_info s;
     last_updated := q; raw_data := raw_data s |}.
Definition set_raw_data (r : list (string * pyval)) (s : AppStatus) : AppStatus :=
  {| app_name := app_name s; is_online := is_online s; title := title s;
     primary_info := primary_info s; secondary_info := secondary_info s;
     last_updated := last_updated s; raw_data := r |}.

(** A Python computation that may raise an [Exception] (carrying
    [str(ex)]); mutations made before the raise persist, as on the shared
    [AppStatus] object. *)
Inductive exc (A : Type) := Ok (a : A) | Raise (msg : string).
Arguments Ok {A} a.
Arguments Raise {A} msg.

Definition M (A : Type) : Type := AppStatus -> AppStatus * exc A.

Global Instance M_ret : MRet M := fun A a s => (s, Ok a).
Global Instance M_bind : MBind M := fun A B f m s =>
  match m s with
  | (s', Ok a) => f a s'
  | (s', Raise msg) => (s', Raise msg)
  end.

Definition raise {A} (msg : string) : M A := fun s => (s, Raise msg).

(** [try: body except Exception as ex: handler(str(ex))]. *)
Definition try_except {A} (body : M A) (handler : string -> M A) : M A :=
  fun s =>
    match body s with
    | (s', Ok a) => (s', Ok a)
    | (s', Raise msg) => handler msg s'
    end.

Definition get_status : M AppStatus := fun s => (s, Ok s).
Definition modify (f : AppStatus -> AppStatus) : M unit := fun s => (f s, Ok tt).

(** [status.is_online = False; status.primary_info = p; status.secondary_info = q]. *)
Definition go_offline (p q : string) : M unit :=
  modify (set_is_online false);; modify (set_primary_info p);;
  modify (set_secondary_info q).

(** The status record [go_offline p q] leaves. *)
Definition offline_status (p q : string) (s : AppStatus) : AppStatus :=
  set_secondary_info q (set_primary_info p (set_is_online false s)).

(* ------------------------------------------------------------------ *)
(** ** HTTP calls *)

(** A decoded JSON body, or the exception [response.json()] raises. *)
Inductive json (B : Type) := JOk (v : B) | JBad (msg : string).
Arguments JOk {B} v.
Arguments JBad {B} msg.

(** The outcome of one request: the exception raised by the session
    (connection refused, timeout, ...), or the response. *)
Inductive outcome (B : Type) :=
| Fail (msg : string)
| Reply (status : Z) (content_type : option string) (body : json B).
Arguments Fail {B} msg.
Arguments Reply {B} status content_type body.

(** A request that does not deliver a decoded [200] answer: the session
    raises, the server answers with another status, or the body of its
    [200] answer fails to decode. *)
Definition request_failed {B} (o : outcome B) : bool :=
  match o with
  | Fail _ => true
  | Reply code _ (JOk _) => negb (code =? 200)
  | Reply _ _ (JBad _) => true
  end.

Record response (B : Type) := {
  resp_status : Z; resp_content_type : option string; resp_body : json B }.
Arguments resp_status {B} r.
Arguments resp_content_type {B} r.
Arguments resp_body {B} r.

(** [async with self._session.get(...) as response]. *)
Definition http {B} (o : outcome B) : M (response B) :=
  match o with
  | Fail msg => raise msg
  | Reply st ct b => mret {| resp_status := st; resp_content_type := ct; resp_body := b |}
  end.

(** [await response.json()]. *)
Definition read_json {B} (r : response B) : M B :=
  match resp_body r with
  | JOk v => mret v
  | JBad msg => raise msg
  end.

(** [d.get(k, default)] for a field modelled as an option. *)
Definition get_or {A} (d : A) (o : option A) : A :=
  match o with Some v => v | None => d end.

(** [a or b] on a value that may be [None] or [""]. *)
Definition str_or (o : option string) (k : string) : string :=
  match o with
  | Some v => if String.eqb v "" then k else v
  | None => k
  end.

(** [str(ex)[:50]]. *)
Definition err_detail (msg : string) : string := Py.slice_to msg 50.

(** [f"HTTP {response.status}"]. *)
Definition http_detail (code : Z) : string := "HTTP " +++ Py.z_str code.

(* ------------------------------------------------------------------ *)
(** ** JSON payloads, at the fields the adapters read *)

(** [queue_data["queue"]]: the [filename] of each slot, [speed], [sizeleft]. *)
Record SabQueue := {
  sq_slots : list (option string);
  sq_speed : option string;
  sq_sizeleft : option string }.

(** [data["result"]] of the NZBGet [status] call. *)
Record NzbStatus := {
  ns_DownloadRate : option Q;
  ns_RemainingSizeMB : option Q }.

(** One calendar entry of a library manager ([series.title] and
    [series.seriesTitle] are the nested [series] object's fields;
    [ci_episodeFile] is [None] when the key is absent and holds its
    [path] otherwise; [ci_year] is [str(year)]). *)
Record CalItem := {
  ci_monitored : bool;
  ci_hasFile : bool;
  ci_series_title : option string;
  ci_series_seriesTitle : option string;
  ci_seriesTitle : option string;
  ci_seriesName : option string;
  ci_episodeFile : option (option string);
  ci_seasonNumber : option Z;
  ci_episodeNumber : option Z;
  ci_airDate : option string;
  ci_title : option string;
  ci_year : option string;
  ci_inCinemas : option string;
  ci_artistName : option string;
  ci_authorName : option string;
  ci_releaseDate : option string }.

(** One Bazarr history entry: its title field ([seriesTitle] for
    episodes, [title] for movies) and [language]. *)
Record BazItem := { bz_title : option string; bz_language : option string }.

(** One Overseerr request: [status], [type], [media.title],
    [media.releaseDate], [media.name]. *)
Record OvrRequest := {
  or_status : option Z;
  or_type : option string;
  or_media_title : option string;
  or_media_releaseDate : option string;
  or_media_name : option string }.

(** What the servers of one application answer during one poll.
    [sab_history]/[nzb_history] list the [name]/[Name] of each history
    entry; [mm_calendar] is [None] when the body is not a JSON list;
    [mm_history] is [None] when the body has no ["records"] list and
    otherwise lists each record's [sourceTitle]; [baz_episodes] and
    [baz_movies] are the ["data"] lists; [ovr_requests] the ["results"]. *)
Record AppNet := {
  sab_queue : outcome SabQueue;
  sab_history : outcome (list (option string));
  nzb_status : outcome NzbStatus;
  nzb_history : outcome (list (option string));
  mm_calendar : outcome (option (list CalItem));
  mm_history : outcome (option (list (option string)));
  baz_status : outcome unit;
  baz_episodes : outcome (list BazItem);
  baz_movies : outcome (list BazItem);
  ovr_requests : outcome (list OvrRequest) }.

(* ------------------------------------------------------------------ *)
(** ** The adapters *)

Section Adapters.

(** [datetime.fromisoformat], the current date per [tzinfo], and the
    [time.time()] reading of this poll. *)
Context (fromisoformat : string -> option py_datetime).
Context (today : option Z -> py_date).
Context (time_time : Q).

Definition touch : M unit := modify (set_last_updated time_time).
Definition set_primary (t : string) : M unit := modify (set_primary_info t).
Definition set_secondary (t : string) : M unit := modify (set_secondary_info t).

(** The primary line of [_update_sabnzbd_2row]. *)
Definition sabnzbd_primary (active_jobs : list (option string)) (speed size_left : string)
  : string :=
  match active_jobs with
  | current_job :: _ =>
      let filename := get_or "Unknown" current_job in
      let display_name := _smart_truncate filename 20 in
      let eta := _calculate_eta size_left speed in
      "Downloading: " +++ display_name +++ " @ " +++ speed +++ eta
  | [] => "Queue idle"
  end.

(** [NZBInfoClient._update_sabnzbd_2row]. *)
Definition _update_sabnzbd_2row (net : AppNet) : M bool :=
  try_except
    (response ← http (sab_queue net);
     if resp_status response =? 200 then
       queue ← read_json response;
       let active_jobs := sq_slots queue in
       let speed := get_or "0 B/s" (sq_speed queue) in
       let size_left := get_or "0 B" (sq_sizeleft queue) in
       modify (set_is_online true);;
       modify (set_title "SABnzbd");;
       set_primary (sabnzbd_primary active_jobs speed size_left);;
       try_except
         (hist_response ← http (sab_history net);
          if resp_status hist_response =? 200 then
            slots ← read_json hist_response;
            set_secondary (_format_recent_files (List.map (get_or "Unknown") slots))
          else set_secondary "No recent activity")
         (fun _ => set_secondary "No recent activity");;
       modify (set_raw_data [("queue_count", PInt (Z.of_nat (length active_jobs)));
                             ("speed", PStr speed)]);;
       touch;;
       mret true
     else
       go_offline "API Error" (http_detail (resp_status response));;
       mret false)
    (fun ex => go_offline "Connection Error" (err_detail ex);; mret false).

(** The primary line of [_update_nzbget_2row]. *)
Definition nzbget_primary (download_rate remaining_size : Q) : string :=
  if PyNum.qlt 0 download_rate then
    let speed_mb := (download_rate / 1024 / 1024)%Q in
    let eta :=
      if andb (PyNum.qlt 0 remaining_size) (PyNum.qlt 0 speed_mb) then
        let eta_minutes := (remaining_size / speed_mb / 60)%Q in
        if PyNum.qlt eta_minutes 60 then " (" +++ PyNum.fmt0 eta_minutes +++ "m)"
        else eta_hours eta_minutes
      else "" in
    "Downloading @ " +++ PyNum.fmt1 speed_mb +++ " MB/s" +++ eta
  else "Queue idle".

(** [NZBInfoClient._update_nzbget_2row]. *)
Definition _update_nzbget_2row (net : AppNet) : M bool :=
  try_except
    (response ← http (nzb_status net);
     if resp_status response =? 200 then
       result ← read_json response;
       let download_rate := get_or 0%Q (ns_DownloadRate result) in
       let remaining_size := get_or 0%Q (ns_RemainingSizeMB result) in
       modify (set_is_online true);;
       modify (set_title "NZBget");;
       set_primary (nzbget_primary download_rate remaining_size);;
       try_except
         (hist_response ← http (nzb_history net);
          if resp_status hist_response =? 200 then
            history ← read_json hist_response;
            set_secondary
              (_format_recent_files (List.map (get_or "Unknown") (List.firstn 2 history)))
          else set_secondary "No recent activity")
         (fun _ => set_secondary "No recent activity");;
       modify (set_raw_data [("download_rate", PNum download_rate);
                             ("remaining_mb", PNum remaining_size)]);;
       touch;;
       mret true
     else
       go_offline "API Error" (http_detail (resp_status response));;
       mret false)
    (fun ex => go_offline "Connection Error" (err_detail ex);; mret false).

(** The [sonarr] branch of [_get_upcoming_content]. *)
Definition sonarr_upcoming (upcoming : CalItem) : string :=
  let series_title0 :=
    str_or (ci_series_title upcoming)
      (str_or (ci_series_seriesTitle upcoming)
         (str_or (ci_seriesTitle upcoming)
            (str_or (ci_seriesName upcoming) "Unknown Series"))) in
  let series_title :=
    if String.eqb series_title0 "Unknown Series" then
      match ci_episodeFile upcoming with
      | Some path =>
          let file_path := get_or "" path in
          if String.eqb file_path "" then series_title0
          else
            let path_parts := Py.split file_path "/" in
            if (3 <=? length path_parts)%nat
            then nth (length path_parts - 3) path_parts ""
            else series_title0
      | None => series_title0
      end
    else series_title0 in
  let season := get_or 0 (ci_seasonNumber upcoming) in
  let episode := get_or 0 (ci_episodeNumber upcoming) in
  let air_date := _format_upcoming_date fromisoformat today (get_or "" (ci_airDate upcoming)) in
  let t := _smart_truncate
             (series_title +++ " S" +++ Py.z_str02 season +++ "E" +++ Py.z_str02 episode) 25 in
  "Next: " +++ t +++ " (" +++ air_date +++ ")".

(** The [radarr] branch. *)
Definition radarr_upcoming (upcoming : CalItem) : string :=
  let movie_title := get_or "Unknown" (ci_title upcoming) in
  let year := get_or "" (ci_year upcoming) in
  let release_date :=
    _format_upcoming_date fromisoformat today (get_or "" (ci_inCinemas upcoming)) in
  let t := _smart_truncate (movie_title +++ " (" +++ year +++ ")") 25 in
  "Next: " +++ t +++ " (" +++ release_date +++ ")".

(** The [lidarr] and [readarr] branches differ only in their defaults. *)
Definition lidarr_upcoming (upcoming : CalItem) : string :=
  let artist := get_or "Unknown Artist" (ci_artistName upcoming) in
  let album_title := get_or "Unknown Album" (ci_title upcoming) in
  let release_date :=
    _format_upcoming_date fromisoformat today (get_or "" (ci_releaseDate upcoming)) in
  let t := _smart_truncate (artist +++ " - " +++ album_title) 25 in
  "Next: " +++ t +++ " (" +++ release_date +++ ")".

Definition readarr_upcoming (upcoming : CalItem) : string :=
  let author := get_or "Unknown Author" (ci_authorName upcoming) in
  let book_title := get_or "Unknown Book" (ci_title upcoming) in
  let release_date :=
    _format_upcoming_date fromisoformat today (get_or "" (ci_releaseDate upcoming)) in
  let t := _smart_truncate (author +++ " - " +++ book_title) 25 in
  "Next: " +++ t +++ " (" +++ release_date +++ ")".

(** [NZBInfoClient._get_upcoming_content]. *)
Definition _get_upcoming_content (net : AppNet) : M unit :=
  try_except
    (response ← http (mm_calendar net);
     if resp_status response =? 200 then
       calendar_data ← read_json response;
       match calendar_data with
       | Some ((_ :: _) as items) =>
           match List.find (fun item => andb (ci_monitored item) (negb (ci_hasFile item))) items with
           | Some upcoming =>
               status ← get_status;
               let n := app_name status in
               if String.eqb n "sonarr" then set_primary (sonarr_upcoming upcoming)
               else if String.eqb n "radarr" then set_primary (radarr_upcoming upcoming)
               else if String.eqb n "lidarr" then set_primary (lidarr_upcoming upcoming)
               else if String.eqb n "readarr" then set_primary (readarr_upcoming upcoming)
               else mret tt
           | None => set_primary "No upcoming releases"
           end
       | _ => set_primary "No upcoming releases"
       end
     else set_primary "Calendar unavailable")
    (fun _ => set_primary "No upcoming data").

(** [if source and source != 'Unknown'] in [_get_recent_activity]. *)
Definition is_known_source (source : string) : bool :=
  andb (negb (String.eqb source "")) (negb (String.eqb source "Unknown")).

(** [NZBInfoClient._get_recent_activity]. *)
Definition _get_recent_activity (net : AppNet) : M unit :=
  try_except
    (response ← http (mm_history net);
     if resp_status response =? 200 then
       hist_data ← read_json response;
       match get_or [] hist_data with
       | [] => set_secondary "No recent activity"
       | records =>
           let recent_files :=
             List.map _clean_file_path
               (List.filter is_known_source
                  (List.map (get_or "Unknown") (List.firstn 2 records))) in
           set_secondary (_format_recent_files recent_files)
       end
     else set_secondary "History unavailable")
    (fun _ => set_secondary "No recent activity").

(** [NZBInfoClient._update_media_manager_2row]. *)
Definition _update_media_manager_2row (net : AppNet) : M bool :=
  try_except
    (modify (set_is_online true);;
     status ← get_status;
     modify (set_title (py_title (app_name status)));;
     _get_upcoming_content net;;
     _get_recent_activity net;;
     touch;;
     mret true)
    (fun ex => go_offline "Connection Error" (err_detail ex);; mret false).

(** [f"{title} ({language})"] or the bare title. *)
Definition baz_entry (item : BazItem) : string :=
  let t := get_or "Unknown" (bz_title item) in
  match bz_language item with
  | Some language => if String.eqb language "" then t else t +++ " (" +++ language +++ ")"
  | None => t
  end.

(** The movies loop: append, and [break] once two entries are collected. *)
Fixpoint append_until_two (recent : list string) (items : list string) : list string :=
  match items with
  | [] => recent
  | x :: rest =>
      let recent' := recent ++ [x] in
      if (2 <=? length recent')%nat then recent' else append_until_two recent' rest
  end.

(** [NZBInfoClient._update_bazarr_2row]. The probe returns [Some r] when
    the adapter returns [r] right after it. *)
Definition _update_bazarr_2row (net : AppNet) : M bool :=
  modify (set_is_online true);;
  modify (set_title "Bazarr");;
  probe ← try_except
    (response ← http (baz_status net);
     if negb (resp_status response =? 200) then
       go_offline "Connection Error" (http_detail (resp_status response));;
       mret (Some false)
     else if Py.contains "text/html" (get_or "" (resp_content_type response)) then
       set_primary "Authentication Error";;
       set_secondary "Check API key configuration";;
       mret (Some false)
     else mret None)
    (fun e => go_offline "Connection Error" (err_detail e);; mret (Some false));
  match probe with
  | Some r => mret r
  | None =>
      episodes ← try_except
        (response ← http (baz_episodes net);
         if resp_status response =? 200 then
           episodes_list ← read_json response;
           mret (List.map baz_entry episodes_list)
         else mret [])
        (fun _ => mret []);
      recent_downloads ←
        (if (length episodes <? 2)%nat then
           try_except
             (response ← http (baz_movies net);
              if resp_status response =? 200 then
                movies_list ← read_json response;
                mret (append_until_two episodes (List.map baz_entry movies_list))
              else mret episodes)
             (fun _ => mret episodes)
         else mret episodes);
      set_primary (match recent_downloads with
                   | [] => "Subtitle manager idle"
                   | _ => "Subtitle downloads active" end);;
      set_secondary (match recent_downloads with
                     | [] => "No recent downloads"
                     | _ => _format_recent_files recent_downloads end);;
      modify (set_raw_data [("recent_count", PInt (Z.of_nat (length recent_downloads)))]);;
      touch;;
      mret true
  end.

(** One entry of the Overseerr recent list. *)
Definition ovr_title (request : OvrRequest) : string :=
  match or_type request with
  | Some "movie"%string =>
      get_or "Unknown" (or_media_title request) +++ " ("
        +++ Py.slice_to (get_or "" (or_media_releaseDate request)) 4 +++ ")"
  | _ => get_or "Unknown" (or_media_name request)
  end.

Definition is_pending (r : OvrRequest) : bool :=
  match or_status r with Some z => z =? 1 | None => false end.

(** [NZBInfoClient._update_overseerr_2row]. *)
Definition _update_overseerr_2row (net : AppNet) : M bool :=
  try_except
    (response ← http (ovr_requests net);
     if resp_status response =? 200 then
       all_requests ← read_json response;
       modify (set_is_online true);;
       modify (set_title "Overseerr");;
       let pending_requests := List.filter is_pending all_requests in
       set_primary (match pending_requests with
                    | [] => "No pending requests"
                    | _ => Py.z_str (Z.of_nat (length pending_requests)) +++ " pending requests"
                    end);;
       set_secondary (match all_requests with
                      | [] => "No recent requests"
                      | _ => _format_recent_files (List.map ovr_title (List.firstn 2 all_requests))
                      end);;
       modify (set_raw_data [("pending_count", PInt (Z.of_nat (length pending_requests)))]);;
       touch;;
       mret true
     else
       go_offline "API Error" (http_detail (resp_status response));;
       mret false)
    (fun ex => go_offline "Connection Error" (err_detail ex);; mret false).

Definition is_media_manager (app_name : string) : bool :=
  existsb (String.eqb app_name) ["sonarr"; "radarr"; "lidarr"; "readarr"].

(** The body of [_update_app_status] once [status] is found; [has_host]
    is [app_config and "host" in app_config]. [None] is the implicit
    [return None] of an unknown application name. *)
Definition update_app_status_body (has_host : bool) (app_name : string) (net : AppNet)
  : M (option bool) :=
  try_except
    (if negb has_host then
       go_offline "Not configured" "Missing configuration";;
       mret (Some false)
     else if String.eqb app_name "sabnzbd" then
       r ← _update_sabnzbd_2row net; mret (Some r)
     else if String.eqb app_name "nzbget" then
       r ← _update_nzbget_2row net; mret (Some r)
     else if is_media_manager app_name then
       r ← _update_media_manager_2row net; mret (Some r)
     else if String.eqb app_name "bazarr" then
       r ← _update_bazarr_2row net; mret (Some r)
     else if String.eqb app_name "overseerr" then
       r ← _update_overseerr_2row net; mret (Some r)
     else mret None)
    (fun ex =>
       go_offline "Connection Error" (err_detail ex);;
       mret (Some false)).

End Adapters.

(* ------------------------------------------------------------------ *)
(** ** Configuration ([config.py]) *)

(** One entry of [config["applications"]]; [ac_host] is [None] when the
    ["host"] key is absent. *)
Record AppConfig := {
  ac_host : option string;
  ac_port : option Z;
  ac_ssl : bool;
  ac_api_key : option string;
  ac_url_base : option string }.

Record Config := {
  enabled_apps : list string;
  applications : gmap string AppConfig }.

(** [app_config and "host" in app_config], with [get_app_config]
    returning [{}] for an unknown application. *)
Definition has_host (cfg : Config) (app_name : string) : bool :=
  match applications cfg !! app_name with
  | Some ac => match ac_host ac with Some _ => true | None => false end
  | None => false
  end.

(* ------------------------------------------------------------------ *)
(** ** The client and its heap *)

(** Python objects reachable from the client: [AppStatus] objects and
    dictionaries from application names to [AppStatus] references. A
    dictionary holds references, so two dictionaries can share the same
    [AppStatus] objects. *)
Record World := {
  objs : gmap positive AppStatus;
  dicts : gmap positive (gmap string positive) }.

(** The fields of an [NZBInfoClient]: [_config], whether [_session] is
    set, the reference of the [_app_statuses] dictionary, [_is_connected]. *)
Record Client := {
  cl_config : Config;
  cl_session : bool;
  cl_statuses : positive;
  cl_is_connected : bool }.

Definition dict_get (w : World) (l : positive) : gmap string positive :=
  match dicts w !! l with Some d => d | None => ∅ end.

Definition dict_set (w : World) (l : positive) (d : gmap string positive) : World :=
  {| objs := objs w; dicts := <[l := d]> (dicts w) |}.

(** [d[k] = v] and [del d[k]] on the dictionary [l]. *)
Definition dict_insert (w : World) (l : positive) (k : string) (v : positive) : World :=
  dict_set w l (<[k := v]> (dict_get w l)).
Definition dict_delete (w : World) (l : positive) (k : string) : World :=
  dict_set w l (delete k (dict_get w l)).

Definition alloc_dict (w : World) (d : gmap string positive) : World * positive :=
  let l := fresh (dom (dicts w)) in (dict_set w l d, l).

Definition alloc_obj (w : World) (s : AppStatus) : World * positive :=
  let l := fresh (dom (objs w)) in
  ({| objs := <[l := s]> (objs w); dicts := dicts w |}, l).

Definition set_obj (w : World) (l : positive) (s : AppStatus) : World :=
  {| objs := <[l := s]> (objs w); dicts := dicts w |}.

(** [self._app_statuses.get(app_name)] with the object's reference. *)
Definition status_ref (w : World) (c : Client) (app_name : string)
  : option (positive * AppStatus) :=
  match dict_get w (cl_statuses c) !! app_name with
  | Some l => match objs w !! l with Some s => Some (l, s) | None => None end
  | None => None
  end.

(** [NZBInfoClient(config)]. *)
Definition new_client (cfg : Config) (w : World) : World * Client :=
  let '(w', l) := alloc_dict w ∅ in
  (w', {| cl_config := cfg; cl_session := false; cl_statuses := l;
          cl_is_connected := false |}).

Definition set_session (c : Client) (b : bool) : Client :=
  {| cl_config := cl_config c; cl_session := b; cl_statuses := cl_statuses c;
     cl_is_connected := cl_is_connected c |}.
Definition set_connected (c : Client) (b : bool) : Client :=
  {| cl_config := cl_config c; cl_session := cl_session c; cl_statuses := cl_statuses c;
     cl_is_connected := b |}.
Definition set_config (c : Client) (cfg : Config) : Client :=
  {| cl_config := cfg; cl_session := cl_session c; cl_statuses := cl_statuses c;
     cl_is_connected := cl_is_connected c |}.

(** [self._app_statuses[app_name].is_online = b] (a missing key raises
    [KeyError] in Python, which cannot happen after [connect] created
    the entries; here it leaves the world unchanged). *)
Definition set_online_of (w : World) (c : Client) (app_name : string) (b : bool) : World :=
  match status_ref w c app_name with
  | Some (l, s) => set_obj w l (set_is_online b s)
  | None => w
  end.

(** [NZBInfoClient._test_app_connection], the health-check request of
    [app_name] answered by [health app_name]. *)
Definition _test_app_connection (health : string -> outcome unit)
  (w : World) (c : Client) (app_name : string) : World * bool :=
  if negb (has_host (cl_config c) app_name) then (w, false)
  else
    match health app_name with
    | Reply code _ _ =>
        if orb (code =? 200) (code =? 401) then (set_online_of w c app_name true, true)
        else (set_online_of w c app_name false, false)
    | Fail _ => (set_online_of w c app_name false, false)
    end.

Fixpoint create_statuses (now : Q) (w : World) (c : Client) (apps : list string) : World :=
  match apps with
  | [] => w
  | a :: rest =>
      let '(w1, l) := alloc_obj w (new_AppStatus a now) in
      create_statuses now (dict_insert w1 (cl_statuses c) a l) c rest
  end.

Fixpoint test_all (health : string -> outcome unit) (w : World) (c : Client)
  (apps : list string) : World * nat :=
  match apps with
  | [] => (w, 0%nat)
  | a :: rest =>
      let '(w1, ok) := _test_app_connection health w c a in
      let '(w2, n) := test_all health w1 c rest in
      (w2, if ok then S n else n)
  end.

(** [NZBInfoClient.connect]: open the session, create one [AppStatus] per
    enabled application, probe each one. *)
Definition connect (health : string -> outcome unit) (now : Q) (w : World) (c : Client)
  : World * Client * bool :=
  let c1 := set_session c true in
  let w1 := create_statuses now w c1 (enabled_apps (cl_config c1)) in
  let '(w2, success_count) := test_all health w1 c1 (enabled_apps (cl_config c1)) in
  let ok := (0 <? success_count)%nat in
  (w2, set_connected c1 ok, ok).

(** [NZBInfoClient.disconnect]. *)
Definition disconnect (c : Client) : Client :=
  set_connected (set_session c false) false.

(** [NZBInfoClient.get_app_status]. *)
Definition get_app_status (w : World) (c : Client) (app_name : string) : option AppStatus :=
  match status_ref w c app_name with Some (_, s) => Some s | None => None end.

(** [NZBInfoClient.get_all_statuses]: [self._app_statuses.copy()], a new
    dictionary holding the same references. *)
Definition get_all_statuses (w : World) (c : Client) : World * positive :=
  alloc_dict w (dict_get w (cl_statuses c)).

Section Polling.

Context (fromisoformat : string -> option py_datetime).
Context (today : option Z -> py_date).
Context (time_time : Q).

(** [NZBInfoClient._update_app_status]: the task's result, an
    exception ([Raise]), a [bool] or [None]. *)
Definition _update_app_status (net : AppNet) (w : World) (c : Client) (app_name : string)
  : World * exc (option bool) :=
  match status_ref w c app_name with
  | None => (w, Ok (Some false))
  | Some (l, status) =>
      let '(status', r) :=
        update_app_status_body fromisoformat today time_time
          (has_host (cl_config c) app_name) app_name net status in
      (set_obj w l status', r)
  end.

(** [isinstance(result, bool) and result]. *)
Definition task_succeeded (r : exc (option bool)) : bool :=
  match r with Ok (Some true) => true | _ => false end.

(** [asyncio.gather] over one task per enabled application. A task only
    suspends at its HTTP calls and only touches its own [AppStatus]
    object, so with the servers' answers fixed by [net] every
    interleaving of distinct applications ends in the state of this
    sequential run. *)
Fixpoint gather_updates (net : string -> AppNet) (w : World) (c : Client)
  (apps : list string) : World * list (exc (option bool)) :=
  match apps with
  | [] => (w, [])
  | a :: rest =>
      let '(w1, r) := _update_app_status (net a) w c a in
      let '(w2, rs) := gather_updates net w1 c rest in
      (w2, r :: rs)
  end.

(** [NZBInfoClient.update_all_statuses], with the list of task results. *)
Definition update_all_statuses_results (net : string -> AppNet) (w : World) (c : Client)
  : World * list (exc (option bool)) * bool :=
  if negb (cl_session c) then (w, [], false)
  else
    let '(w1, results) := gather_updates net w c (enabled_apps (cl_config c)) in
    let success_count := length (List.filter task_succeeded results) in
    (w1, results, (0 <? success_count)%nat).

Definition update_all_statuses (net : string -> AppNet) (w : World) (c : Client)
  : World * bool :=
  let '(w1, _, ok) := update_all_statuses_results net w c in (w1, ok).

End Polling.

(** What can happen to a client after a caller obtained a map from it:
    connect, poll, disconnect, or a change of the shared configuration
    object. *)
Inductive client_op :=
| OpConnect (health : string -> outcome unit) (now : Q)
| OpPoll (fromisoformat : string -> option py_datetime) (today : option Z -> py_date)
         (now : Q) (net : string -> AppNet)
| OpDisconnect
| OpSetConfig (cfg : Config).

Definition run_op (wc : World * Client) (op : client_op) : World * Client :=
  let '(w, c) := wc in
  match op with
  | OpConnect health now => let '(w', c', _) := connect health now w c in (w', c')
  | OpPoll fi td now net => (fst (update_all_statuses fi td now net w c), c)
  | OpDisconnect => (w, disconnect c)
  | OpSetConfig cfg => (w, set_config c cfg)
  end.

Definition run_ops (wc : World * Client) (ops : list client_op) : World * Client :=
  fold_left run_op ops wc.

(* ------------------------------------------------------------------ *)
(** ** Concrete inputs *)

(** The current date of the concrete runs, whatever the [tzinfo]. *)
Definition fixed_today (_ : option Z) : py_date := {| year := 2026; month := 10; day := 17 |}.

(** A network in which every request raises [msg]. *)
Definition all_fail_net (msg : string) : AppNet := {|
  sab_queue := Fail msg; sab_history := Fail msg;
  nzb_status := Fail msg; nzb_history := Fail msg;
  mm_calendar := Fail msg; mm_history := Fail msg;
  baz_status := Fail msg; baz_episodes := Fail msg; baz_movies := Fail msg;
  ovr_requests := Fail msg |}.

(** SABnzbd downloading one job. *)
Definition show_queue : SabQueue := {|
  sq_slots := [Some "Show.S01E02.mkv"];
  sq_speed := Some "5 MB/s";
  sq_sizeleft := Some "300 MB" |}.

Definition json_ct : option string := Some "application/json".

Definition sab_show_net : AppNet := {|
  sab_queue := Reply 200 json_ct (JOk show_queue);
  sab_history := Reply 200 json_ct (JOk [Some "Other.Show.S01E01.mkv"]);
  nzb_status := Fail "unused"; nzb_history := Fail "unused";
  mm_calendar := Fail "unused"; mm_history := Fail "unused";
  baz_status := Fail "unused"; baz_episodes := Fail "unused"; baz_movies := Fail "unused";
  ovr_requests := Fail "unused" |}.

(** SABnzbd downloading [show_queue], its history request timing out. *)
Definition sab_history_down_net : AppNet := {|
  sab_queue := Reply 200 json_ct (JOk show_queue);
  sab_history := Fail "timeout";
  nzb_status := Fail "unused"; nzb_history := Fail "unused";
  mm_calendar := Fail "unused"; mm_history := Fail "unused";
  baz_status := Fail "unused"; baz_episodes := Fail "unused"; baz_movies := Fail "unused";
  ovr_requests := Fail "unused" |}.

(** SABnzbd downloading [show_queue], its history request answered
    with [503 Service Unavailable]. *)
Definition sab_history_503_net : AppNet := {|
  sab_queue := Reply 200 json_ct (JOk show_queue);
  sab_history := Reply 503 (Some "text/html") (JBad "not JSON");
  nzb_status := Fail "unused"; nzb_history := Fail "unused";
  mm_calendar := Fail "unused"; mm_history := Fail "unused";
  baz_status := Fail "unused"; baz_episodes := Fail "unused"; baz_movies := Fail "unused";
  ovr_requests := Fail "unused" |}.

(** Bazarr answering its status probe with an HTML login page. *)
Definition bazarr_html_net : AppNet := {|
  sab_queue := Fail "unused"; sab_history := Fail "unused";
  nzb_status := Fail "unused"; nzb_history := Fail "unused";
  mm_calendar := Fail "unused"; mm_history := Fail "unused";
  baz_status := Reply 200 (Some "text/html; charset=utf-8") (JOk tt);
  baz_episodes := Fail "unused"; baz_movies := Fail "unused";
  ovr_requests := Fail "unused" |}.

(** Bazarr reachable, but both history requests time out. *)
Definition bazarr_history_down_net : AppNet := {|
  sab_queue := Fail "unused"; sab_history := Fail "unused";
  nzb_status := Fail "unused"; nzb_history := Fail "unused";
  mm_calendar := Fail "unused"; mm_history := Fail "unused";
  baz_status := Reply 200 json_ct (JOk tt);
  baz_episodes := Fail "timeout"; baz_movies := Fail "timeout";
  ovr_requests := Fail "unused" |}.

Definition local_app (host : string) : AppConfig := {|
  ac_host := Some host; ac_port := None; ac_ssl := false;
  ac_api_key := Some "0123456789abcdef"; ac_url_base := None |}.

Definition bazarr_only_config : Config := {|
  enabled_apps := ["bazarr"];
  applications := {[ "bazarr" := local_app "192.168.1.10" ]} |}.

Definition sab_sonarr_config : Config := {|
  enabled_apps := ["sabnzbd"; "sonarr"];
  applications := {[ "sabnzbd" := local_app "192.168.1.10";
                     "sonarr" := local_app "192.168.1.11" ]} |}.

Definition health_ok (_ : string) : outcome unit := Reply 200 json_ct (JOk tt).

(** A client for [bazarr_only_config], connected. *)
Definition connected_bazarr : World * Client :=
  fst (connect health_ok 0 {| objs := ∅; dicts := {[1%positive := ∅]} |}
         {| cl_config := bazarr_only_config; cl_session := false;
            cl_statuses := 1; cl_is_connected := false |}).

(** A client created, connected and polled once, against [net]. *)
Definition connect_then_poll (cfg : Config) (net : string -> AppNet)
  : World * Client * bool :=
  let '(w0, c0) := new_client cfg {| objs := ∅; dicts := ∅ |} in
  let '(w1, c1, _) := connect health_ok 0 w0 c0 in
  let '(w2, ok) := update_all_statuses iso_fromisoformat fixed_today 10 net w1 c1 in
  (w2, c1, ok).

(* ------------------------------------------------------------------ *)
(** ** More Python string primitives: [strip] and [int] *)

Module PyStr.

(** [s.lstrip(chars)] / [s.rstrip(chars)] / [s.strip(chars)] with the
    set of stripped characters given as a predicate. *)
Fixpoint lstrip_by (p : ascii -> bool) (s : string) : string :=
  match s with
  | EmptyString => EmptyString
  | String c s' => if p c then lstrip_by p s' else s
  end.

Fixpoint rstrip_by (p : ascii -> bool) (s : string) : string :=
  match s with
  | EmptyString => EmptyString
  | String c s' =>
      let r := rstrip_by p s' in
      if andb (String.eqb r "") (p c) then EmptyString else String c r
  end.

Definition strip_by (p : ascii -> bool) (s : string) : string :=
  rstrip_by p (lstrip_by p s).

(** [str.isspace()] on the code points 0..255 an [ascii] holds:
    [\t\n\v\f\r], the separators [\x1c]..[\x1f], the space, [\x85] and
    [\xa0]. *)
Definition isspace (c : ascii) : bool :=
  let n := nat_of_ascii c in
  orb (andb (9 <=? n)%nat (n <=? 13)%nat)
      (orb (andb (28 <=? n)%nat (n <=? 32)%nat) (orb (n =? 133)%nat (n =? 160)%nat)).

(** [s.strip()] and [s.strip("/")]. *)
Definition strip (s : string) : string := strip_by isspace s.
Definition strip_slash (s : string) : string := strip_by (Ascii.eqb "/") s.

(** The digits of a decimal [int] literal: at least one digit, and an
    underscore only between two digits. *)
Fixpoint int_body_ok (after_digit : bool) (s : string) : bool :=
  match s with
  | EmptyString => after_digit
  | String c s' =>
      if PyNum.is_digit c then int_body_ok true s'
      else if Ascii.eqb c "_" then andb after_digit (int_body_ok false s')
      else false
  end.

Fixpoint int_body_value (s : string) (acc : Z) : Z :=
  match s with
  | EmptyString => acc
  | String c s' =>
      if PyNum.is_digit c
      then int_body_value s' (10 * acc + (Z.of_nat (nat_of_ascii c) - 48))
      else int_body_value s' acc
  end.

(** [int(s)] for a [str]: surrounding whitespace, an optional sign,
    decimal digits with single underscores between them. [None] is the
    [ValueError]. (No code point 128..255 is a decimal digit, so the
    ASCII digits are all of them here.) *)
Definition py_int (s : string) : option Z :=
  let t := strip s in
  let '(sign, body) :=
    match t with
    | String c t' =>
        if Ascii.eqb c "-" then (-1, t')
        else if Ascii.eqb c "+" then (1, t')
        else (1, t)
    | EmptyString => (1, t)
    end in
  if int_body_ok false body then Some (sign * int_body_value body 0) else None.

End PyStr.

(* ------------------------------------------------------------------ *)
(** ** [NZBInfoConfig] over the JSON dictionaries it keeps ([config.py]) *)

(** A value of an application's settings dictionary, as the code writes
    and reads them: strings, integers, booleans and [null]. *)
Inductive cval := CStr (s : string) | CInt (z : Z) | CBool (b : bool) | CNull.

(** [bool(v)]. *)
Definition truthy (v : cval) : bool :=
  match v with
  | CStr s => negb (String.eqb s "")
  | CInt z => negb (z =? 0)
  | CBool b => b
  | CNull => false
  end.

(** [f"{v}"]. *)
Definition py_format (v : cval) : string :=
  match v with
  | CStr s => s
  | CInt z => Py.z_str z
  | CBool b => if b then "True" else "False"
  | CNull => "None"
  end.

Abbreviation app_dict := (gmap string cval) (only parsing).

(** [self._config]: the keys ["enabled_apps"] and ["applications"],
    each possibly absent (a configuration file written by hand). *)
Record PyConfig := {
  pc_enabled_apps : option (list string);
  pc_applications : option (gmap string app_dict) }.

(** [_default_config]. *)
Definition _default_config : PyConfig :=
  {| pc_enabled_apps := Some []; pc_applications := Some ∅ |}.

(** The ports of [APP_DEFAULTS]. *)
Definition APP_DEFAULTS_port (app_name : string) : option Z :=
  match app_name with
  | "sabnzbd" => Some 8080
  | "nzbget" => Some 6789
  | "sonarr" => Some 8989
  | "radarr" => Some 7878
  | "lidarr" => Some 8686
  | "readarr" => Some 8787
  | "bazarr" => Some 6767
  | "overseerr" => Some 5055
  | _ => None
  end%string.

(** [APP_DEFAULTS.get(app_name, {})]. *)
Definition APP_DEFAULTS (app_name : string) : app_dict :=
  match APP_DEFAULTS_port app_name with
  | Some p => <["port" := CInt p]> (<["ssl" := CBool false]> {[ "url_base" := CStr "" ]})
  | None => ∅
  end.

(** [get_enabled_apps] and [set_enabled_apps]. *)
Definition get_enabled_apps (c : PyConfig) : list string := get_or [] (pc_enabled_apps c).

Definition set_enabled_apps (c : PyConfig) (apps : list string) : PyConfig :=
  {| pc_enabled_apps := Some apps; pc_applications := pc_applications c |}.

(** [is_app_enabled]. *)
Definition is_app_enabled (c : PyConfig) (app_name : string) : bool :=
  existsb (String.eqb app_name) (get_enabled_apps c).

(** [get_app_config]: [config.get("applications", {}).get(app_name, {})]. *)
Definition get_app_config (c : PyConfig) (app_name : string) : app_dict :=
  match pc_applications c with
  | Some apps => get_or ∅ (apps !! app_name)
  | None => ∅
  end.

(** [set_app_config]: a copy of the defaults updated with [config], so
    the given keys win ([∪] is left-biased). *)
Definition set_app_config (c : PyConfig) (app_name : string) (config : app_dict) : PyConfig :=
  {| pc_enabled_apps := pc_enabled_apps c;
     pc_applications :=
       Some (<[app_name := config ∪ APP_DEFAULTS app_name]> (get_or ∅ (pc_applications c))) |}.

(** [get_app_url]. An empty dictionary has no ["host"], so the test
    [not app_config or "host" not in app_config] is the absence of
    ["host"]. [None] is the [AttributeError] of [.strip("/")] on a
    ["url_base"] that is not a string. *)
Definition get_app_url (c : PyConfig) (app_name : string) : option string :=
  let app_config := get_app_config c app_name in
  match app_config !! "host" with
  | None => Some ""
  | Some host =>
      let protocol :=
        if truthy (get_or (CBool false) (app_config !! "ssl")) then "https" else "http" in
      let port :=
        get_or (CInt (get_or 80 (APP_DEFAULTS_port app_name))) (app_config !! "port") in
      match get_or (CStr "") (app_config !! "url_base") with
      | CStr ub =>
          let url_base := PyStr.strip_slash ub in
          let url := protocol +++ "://" +++ py_format host +++ ":" +++ py_format port in
          Some (if String.eqb url_base "" then url else url +++ "/" +++ url_base)
      | _ => None
      end
  end.

(** [get_app_api_key]: the stored value, whatever its type. *)
Definition get_app_api_key (c : PyConfig) (app_name : string) : cval :=
  get_or (CStr "") (get_app_config c app_name !! "api_key").

(** [get_all_enabled_configs]. *)
Definition get_all_enabled_configs (c : PyConfig) : gmap string app_dict :=
  fold_left
    (fun enabled_configs app_name =>
       let config := get_app_config c app_name in
       if andb (bool_decide (is_Some (config !! "host")))
               (bool_decide (is_Some (config !! "api_key")))
       then <[app_name := config]> enabled_configs
       else enabled_configs)
    (get_enabled_apps c) ∅.

(* ------------------------------------------------------------------ *)
(** ** Health-check request of [NZBInfoClient] ([client.py]) *)

(** [health_endpoints.get(app_name, "/")]. *)
Definition health_endpoint (app_name : string) : string :=
  match app_name with
  | "sabnzbd" => "/api?mode=version"
  | "nzbget" => "/jsonrpc"
  | "sonarr" | "radarr" => "/api/v3/system/status"
  | "lidarr" | "readarr" => "/api/v1/system/status"
  | "bazarr" => "/api/system/status"
  | "overseerr" => "/api/v1/status"
  | _ => "/"
  end%string.

(** [NZBInfoClient._get_health_check_url]. *)
Definition _get_health_check_url (c : PyConfig) (app_name : string) : option string :=
  match get_app_url c app_name with
  | None => None
  | Some base_url =>
      if String.eqb base_url "" then Some ""
      else
        let url := base_url +++ health_endpoint app_name in
        if String.eqb app_name "sabnzbd" then
          let api_key := get_app_api_key c app_name in
          if truthy api_key then
            let separator := if Py.contains "?" url then "&" else "?" in
            Some (url +++ separator +++ "apikey=" +++ py_format api_key)
          else Some url
        else Some url
  end.

(** [NZBInfoClient._get_auth_headers], the dictionary as a list of its
    entries. *)
Definition _get_auth_headers (c : PyConfig) (app_name : string) : list (string * cval) :=
  let api_key := get_app_api_key c app_name in
  if truthy api_key then
    if String.eqb app_name "bazarr" then [("X-API-KEY", api_key)]
    else if existsb (String.eqb app_name) ["sonarr"; "radarr"; "lidarr"; "readarr"; "overseerr"]
    then [("X-Api-Key", api_key)]
    else []
  else [].

(* ------------------------------------------------------------------ *)
(** ** The setup flow ([setup.py]) *)

(** A value of [request.setup_data]: the form's text fields and
    checkboxes. *)
Inductive sval := SStr (s : string) | SBool (b : bool).

(** [APP_INFO] in its order, with the default ports. *)
Definition APP_INFO : list (string * Z) :=
  [ ("sabnzbd", 8080); ("nzbget", 6789); ("sonarr", 8989); ("radarr", 7878);
    ("lidarr", 8686); ("readarr", 8787); ("bazarr", 6767); ("overseerr", 5055) ].

(** [NZBInfoSetup._parse_host_port_ssl], the result dictionary as
    [(host, port, ssl)]. *)
Definition _parse_host_port_ssl (host_port : string) (default_port : Z) : string * Z * bool :=
  let clean_host_port := PyStr.strip host_port in
  let '(use_ssl, clean_host_port) :=
    if Py.startswith clean_host_port "https://" then (true, Py.slice_from clean_host_port 8)
    else if Py.startswith clean_host_port "http://" then (false, Py.slice_from clean_host_port 7)
    else (false, clean_host_port) in
  let '(host, port) :=
    if Py.has_char ":" clean_host_port then
      let '(host, port_str) := Py.rsplit1 ":" clean_host_port in
      (host, get_or default_port (PyStr.py_int port_str))
    else (clean_host_port, default_port) in
  (PyStr.strip host, port, use_ssl).

(** [is_enabled == "true" or is_enabled is True]. *)
Definition is_enabled_true (v : sval) : bool :=
  match v with SStr s => String.eqb s "true" | SBool b => b end.

(** A value on which [.strip()] is called: [None] is the
    [AttributeError] of a [bool]. *)
Definition as_str (v : sval) : option string :=
  match v with SStr s => Some s | SBool _ => None end.

(** The application dictionary built for one configured application. *)
Definition setup_app_config (host : string) (port : Z) (api_key : string) (ssl : bool)
  : app_dict :=
  <["host" := CStr host]> (<["port" := CInt port]> (<["api_key" := CStr api_key]>
    (<["ssl" := CBool ssl]> {[ "url_base" := CStr "" ]}))).

(** One iteration of the [for app_name in self.APP_INFO.keys()] loop of
    [_handle_driver_setup_request]; [None] is an exception. *)
Definition setup_step (setup_data : gmap string sval)
  (acc : option (list string * gmap string app_dict)) (info : string * Z)
  : option (list string * gmap string app_dict) :=
  match acc with
  | None => None
  | Some (enabled_apps, app_configs) =>
      let '(app_name, default_port) := info in
      if is_enabled_true (get_or (SStr "false") (setup_data !! (app_name +++ "_enabled")))
      then
        match as_str (get_or (SStr "") (setup_data !! (app_name +++ "_host"))) with
        | None => None
        | Some host_port =>
            if String.eqb (PyStr.strip host_port) "" then Some (enabled_apps, app_configs)
            else
              match as_str (get_or (SStr "") (setup_data !! (app_name +++ "_api"))) with
              | None => None
              | Some api_value =>
                  let '(host, port, ssl) := _parse_host_port_ssl host_port default_port in
                  Some (enabled_apps ++ [app_name],
                        <[app_name := setup_app_config host port (PyStr.strip api_value) ssl]>
                          app_configs)
              end
        end
      else Some (enabled_apps, app_configs)
  end.

(** The applications and dictionaries [_handle_driver_setup_request]
    collects before the connection tests; [None] is a [SetupError]
    (an exception caught by [handle_setup], or no application
    configured). *)
Definition setup_collect (setup_data : gmap string sval)
  : option (list string * gmap string app_dict) :=
  match fold_left (setup_step setup_data) APP_INFO (Some ([], ∅)) with
  | Some ([], _) => None
  | r => r
  end.

(** [_save_configuration] once confirmed, before [save_config] writes the
    file: [app_configs.items()] runs in insertion order, which is the
    order of [enabled_apps]. *)
Definition _save_configuration (c : PyConfig) (collected : list string * gmap string app_dict)
  : PyConfig :=
  let '(enabled_apps, app_configs) := collected in
  fold_left
    (fun c app_name =>
       match app_configs !! app_name with
       | Some config => set_app_config c app_name config
       | None => c
       end)
    enabled_apps (set_enabled_apps c enabled_apps).

(* ------------------------------------------------------------------ *)
(** ** The media-player entity ([media_player.py]) *)

(** The names of [APP_DISPLAY], in its order. *)
Definition APP_DISPLAY : list (string * string) :=
  [ ("sabnzbd", "SABnzbd"); ("nzbget", "NZBget"); ("sonarr", "Sonarr");
    ("radarr", "Radarr"); ("lidarr", "Lidarr"); ("readarr", "Readarr");
    ("bazarr", "Bazarr"); ("overseerr", "Overseerr") ].

(** [self.APP_DISPLAY.get(app_name, {"name": app_name.title()})["name"]]. *)
Definition display_name (app_name : string) : string :=
  match find (fun e => String.eqb (fst e) app_name) APP_DISPLAY with
  | Some (_, name) => name
  | None => py_title app_name
  end.

(** The [source_list] built in [NZBInfoPlayer.__init__]. *)
Definition source_list (enabled_apps : list string) : list string :=
  match enabled_apps with
  | [] => ["No Applications Configured"]
  | _ => "System Overview" :: List.map display_name enabled_apps
  end.

(** [NZBInfoPlayer._get_app_name_from_source]. *)
Definition _get_app_name_from_source (source : string) : string :=
  match find (fun e => String.eqb (snd e) source) APP_DISPLAY with
  | Some (app_name, _) => app_name
  | None => ""
  end.

(** [MEDIA_TITLE] and [MEDIA_ARTIST] of
    [NZBInfoPlayer._update_app_display_2row], with
    [self._client.get_app_status] as [get_status]. *)
Definition _update_app_display_2row (get_status : string -> option AppStatus) (source : string)
  : string * string :=
  let app_name := _get_app_name_from_source source in
  if String.eqb app_name "" then ("Application not found", "Check configuration")
  else
    match get_status app_name with
    | None => ("Status unavailable", "Application not configured")
    | Some status =>
        if negb (is_online status)
        then ("Connection Error", "Check " +++ title status +++ " configuration")
        else (primary_info status, secondary_info status)
    end.

(** The loop choosing [priority_info] in [_update_overview_display]. *)
Fixpoint overview_priority (statuses : gmap string AppStatus) (apps : list string) : string :=
  match apps with
  | [] => "All applications monitored"
  | app_name :: rest =>
      match statuses !! app_name with
      | Some status =>
          let p := Py.lower (primary_info status) in
          if andb (is_online status) (Py.contains "downloading" p)
          then title status +++ ": " +++ primary_info status
          else if andb (is_online status)
                    (andb (Py.contains "queue" p) (negb (Py.contains "idle" p)))
          then title status +++ ": " +++ primary_info status
          else overview_priority statuses rest
      | None => overview_priority statuses rest
      end
  end.

Definition priority_apps : list string :=
  ["sabnzbd"; "nzbget"; "sonarr"; "radarr"; "lidarr"; "readarr"].

(** [MEDIA_TITLE] and [MEDIA_ARTIST] of
    [NZBInfoPlayer._update_overview_display] for the statuses returned by
    [get_all_statuses]. *)
Definition _update_overview_display (statuses : gmap string AppStatus) : string * string :=
  if bool_decide (statuses = ∅) then ("No Applications", "No apps configured")
  else
    let online_count := length (List.filter is_online (map snd (map_to_list statuses))) in
    let total_count := size statuses in
    ("NZB Info Manager (" +++ Py.z_str (Z.of_nat online_count) +++ "/"
       +++ Py.z_str (Z.of_nat total_count) +++ " online)",
     overview_priority statuses priority_apps).

(** [NZBInfoPlayer._format_time_ago] at the clock reading [now]. *)
Definition _format_time_ago (now : Q) : string :=
  let d := (now - (now - 5))%Q in
  let diff := if PyNum.qlt 0 d then d else 0%Q in   (* max(0, d) *)
  if PyNum.qlt diff 60 then "just now"
  else if PyNum.qlt diff 3600 then Py.z_str (Qfloor (diff / 60)) +++ "m ago"
  else Py.z_str (Qfloor (diff / 3600)) +++ "h ago".

(** Whether a health check counts as a success in
    [_test_app_connection]: a response with status 200 or 401. *)
Definition health_check_ok (o : outcome unit) : bool :=
  match o with
  | Reply code _ _ => orb (code =? 200) (code =? 401)
  | Fail _ => false
  end.

(* ------------------------------------------------------------------ *)
(** ** Concrete inputs of the configuration and setup runs *)

(** A setup form with Sonarr on HTTPS and Bazarr enabled without a host. *)
Definition sonarr_setup_data : gmap string sval :=
  <["sonarr_enabled" := SStr "true"]>
    (<["sonarr_host" := SStr "  https://nas.local:9443 "]>
      (<["sonarr_api" := SStr " abc123 "]>
        (<["bazarr_enabled" := SBool true]> {[ "bazarr_host" := SStr "   " ]}))).

(** ** Concrete inputs *)

Definition full_config (config : app_dict) : bool :=
  andb (bool_decide (is_Some (config !! "host"))) (bool_decide (is_Some (config !! "api_key"))).

Definition known_apps : list string :=
  ["sabnzbd"; "nzbget"; "sonarr"; "radarr"; "lidarr"; "readarr"; "bazarr"; "overseerr"].

Definition sonarr_app : AppConfig := {|
  ac_host := Some "nas.local"; ac_port := Some 8989; ac_ssl := false;
  ac_api_key := Some "abc123"; ac_url_base := None |}.

Definition sonarr_plex_config : Config := {|
  enabled_apps := ["sonarr"; "plex"];
  applications := <["sonarr" := sonarr_app]> {[ "plex" := sonarr_app ]} |}.

Definition empty_statuses_world : World := {| objs := ∅; dicts := {[ 1%positive := ∅ ]} |}.

Definition sonarr_plex_client : Client := {|
  cl_config := sonarr_plex_config; cl_session := false; cl_statuses := 1;
  cl_is_connected := false |}.

Definition health_up : string -> outcome unit :=
  fun _ => Reply 200 (Some "application/json") (JOk tt).

Definition plex_world : World := {|
  objs := {[ 1%positive := new_AppStatus "plex" 0 ]};
  dicts := {[ 1%positive := {[ "plex" := 1%positive ]} ]} |}.

Definition sabnzbd_saved : PyConfig :=
  set_app_config (set_enabled_apps _default_config ["sabnzbd"]) "sabnzbd"
    (<["api_key" := CStr "k"]> {[ "host" := CStr "nas" ]}).

(* ================================================================== *)
(** * Properties *)

(** ** Helper lemmas on strings *)

Lemma length_append (a b : string) :
  String.length (a +++ b) = (String.length a + String.length b)%nat.
Proof. induction a as [|c a IH]; simpl; auto. Qed.

Lemma length_prefix_substring (n : nat) (s : string) :
  String.length (String.substring 0 n s) = Nat.min n (String.length s).
Proof.
  revert n. induction s as [|c s IH]; intros [|n]; simpl; auto.
Qed.

Lemma len_append (a b : string) : Py.len (a +++ b) = Py.len a + Py.len b.
Proof. unfold Py.len. rewrite length_append. lia. Qed.

Lemma len_slice_to_nonneg (s : string) (k : Z) :
  0 <= k -> Py.len (Py.slice_to s k) = Z.min k (Py.len s).
Proof.
  intros Hk. unfold Py.slice_to.
  destruct (Z.leb_spec 0 k); [|lia].
  unfold Py.len at 1. rewrite length_prefix_substring. unfold Py.len. lia.
Qed.

Lemma len_nonneg (s : string) : 0 <= Py.len s.
Proof. unfold Py.len. lia. Qed.

Lemma len_ellipsis : Py.len "..." = 3.
Proof. reflexivity. Qed.

(** ** Smart truncation *)

(** The hard-truncated form [text[:max_length-3] + "..."] has exactly
    [max_length] characters when the text is longer and [max_length >= 3]. *)
Lemma hard_truncate_length (text : string) (max_length : Z) :
  3 <= max_length -> max_length < Py.len text ->
  Py.len (Py.slice_to text (max_length - 3) +++ "...") = max_length.
Proof.
  intros H3 Hlt. rewrite len_append, len_slice_to_nonneg by lia.
  rewrite len_ellipsis. lia.
Qed.

(** C5 (amended). For every text and every [max_length >= 3],
    [_smart_truncate] returns at most [max_length] characters, and when it
    returns the hard-truncated form of a text that does not fit, that form
    has exactly [max_length] characters. *)
Theorem smart_truncate_bounded (text : string) (max_length : Z) :
  3 <= max_length ->
  Py.len (_smart_truncate text max_length) <= max_length /\
  (max_length < Py.len text ->
   _smart_truncate text max_length = Py.slice_to text (max_length - 3) +++ "..." ->
   Py.len (_smart_truncate text max_length) = max_length).
Proof.
  intros H3. split.
  - unfold _smart_truncate.
    destruct (Z.leb_spec (Py.len text) max_length) as [Hfit|Hlong]; [lia|].
    assert (Hfb : Py.len (Py.slice_to text (max_length - 3) +++ "...") <= max_length)
      by (rewrite hard_truncate_length; lia).
    destruct (Py.has_char "." text); [|exact Hfb].
    destruct (Py.rsplit1 "." text) as [name ext].
    destruct (Z.leb_spec (Py.len ext) 4); [|exact Hfb].
    destruct (Z.gtb_spec (max_length - Py.len ext - 4) 10) as [Hav|]; [|exact Hfb].
    rewrite !len_append, len_slice_to_nonneg by lia. rewrite len_ellipsis.
    pose proof (len_nonneg name). lia.
  - intros Hlt Heq. rewrite Heq. apply hard_truncate_length; assumption.
Qed.

(** C5, counterexample. The bound fails below three characters: with [max_length = 0],
    [text[:-3]] keeps all but three characters, so ["abcd"] becomes
    ["a..."], four characters long. *)
Lemma smart_truncate_small_max_counterexample :
  _smart_truncate "abcd" 0 = "a..." /\ Py.len (_smart_truncate "abcd" 0) > 0.
Proof. split; vm_compute; reflexivity. Qed.

Lemma smart_truncate_bounded_witness :
  Py.len (_smart_truncate "A.Very.Long.Release.Name.2160p.mkv" 20) <= 20.
Proof.
  apply (proj1 (smart_truncate_bounded "A.Very.Long.Release.Name.2160p.mkv" 20 ltac:(lia))).
Defined.

(** ** ETA *)

(** C4. A zero remaining size written in megabytes is not caught by
    the ["0 B"] test: the ETA is [" (<1m)"], not [""]. *)
Theorem calculate_eta_zero_megabytes :
  _calculate_eta "0 MB" "5 MB/s" = " (<1m)".
Proof. vm_compute. reflexivity. Qed.

(** ** Path cleaning *)

(** C7. The back-slash separator is the two-character text ["\\"]
    (the Python literal ['\\\\']): a Windows path with single back-slashes
    is returned whole. *)
Theorem clean_file_path_single_backslash :
  _clean_file_path "D:\Downloads\Show.mkv" = "D:\Downloads\Show.mkv".
Proof. vm_compute. reflexivity. Qed.

(** ** Relative dates *)

(** C6 (amended). [_format_upcoming_date] returns ["Unknown"] when the
    string does not parse, and otherwise, with [n] the number of days from
    the current date (in the date's own time zone) to the date: ["Today"]
    at [n = 0], ["Tomorrow"] at [n = 1], ["<n>d"] for every other [n < 7]
    (past dates included, e.g. ["-1d"]), and the month abbreviation and
    two-digit day at [n >= 7]. *)
Theorem format_upcoming_date_cases
  (fromisoformat : string -> option py_datetime) (today : option Z -> py_date)
  (date_str : string) :
  (parse_date_str fromisoformat date_str = None ->
   _format_upcoming_date fromisoformat today date_str = "Unknown") /\
  (forall date_obj, parse_date_str fromisoformat date_str = Some date_obj ->
   let n := days_away today date_obj in
   (n = 0 -> _format_upcoming_date fromisoformat today date_str = "Today") /\
   (n = 1 -> _format_upcoming_date fromisoformat today date_str = "Tomorrow") /\
   (n < 7 -> n <> 0 -> n <> 1 ->
    _format_upcoming_date fromisoformat today date_str = Py.z_str n +++ "d") /\
   (7 <= n ->
    _format_upcoming_date fromisoformat today date_str = strftime_b_d (dt_date date_obj))).
Proof.
  unfold _format_upcoming_date. split.
  - intros H. rewrite H. reflexivity.
  - intros d H. rewrite H. cbv zeta.
    set (n := days_away today d).
    repeat split; intros.
    + rewrite H0. reflexivity.
    + rewrite H0. reflexivity.
    + rewrite (proj2 (Z.eqb_neq n 0) H1), (proj2 (Z.eqb_neq n 1) H2),
        (proj2 (Z.ltb_lt n 7) H0). reflexivity.
    + rewrite (proj2 (Z.eqb_neq n 0)) by lia. rewrite (proj2 (Z.eqb_neq n 1)) by lia.
      rewrite (proj2 (Z.ltb_ge n 7)) by lia. reflexivity.
Qed.

Lemma format_upcoming_date_cases_witness :
  parse_date_str iso_fromisoformat "2026-10-18T20:00:00Z" =
    Some {| dt_date := {| year := 2026; month := 10; day := 18 |}; dt_tz := Some 0 |} /\
  _format_upcoming_date iso_fromisoformat fixed_today "2026-10-18T20:00:00Z" = "Tomorrow".
Proof.
  split; [vm_compute; reflexivity|].
  apply (proj1 (proj2 (proj2 (format_upcoming_date_cases iso_fromisoformat fixed_today
           "2026-10-18T20:00:00Z") _ ltac:(vm_compute; reflexivity)))).
  vm_compute. reflexivity.
Defined.

(** C6, counterexample. A date one day in the past is rendered ["-1d"],
    not as a month and day. *)
Lemma format_upcoming_date_past_counterexample :
  _format_upcoming_date iso_fromisoformat fixed_today "2026-10-16" = "-1d".
Proof. vm_compute. reflexivity. Qed.

(** ** Running the adapters *)

(** Unfold the monad plumbing, keeping the adapters' helpers folded. *)
Ltac glue :=
  unfold mbind, M_bind, mret, M_ret, try_except, http, read_json, modify,
    set_primary, set_secondary, touch, go_offline, get_status, raise in *.

Lemma set_primary_info_same (s : AppStatus) : set_primary_info (primary_info s) s = s.
Proof. destruct s; reflexivity. Qed.

Lemma set_secondary_info_same (s : AppStatus) : set_secondary_info (secondary_info s) s = s.
Proof. destruct s; reflexivity. Qed.

Lemma sabnzbd_transport_failure (time_time : Q) (net : AppNet) (st : AppStatus) (m : string) :
  sab_queue net = Fail m ->
  _update_sabnzbd_2row time_time net st
  = (offline_status "Connection Error" (err_detail m) st, Ok false).
Proof. intros H. unfold _update_sabnzbd_2row. glue. rewrite H. reflexivity. Qed.

Lemma nzbget_transport_failure (time_time : Q) (net : AppNet) (st : AppStatus) (m : string) :
  nzb_status net = Fail m ->
  _update_nzbget_2row time_time net st
  = (offline_status "Connection Error" (err_detail m) st, Ok false).
Proof. intros H. unfold _update_nzbget_2row. glue. rewrite H. reflexivity. Qed.

Lemma overseerr_transport_failure (time_time : Q) (net : AppNet) (st : AppStatus) (m : string) :
  ovr_requests net = Fail m ->
  _update_overseerr_2row time_time net st
  = (offline_status "Connection Error" (err_detail m) st, Ok false).
Proof. intros H. unfold _update_overseerr_2row. glue. rewrite H. reflexivity. Qed.

Lemma bazarr_transport_failure (time_time : Q) (net : AppNet) (st : AppStatus) (m : string) :
  baz_status net = Fail m ->
  _update_bazarr_2row time_time net st
  = (offline_status "Connection Error" (err_detail m)
       (set_title "Bazarr" (set_is_online true st)), Ok false).
Proof. intros H. unfold _update_bazarr_2row. glue. rewrite H. reflexivity. Qed.

Lemma bazarr_html_probe (time_time : Q) (net : AppNet) (st : AppStatus) ct b :
  baz_status net = Reply 200 (Some ct) b ->
  Py.contains "text/html" ct = true ->
  _update_bazarr_2row time_time net st
  = (set_secondary_info "Check API key configuration"
       (set_primary_info "Authentication Error"
          (set_title "Bazarr" (set_is_online true st))), Ok false).
Proof.
  intros H Hct. unfold _update_bazarr_2row. glue. rewrite H. simpl.
  rewrite Hct. reflexivity.
Qed.

(** The SABnzbd history request only writes [secondary_info]. *)
Lemma sabnzbd_ok_shape (time_time : Q) (net : AppNet) (st : AppStatus) ct (q : SabQueue) :
  sab_queue net = Reply 200 ct (JOk q) ->
  exists sec,
    _update_sabnzbd_2row time_time net st =
      (set_last_updated time_time
        (set_raw_data [("queue_count", PInt (Z.of_nat (length (sq_slots q))));
                       ("speed", PStr (get_or "0 B/s" (sq_speed q)))]
          (set_secondary_info sec
            (set_primary_info
               (sabnzbd_primary (sq_slots q) (get_or "0 B/s" (sq_speed q))
                  (get_or "0 B" (sq_sizeleft q)))
               (set_title "SABnzbd" (set_is_online true st))))), Ok true)
    /\ (request_failed (sab_history net) = true -> sec = "No recent activity").
Proof.
  intros H. unfold _update_sabnzbd_2row. glue. rewrite H. simpl.
  destruct (sab_history net) as [m|code ct' [b|m]]; simpl;
    try destruct (code =? 200); simpl;
    (eexists; split; [reflexivity| intros E; first [discriminate E | reflexivity]]).
Qed.

Lemma nzbget_ok_shape (time_time : Q) (net : AppNet) (st : AppStatus) ct (r : NzbStatus) :
  nzb_status net = Reply 200 ct (JOk r) ->
  exists sec,
    _update_nzbget_2row time_time net st =
      (set_last_updated time_time
        (set_raw_data [("download_rate", PNum (get_or 0%Q (ns_DownloadRate r)));
                       ("remaining_mb", PNum (get_or 0%Q (ns_RemainingSizeMB r)))]
          (set_secondary_info sec
            (set_primary_info
               (nzbget_primary (get_or 0%Q (ns_DownloadRate r))
                  (get_or 0%Q (ns_RemainingSizeMB r)))
               (set_title "NZBget" (set_is_online true st))))), Ok true)
    /\ (request_failed (nzb_history net) = true -> sec = "No recent activity").
Proof.
  intros H. unfold _update_nzbget_2row. glue. rewrite H. simpl.
  destruct (nzb_history net) as [m|code ct' [b|m]]; simpl;
    try destruct (code =? 200); simpl;
    (eexists; split; [reflexivity| intros E; first [discriminate E | reflexivity]]).
Qed.

Ltac finish_frame :=
  first [ eexists; split; [reflexivity| intros m' E'; discriminate E']
        | match goal with |- exists p, (?s0, _) = _ /\ _ => exists (primary_info s0) end;
          rewrite set_primary_info_same;
          split; [reflexivity| intros m' E'; discriminate E'] ].

Lemma upcoming_only_primary fi td (net : AppNet) (s : AppStatus) :
  exists p, _get_upcoming_content fi td net s = (set_primary_info p s, Ok tt)
    /\ (forall m, mm_calendar net = Fail m -> p = "No upcoming data").
Proof.
  unfold _get_upcoming_content. glue.
  destruct (mm_calendar net) as [m|code ct [b|m]] eqn:E; simpl.
  - eexists; split; [reflexivity| reflexivity].
  - destruct (code =? 200); simpl; [|finish_frame].
    destruct b as [[|i items]|]; simpl; try finish_frame.
    repeat (match goal with
            | |- context [if ?b then _ else _] => destruct b
            | |- context [match find ?f ?l with _ => _ end] => destruct (find f l)
            end; simpl); finish_frame.
  - destruct (code =? 200); simpl; finish_frame.
Qed.

Lemma recent_only_secondary (net : AppNet) (s : AppStatus) :
  exists q, _get_recent_activity net s = (set_secondary_info q s, Ok tt)
    /\ (forall m, mm_history net = Fail m -> q = "No recent activity")
    /\ (forall code ct b, mm_history net = Reply code ct b -> code <> 200 ->
          q = "History unavailable").
Proof.
  unfold _get_recent_activity. glue.
  destruct (mm_history net) as [m|code ct [b|m]] eqn:E; simpl.
  - eexists; split; [reflexivity| split; [reflexivity| intros ? ? ? E'; discriminate E']].
  - destruct (code =? 200) eqn:C; simpl.
    + destruct (get_or [] b) as [|r rs]; simpl;
        (eexists; split; [reflexivity| split; [intros m' E'; discriminate E'|]]);
        intros ? ? ? E' Hne; injection E' as <- _ _; apply Z.eqb_eq in C; contradiction.
    + eexists; split; [reflexivity| split; [intros m' E'; discriminate E'| reflexivity]].
  - destruct (code =? 200) eqn:C; simpl;
      (eexists; split; [reflexivity| split; [intros m' E'; discriminate E'|]]);
      intros ? ? ? E' Hne; injection E' as <- _ _;
      [apply Z.eqb_eq in C; contradiction | reflexivity].
Qed.

(** A [200] history answer whose body fails to decode. *)
Lemma recent_activity_bad_json (net : AppNet) (s : AppStatus) ct m :
  mm_history net = Reply 200 ct (JBad m) ->
  _get_recent_activity net s = (set_secondary_info "No recent activity" s, Ok tt).
Proof. intros E. unfold _get_recent_activity. glue. rewrite E. reflexivity. Qed.

(** [_update_media_manager_2row] as the composition of its two helpers. *)
Lemma media_manager_unfold fi td (time_time : Q) (net : AppNet) (st : AppStatus) :
  _update_media_manager_2row fi td time_time net st =
    (set_last_updated time_time
       (fst (_get_recent_activity net
          (fst (_get_upcoming_content fi td net
             (set_title (py_title (app_name st)) (set_is_online true st)))))), Ok true).
Proof.
  unfold _update_media_manager_2row.
  destruct (upcoming_only_primary fi td net
              (set_title (py_title (app_name st)) (set_is_online true st))) as [p [Hp _]].
  destruct (recent_only_secondary net
    (set_primary_info p (set_title (py_title (app_name st)) (set_is_online true st))))
    as [q [Hq _]].
  unfold try_except, mbind, M_bind, modify, get_status, touch, mret, M_ret.
  cbn -[_get_upcoming_content _get_recent_activity py_title].
  rewrite Hp. cbn -[_get_recent_activity py_title]. rewrite Hq. reflexivity.
Qed.

(** The primary line for the one-job queue of [show_queue]. *)
Lemma sabnzbd_primary_show_queue :
  sabnzbd_primary [Some "Show.S01E02.mkv"] "5 MB/s" "300 MB"
  = "Downloading: Show.S01E02.mkv @ 5 MB/s (1m)".
Proof. vm_compute. reflexivity. Qed.

(** C9. When the SABnzbd queue request answers 200 with one active job
    "Show.S01E02.mkv" at "5 MB/s" with "300 MB" left, [_update_sabnzbd_2row]
    sets [primary_info] to "Downloading: Show.S01E02.mkv @ 5 MB/s (1m)";
    when it answers 200 with no slots, to "Queue idle". *)
Theorem sabnzbd_primary_scenario (time_time : Q) (net : AppNet) (st : AppStatus) ct :
  (sab_queue net = Reply 200 ct (JOk show_queue) ->
   primary_info (fst (_update_sabnzbd_2row time_time net st))
   = "Downloading: Show.S01E02.mkv @ 5 MB/s (1m)")
  /\ (forall q, sq_slots q = [] -> sab_queue net = Reply 200 ct (JOk q) ->
      primary_info (fst (_update_sabnzbd_2row time_time net st)) = "Queue idle").
Proof.
  split.
  - intros H. destruct (sabnzbd_ok_shape time_time net st ct show_queue H) as [sec [E _]].
    rewrite E. exact sabnzbd_primary_show_queue.
  - intros q Hq H. destruct (sabnzbd_ok_shape time_time net st ct q H) as [sec [E _]].
    rewrite E. simpl. rewrite Hq. reflexivity.
Qed.

Lemma sabnzbd_primary_scenario_witness :
  sab_queue sab_show_net = Reply 200 json_ct (JOk show_queue)
  /\ primary_info (fst (_update_sabnzbd_2row 0 sab_show_net (new_AppStatus "sabnzbd" 0)))
     = "Downloading: Show.S01E02.mkv @ 5 MB/s (1m)".
Proof.
  split; [reflexivity|].
  apply (proj1 (sabnzbd_primary_scenario 0 sab_show_net (new_AppStatus "sabnzbd" 0) json_ct)).
  reflexivity.
Defined.

(** C8. When Bazarr's status probe answers 200 with a content type
    containing "text/html", [_update_bazarr_2row] sets [primary_info] to
    "Authentication Error", leaves [is_online] true and returns [False];
    when the probe raises, it sets [is_online] to false. *)
Theorem bazarr_auth_error_stays_online (time_time : Q) (net : AppNet) (st : AppStatus) :
  (forall ct b, baz_status net = Reply 200 (Some ct) b ->
     Py.contains "text/html" ct = true ->
     let '(st', r) := _update_bazarr_2row time_time net st in
     primary_info st' = "Authentication Error" /\ is_online st' = true /\ r = Ok false)
  /\ (forall m, baz_status net = Fail m ->
     let '(st', r) := _update_bazarr_2row time_time net st in
     primary_info st' = "Connection Error" /\ is_online st' = false /\ r = Ok false).
Proof.
  split.
  - intros ct b H Hct. rewrite (bazarr_html_probe time_time net st ct b H Hct).
    repeat split.
  - intros m H. rewrite (bazarr_transport_failure time_time net st m H).
    repeat split.
Qed.

Lemma bazarr_auth_error_stays_online_witness :
  let '(st', r) := _update_bazarr_2row 0 bazarr_html_net (new_AppStatus "bazarr" 0) in
  primary_info st' = "Authentication Error" /\ is_online st' = true /\ r = Ok false.
Proof.
  apply (proj1 (bazarr_auth_error_stays_online 0 bazarr_html_net (new_AppStatus "bazarr" 0))
           "text/html; charset=utf-8" (JOk tt)); reflexivity.
Defined.

(** ** The adapter boundary *)

Lemma update_app_status_body_no_raise fi td (time_time : Q) hh name net st :
  exists o, snd (update_app_status_body fi td time_time hh name net st) = Ok o.
Proof.
  unfold update_app_status_body, try_except.
  match goal with |- context [match ?x with (_, _) => _ end] => destruct x as [s' [a|m]] end;
    simpl; eauto.
Qed.

(** The dispatch of [_update_app_status] for a configured application. *)
Lemma update_app_status_body_dispatch fi td (time_time : Q) name net st (adapter : M bool) :
  (name = "sabnzbd" /\ adapter = _update_sabnzbd_2row time_time net)
  \/ (name = "nzbget" /\ adapter = _update_nzbget_2row time_time net)
  \/ (is_media_manager name = true /\ adapter = _update_media_manager_2row fi td time_time net)
  \/ (name = "bazarr" /\ adapter = _update_bazarr_2row time_time net)
  \/ (name = "overseerr" /\ adapter = _update_overseerr_2row time_time net) ->
  (forall st, exists b, snd (adapter st) = Ok b) ->
  update_app_status_body fi td time_time true name net st
  = (fst (adapter st), match snd (adapter st) with Ok b => Ok (Some b) | Raise m => Ok None end).
Proof.
  intros Hd Hok. destruct (Hok st) as [b Hb].
  assert (Hrun : forall k : bool -> M (option bool),
             (r ← adapter; k r) st = k b (fst (adapter st))).
  { intros k. unfold mbind, M_bind. destruct (adapter st) as [s' e]. simpl in Hb.
    subst e. reflexivity. }
  unfold update_app_status_body, try_except. simpl negb. cbv iota.
  destruct Hd as [[-> ->]|[[-> ->]|[[Hmm ->]|[[-> ->]|[-> ->]]]]].
  - cbn -[mbind _update_sabnzbd_2row]. rewrite Hrun. rewrite Hb. reflexivity.
  - cbn -[mbind _update_nzbget_2row]. rewrite Hrun. rewrite Hb. reflexivity.
  - assert (Hs : String.eqb name "sabnzbd" = false /\ String.eqb name "nzbget" = false).
    { unfold is_media_manager in Hmm. simpl in Hmm.
      repeat (apply orb_prop in Hmm; destruct Hmm as [Hmm|Hmm]); try discriminate Hmm;
        apply String.eqb_eq in Hmm; subst; split; reflexivity. }
    destruct Hs as [-> ->]. rewrite Hmm.
    cbn -[mbind _update_media_manager_2row]. rewrite Hrun. rewrite Hb. reflexivity.
  - cbn -[mbind _update_bazarr_2row]. rewrite Hrun. rewrite Hb. reflexivity.
  - cbn -[mbind _update_overseerr_2row]. rewrite Hrun. rewrite Hb. reflexivity.
Qed.

Lemma sabnzbd_no_raise (time_time : Q) net st :
  exists b, snd (_update_sabnzbd_2row time_time net st) = Ok b.
Proof.
  unfold _update_sabnzbd_2row, try_except.
  match goal with |- context [match ?x with (_, _) => _ end] => destruct x as [s' [a|m]] end;
    simpl; eauto.
Qed.

Lemma nzbget_no_raise (time_time : Q) net st :
  exists b, snd (_update_nzbget_2row time_time net st) = Ok b.
Proof.
  unfold _update_nzbget_2row, try_except.
  match goal with |- context [match ?x with (_, _) => _ end] => destruct x as [s' [a|m]] end;
    simpl; eauto.
Qed.

Lemma overseerr_no_raise (time_time : Q) net st :
  exists b, snd (_update_overseerr_2row time_time net st) = Ok b.
Proof.
  unfold _update_overseerr_2row, try_except.
  match goal with |- context [match ?x with (_, _) => _ end] => destruct x as [s' [a|m]] end;
    simpl; eauto.
Qed.

Lemma media_manager_no_raise fi td (time_time : Q) net st :
  exists b, snd (_update_media_manager_2row fi td time_time net st) = Ok b.
Proof. rewrite media_manager_unfold. simpl. eauto. Qed.

Lemma bazarr_no_raise (time_time : Q) net st :
  exists b, snd (_update_bazarr_2row time_time net st) = Ok b.
Proof.
  unfold _update_bazarr_2row. glue. simpl.
  destruct (baz_status net) as [m|code ct b]; simpl; eauto.
  destruct (code =? 200); simpl; [|eauto].
  destruct (Py.contains _ _); simpl; [eauto|].
  destruct (baz_episodes net) as [m|code' ct' [eps|m]]; simpl;
    try destruct (code' =? 200); simpl;
    try (match goal with |- context [if (length ?l <? 2)%nat then _ else _] =>
      destruct (length l <? 2)%nat end; simpl); eauto;
    destruct (baz_movies net) as [m'|code'' ct'' [mv|m']]; simpl;
      try destruct (code'' =? 200); simpl; eauto.
Qed.

(** C1. [_update_app_status] never raises. When every request
    of a configured application raises [msg], the downloaders, Bazarr and
    Overseerr end offline with "Connection Error" and [str(msg)[:50]] and
    return [False]; the four library managers stay online with
    "No upcoming data" and "No recent activity" and return [True]. *)
Theorem update_app_status_transport_failure fi td (time_time : Q) (w : World) (c : Client)
  name l st msg :
  status_ref w c name = Some (l, st) ->
  has_host (cl_config c) name = true ->
  (forall net, exists o, snd (_update_app_status fi td time_time net w c name) = Ok o)
  /\ (In name ["sabnzbd"; "nzbget"; "bazarr"; "overseerr"] ->
      exists st', _update_app_status fi td time_time (all_fail_net msg) w c name
                  = (set_obj w l st', Ok (Some false))
        /\ is_online st' = false /\ primary_info st' = "Connection Error"
        /\ secondary_info st' = err_detail msg)
  /\ (is_media_manager name = true ->
      exists st', _update_app_status fi td time_time (all_fail_net msg) w c name
                  = (set_obj w l st', Ok (Some true))
        /\ is_online st' = true /\ primary_info st' = "No upcoming data"
        /\ secondary_info st' = "No recent activity").
Proof.
  intros Hsr Hh. unfold _update_app_status. rewrite Hsr, Hh.
  split; [|split].
  - intros net. destruct (update_app_status_body_no_raise fi td time_time true name net st)
      as [o Ho].
    destruct (update_app_status_body fi td time_time true name net st) as [s' r].
    simpl in Ho |- *. eauto.
  - intros Hin. simpl in Hin.
    destruct Hin as [<-|[<-|[<-|[<-|[]]]]].
    + rewrite (update_app_status_body_dispatch fi td time_time "sabnzbd" (all_fail_net msg) st
                 (_update_sabnzbd_2row time_time (all_fail_net msg)));
        [| left; split; reflexivity | intros; apply sabnzbd_no_raise].
      rewrite (sabnzbd_transport_failure time_time (all_fail_net msg) st msg eq_refl).
      eexists; repeat split.
    + rewrite (update_app_status_body_dispatch fi td time_time "nzbget" (all_fail_net msg) st
                 (_update_nzbget_2row time_time (all_fail_net msg)));
        [| right; left; split; reflexivity | intros; apply nzbget_no_raise].
      rewrite (nzbget_transport_failure time_time (all_fail_net msg) st msg eq_refl).
      eexists; repeat split.
    + rewrite (update_app_status_body_dispatch fi td time_time "bazarr" (all_fail_net msg) st
                 (_update_bazarr_2row time_time (all_fail_net msg)));
        [| right; right; right; left; split; reflexivity | intros; apply bazarr_no_raise].
      rewrite (bazarr_transport_failure time_time (all_fail_net msg) st msg eq_refl).
      eexists; repeat split.
    + rewrite (update_app_status_body_dispatch fi td time_time "overseerr" (all_fail_net msg) st
                 (_update_overseerr_2row time_time (all_fail_net msg)));
        [| right; right; right; right; split; reflexivity | intros; apply overseerr_no_raise].
      rewrite (overseerr_transport_failure time_time (all_fail_net msg) st msg eq_refl).
      eexists; repeat split.
  - intros Hmm.
    rewrite (update_app_status_body_dispatch fi td time_time name (all_fail_net msg) st
               (_update_media_manager_2row fi td time_time (all_fail_net msg)));
      [| right; right; left; split; [exact Hmm | reflexivity]
       | intros; apply media_manager_no_raise].
    rewrite media_manager_unfold.
    set (s1 := set_title (py_title (app_name st)) (set_is_online true st)).
    destruct (upcoming_only_primary fi td (all_fail_net msg) s1) as [p [Hp Hpf]].
    rewrite Hp. cbn [fst]. rewrite (Hpf msg eq_refl).
    destruct (recent_only_secondary (all_fail_net msg) (set_primary_info "No upcoming data" s1))
      as [q [Hq [Hqf _]]].
    rewrite Hq. cbn [fst]. rewrite (Hqf msg eq_refl).
    eexists; repeat split.
Qed.

Lemma update_app_status_transport_failure_witness :
  let '(w, c) := fst (connect health_ok 0 {| objs := ∅; dicts := {[1%positive := ∅]} |}
                        {| cl_config := bazarr_only_config; cl_session := false;
                           cl_statuses := 1; cl_is_connected := false |}) in
  exists st', _update_app_status iso_fromisoformat fixed_today 0 (all_fail_net "refused")
                w c "bazarr" = (set_obj w 1 st', Ok (Some false))
    /\ is_online st' = false /\ primary_info st' = "Connection Error"
    /\ secondary_info st' = err_detail "refused".
Proof.
  vm_compute fst.
  refine (proj1 (proj2 (update_app_status_transport_failure iso_fromisoformat fixed_today 0
    _ _ "bazarr" 1 _ "refused" _ _)) _).
  - vm_compute. reflexivity.
  - vm_compute. reflexivity.
  - simpl. tauto.
Defined.

(** Every request of a connected SABnzbd and Sonarr raises an exception
    with an empty message, as [asyncio.TimeoutError()] does: Sonarr stays
    online, SABnzbd's [secondary_info] is empty, and the poll reports
    success. *)
Lemma update_app_status_transport_failure_counterexample :
  let '(w, c, ok) := connect_then_poll sab_sonarr_config (fun _ => all_fail_net "") in
  ok = true
  /\ option_map is_online (get_app_status w c "sonarr") = Some true
  /\ option_map primary_info (get_app_status w c "sonarr") = Some "No upcoming data"
  /\ option_map is_online (get_app_status w c "sabnzbd") = Some false
  /\ option_map secondary_info (get_app_status w c "sabnzbd") = Some "".
Proof. vm_compute. repeat split. Qed.

(** ** Failing history requests *)

Lemma upcoming_reads_calendar fi td (net net' : AppNet) :
  mm_calendar net = mm_calendar net' ->
  _get_upcoming_content fi td net = _get_upcoming_content fi td net'.
Proof. intros H. unfold _get_upcoming_content. rewrite H. reflexivity. Qed.

Lemma bazarr_history_down (time_time : Q) (net : AppNet) (st : AppStatus) ct b m1 m2 :
  baz_status net = Reply 200 ct b ->
  Py.contains "text/html" (get_or "" ct) = false ->
  baz_episodes net = Fail m1 -> baz_movies net = Fail m2 ->
  _update_bazarr_2row time_time net st
  = (set_last_updated time_time
       (set_raw_data [("recent_count", PInt 0)]
          (set_secondary_info "No recent downloads"
             (set_primary_info "Subtitle manager idle"
                (set_title "Bazarr" (set_is_online true st))))), Ok true).
Proof.
  intros H Hct He Hm. unfold _update_bazarr_2row. glue. rewrite H. simpl.
  rewrite Hct. simpl. rewrite He. simpl. rewrite Hm. reflexivity.
Qed.

(** C3 (amended). A failed history request (it raises, answers with a
    status other than 200, or its 200 body fails to decode) after a
    successful primary request leaves SABnzbd and NZBget online with
    their primary line from the queue and "No recent activity". The
    library managers keep [is_online] true and a primary line fixed by
    the calendar request alone; their history line is "No recent
    activity" when the history request raises or its 200 body fails to
    decode, and "History unavailable" on a non-200 answer. Bazarr draws
    its primary line from its history requests: with both raising it
    shows "Subtitle manager idle" and "No recent downloads". *)
Theorem history_failure_frame fi td (time_time : Q) (st : AppStatus) :
  (forall net ct q,
     sab_queue net = Reply 200 ct (JOk q) -> request_failed (sab_history net) = true ->
     let '(st', r) := _update_sabnzbd_2row time_time net st in
     r = Ok true /\ is_online st' = true
     /\ primary_info st' = sabnzbd_primary (sq_slots q) (get_or "0 B/s" (sq_speed q))
                             (get_or "0 B" (sq_sizeleft q))
     /\ secondary_info st' = "No recent activity")
  /\ (forall net ct res,
     nzb_status net = Reply 200 ct (JOk res) -> request_failed (nzb_history net) = true ->
     let '(st', r) := _update_nzbget_2row time_time net st in
     r = Ok true /\ is_online st' = true
     /\ primary_info st' = nzbget_primary (get_or 0%Q (ns_DownloadRate res))
                             (get_or 0%Q (ns_RemainingSizeMB res))
     /\ secondary_info st' = "No recent activity")
  /\ (forall net net',
     mm_calendar net = mm_calendar net' ->
     let '(st', r) := _update_media_manager_2row fi td time_time net st in
     r = Ok true /\ is_online st' = true
     /\ primary_info st' = primary_info (fst (_update_media_manager_2row fi td time_time net' st))
     /\ (forall m, mm_history net = Fail m -> secondary_info st' = "No recent activity")
     /\ (forall ct m, mm_history net = Reply 200 ct (JBad m) ->
           secondary_info st' = "No recent activity")
     /\ (forall code ct b, mm_history net = Reply code ct b -> code <> 200 ->
           secondary_info st' = "History unavailable"))
  /\ (forall net ct b m1 m2,
     baz_status net = Reply 200 ct b -> Py.contains "text/html" (get_or "" ct) = false ->
     baz_episodes net = Fail m1 -> baz_movies net = Fail m2 ->
     let '(st', r) := _update_bazarr_2row time_time net st in
     r = Ok true /\ is_online st' = true
     /\ primary_info st' = "Subtitle manager idle"
     /\ secondary_info st' = "No recent downloads").
Proof.
  split; [|split; [|split]].
  - intros net ct q Hq Hh.
    destruct (sabnzbd_ok_shape time_time net st ct q Hq) as [sec [E Hsec]].
    rewrite E. rewrite (Hsec Hh). repeat split.
  - intros net ct res Hq Hh.
    destruct (nzbget_ok_shape time_time net st ct res Hq) as [sec [E Hsec]].
    rewrite E. rewrite (Hsec Hh). repeat split.
  - intros net net' Hcal.
    rewrite !media_manager_unfold.
    rewrite <- (upcoming_reads_calendar fi td net net' Hcal).
    set (s1 := set_title (py_title (app_name st)) (set_is_online true st)).
    destruct (upcoming_only_primary fi td net s1) as [p [Hp _]].
    rewrite Hp. cbn [fst].
    destruct (recent_only_secondary net (set_primary_info p s1)) as [q [Hq [Hqf Hqc]]].
    destruct (recent_only_secondary net' (set_primary_info p s1)) as [q' [Hq' _]].
    rewrite Hq, Hq'. cbn [fst].
    split; [reflexivity|]. split; [reflexivity|]. split; [reflexivity|].
    split; [|split].
    + intros m Hm. simpl. exact (Hqf m Hm).
    + intros ct m Hm. simpl.
      pose proof (f_equal (fun x => secondary_info (fst x))
                    (eq_trans (eq_sym Hq)
                       (recent_activity_bad_json net (set_primary_info p s1) ct m Hm))) as Hs.
      simpl in Hs. exact Hs.
    + intros code ct b Hr Hne. simpl. exact (Hqc code ct b Hr Hne).
  - intros net ct b m1 m2 H Hct He Hm.
    rewrite (bazarr_history_down time_time net st ct b m1 m2 H Hct He Hm).
    repeat split.
Qed.

Lemma history_failure_frame_witness :
  (let '(st', r) := _update_sabnzbd_2row 0 sab_history_down_net (new_AppStatus "sabnzbd" 0) in
   r = Ok true /\ is_online st' = true
   /\ primary_info st' = sabnzbd_primary (sq_slots show_queue)
                           (get_or "0 B/s" (sq_speed show_queue))
                           (get_or "0 B" (sq_sizeleft show_queue))
   /\ secondary_info st' = "No recent activity")
  /\ (let '(st', r) := _update_sabnzbd_2row 0 sab_history_503_net (new_AppStatus "sabnzbd" 0) in
      r = Ok true /\ is_online st' = true
      /\ primary_info st' = sabnzbd_primary (sq_slots show_queue)
                              (get_or "0 B/s" (sq_speed show_queue))
                              (get_or "0 B" (sq_sizeleft show_queue))
      /\ secondary_info st' = "No recent activity").
Proof.
  split.
  - apply (proj1 (history_failure_frame iso_fromisoformat fixed_today 0 (new_AppStatus "sabnzbd" 0))
             sab_history_down_net json_ct show_queue); reflexivity.
  - apply (proj1 (history_failure_frame iso_fromisoformat fixed_today 0 (new_AppStatus "sabnzbd" 0))
             sab_history_503_net json_ct show_queue); reflexivity.
Defined.

(** Bazarr reachable with both history requests timing out: its primary
    line changes and its history line is not "No recent activity". *)
Lemma history_failure_frame_counterexample :
  let '(st', r) := _update_bazarr_2row 0 bazarr_history_down_net (new_AppStatus "bazarr" 0) in
  r = Ok true /\ is_online st' = true
  /\ primary_info st' = "Subtitle manager idle"
  /\ secondary_info st' = "No recent downloads".
Proof. vm_compute. repeat split. Qed.

(** ** Polling *)

Lemma sabnzbd_true_online (time_time : Q) net st :
  snd (_update_sabnzbd_2row time_time net st) = Ok true ->
  is_online (fst (_update_sabnzbd_2row time_time net st)) = true.
Proof.
  destruct (sab_queue net) as [m|code ct [q|m]] eqn:E.
  - rewrite (sabnzbd_transport_failure time_time net st m E). intros H; discriminate H.
  - destruct (code =? 200) eqn:C.
    + apply Z.eqb_eq in C; subst code.
      destruct (sabnzbd_ok_shape time_time net st ct q E) as [sec [E' _]].
      rewrite E'. reflexivity.
    + unfold _update_sabnzbd_2row. glue. rewrite E. simpl. rewrite C. simpl.
      intros H; discriminate H.
  - unfold _update_sabnzbd_2row. glue. rewrite E. simpl.
    destruct (code =? 200); simpl; intros H; discriminate H.
Qed.

Lemma nzbget_true_online (time_time : Q) net st :
  snd (_update_nzbget_2row time_time net st) = Ok true ->
  is_online (fst (_update_nzbget_2row time_time net st)) = true.
Proof.
  destruct (nzb_status net) as [m|code ct [q|m]] eqn:E.
  - rewrite (nzbget_transport_failure time_time net st m E). intros H; discriminate H.
  - destruct (code =? 200) eqn:C.
    + apply Z.eqb_eq in C; subst code.
      destruct (nzbget_ok_shape time_time net st ct q E) as [sec [E' _]].
      rewrite E'. reflexivity.
    + unfold _update_nzbget_2row. glue. rewrite E. simpl. rewrite C. simpl.
      intros H; discriminate H.
  - unfold _update_nzbget_2row. glue. rewrite E. simpl.
    destruct (code =? 200); simpl; intros H; discriminate H.
Qed.

Lemma overseerr_true_online (time_time : Q) net st :
  snd (_update_overseerr_2row time_time net st) = Ok true ->
  is_online (fst (_update_overseerr_2row time_time net st)) = true.
Proof.
  unfold _update_overseerr_2row. glue.
  destruct (ovr_requests net) as [m|code ct [q|m]]; simpl;
    try destruct (code =? 200); simpl;
    first [intros H; discriminate H | intros; reflexivity].
Qed.

Lemma media_manager_true_online fi td (time_time : Q) net st :
  is_online (fst (_update_media_manager_2row fi td time_time net st)) = true.
Proof.
  rewrite media_manager_unfold.
  set (s1 := set_title (py_title (app_name st)) (set_is_online true st)).
  destruct (upcoming_only_primary fi td net s1) as [p [Hp _]].
  rewrite Hp. cbn [fst].
  destruct (recent_only_secondary net (set_primary_info p s1)) as [q [Hq _]].
  rewrite Hq. reflexivity.
Qed.

Lemma bazarr_true_online (time_time : Q) net st :
  snd (_update_bazarr_2row time_time net st) = Ok true ->
  is_online (fst (_update_bazarr_2row time_time net st)) = true.
Proof.
  unfold _update_bazarr_2row. glue. simpl.
  destruct (baz_status net) as [m|code ct b]; simpl; [intros H; discriminate H|].
  destruct (code =? 200); simpl; [|intros H; discriminate H].
  destruct (Py.contains _ _); simpl; [intros H; discriminate H|].
  destruct (baz_episodes net) as [m|code' ct' [eps|m]]; simpl;
    try destruct (code' =? 200); simpl;
    try (match goal with |- context [if (length ?l <? 2)%nat then _ else _] =>
      destruct (length l <? 2)%nat end; simpl);
    try (intros; reflexivity);
    destruct (baz_movies net) as [m'|code'' ct'' [mv|m']]; simpl;
      try destruct (code'' =? 200); simpl; intros; reflexivity.
Qed.

(** A task that returns [True] leaves its application online. *)
Lemma update_app_status_body_true_online fi td (time_time : Q) hh name net st :
  snd (update_app_status_body fi td time_time hh name net st) = Ok (Some true) ->
  is_online (fst (update_app_status_body fi td time_time hh name net st)) = true.
Proof.
  destruct hh.
  2: { unfold update_app_status_body. glue. simpl. intros H; discriminate H. }
  destruct (String.eqb name "sabnzbd") eqn:E1.
  { apply String.eqb_eq in E1; subst name.
    rewrite (update_app_status_body_dispatch fi td time_time "sabnzbd" net st
               (_update_sabnzbd_2row time_time net));
      [| left; split; reflexivity | intros; apply sabnzbd_no_raise].
    destruct (sabnzbd_no_raise time_time net st) as [b Hb]. simpl. rewrite Hb.
    intros H; injection H as ->. apply sabnzbd_true_online; exact Hb. }
  destruct (String.eqb name "nzbget") eqn:E2.
  { apply String.eqb_eq in E2; subst name.
    rewrite (update_app_status_body_dispatch fi td time_time "nzbget" net st
               (_update_nzbget_2row time_time net));
      [| right; left; split; reflexivity | intros; apply nzbget_no_raise].
    destruct (nzbget_no_raise time_time net st) as [b Hb]. simpl. rewrite Hb.
    intros H; injection H as ->. apply nzbget_true_online; exact Hb. }
  destruct (is_media_manager name) eqn:E3.
  { rewrite (update_app_status_body_dispatch fi td time_time name net st
               (_update_media_manager_2row fi td time_time net));
      [| right; right; left; split; [exact E3 | reflexivity]
       | intros; apply media_manager_no_raise].
    intros _. apply media_manager_true_online. }
  destruct (String.eqb name "bazarr") eqn:E4.
  { apply String.eqb_eq in E4; subst name.
    rewrite (update_app_status_body_dispatch fi td time_time "bazarr" net st
               (_update_bazarr_2row time_time net));
      [| right; right; right; left; split; reflexivity | intros; apply bazarr_no_raise].
    destruct (bazarr_no_raise time_time net st) as [b Hb]. simpl. rewrite Hb.
    intros H; injection H as ->. apply bazarr_true_online; exact Hb. }
  destruct (String.eqb name "overseerr") eqn:E5.
  { apply String.eqb_eq in E5; subst name.
    rewrite (update_app_status_body_dispatch fi td time_time "overseerr" net st
               (_update_overseerr_2row time_time net));
      [| right; right; right; right; split; reflexivity | intros; apply overseerr_no_raise].
    destruct (overseerr_no_raise time_time net st) as [b Hb]. simpl. rewrite Hb.
    intros H; injection H as ->. apply overseerr_true_online; exact Hb. }
  unfold update_app_status_body, try_except. simpl negb. cbv iota.
  rewrite E1, E2, E3, E4, E5. simpl. intros H; discriminate H.
Qed.

Lemma status_ref_set_obj (w : World) (c : Client) name l st st' :
  status_ref w c name = Some (l, st) ->
  status_ref (set_obj w l st') c name = Some (l, st').
Proof.
  unfold status_ref, dict_get, set_obj. simpl.
  destruct (dicts w !! cl_statuses c) as [d|]; [|rewrite lookup_empty; discriminate].
  destruct (d !! name) as [l'|]; [|discriminate].
  destruct (objs w !! l'); [|discriminate].
  intros H; injection H as -> ->. rewrite lookup_insert_eq. reflexivity.
Qed.

Lemma update_app_status_true_online fi td (time_time : Q) net w c name :
  snd (_update_app_status fi td time_time net w c name) = Ok (Some true) ->
  option_map is_online (get_app_status (fst (_update_app_status fi td time_time net w c name))
                          c name) = Some true.
Proof.
  unfold _update_app_status.
  destruct (status_ref w c name) as [[l st]|] eqn:E; [|intros H; discriminate H].
  pose proof (update_app_status_body_true_online fi td time_time
                (has_host (cl_config c) name) name net st) as Hon.
  destruct (update_app_status_body fi td time_time (has_host (cl_config c) name) name net st)
    as [st' r].
  simpl in Hon |- *. intros Hr.
  unfold get_app_status. rewrite (status_ref_set_obj w c name l st st' E).
  simpl. rewrite (Hon Hr). reflexivity.
Qed.

Lemma update_app_status_dicts fi td (time_time : Q) net w c name :
  dicts (fst (_update_app_status fi td time_time net w c name)) = dicts w.
Proof.
  unfold _update_app_status.
  destruct (status_ref w c name) as [[l st]|]; [|reflexivity].
  destruct (update_app_status_body _ _ _ _ _ _ _); reflexivity.
Qed.

Lemma gather_updates_dicts fi td (time_time : Q) net w c apps :
  dicts (fst (gather_updates fi td time_time net w c apps)) = dicts w
  /\ length (snd (gather_updates fi td time_time net w c apps)) = length apps.
Proof.
  revert w. induction apps as [|a rest IH]; intros w; simpl; [split; reflexivity|].
  pose proof (update_app_status_dicts fi td time_time (net a) w c a) as Hd.
  destruct (_update_app_status fi td time_time (net a) w c a) as [w1 r].
  destruct (IH w1) as [IHd IHl].
  destruct (gather_updates fi td time_time net w1 c rest) as [w2 rs].
  simpl in *. split; [congruence | f_equal; exact IHl].
Qed.

Lemma filter_count_pos {A} (f : A -> bool) (l : list A) :
  (0 <? length (List.filter f l))%nat = true <-> List.Exists (fun x => f x = true) l.
Proof.
  rewrite Nat.ltb_lt. induction l as [|x l IH]; simpl.
  - split; [lia | intros H; inversion H].
  - destruct (f x) eqn:Ef; simpl.
    + split; [intros _; constructor; exact Ef | lia].
    + rewrite IH. split; [intros H; constructor 2; exact H|].
      intros H; inversion H; subst; [congruence | assumption].
Qed.

Lemma alloc_obj_dicts w s : dicts (fst (alloc_obj w s)) = dicts w.
Proof. reflexivity. Qed.

Lemma create_statuses_dom now w c apps :
  dom (dict_get (create_statuses now w c apps) (cl_statuses c))
  = dom (dict_get w (cl_statuses c)) ∪ list_to_set apps.
Proof.
  revert w. induction apps as [|a rest IH]; intros w; simpl.
  - set_solver.
  - rewrite IH. unfold dict_insert, dict_set, dict_get. simpl.
    rewrite lookup_insert_eq. rewrite dom_insert_L. set_solver.
Qed.

Lemma set_online_of_dicts w c name b : dicts (set_online_of w c name b) = dicts w.
Proof.
  unfold set_online_of. destruct (status_ref w c name) as [[l s]|]; reflexivity.
Qed.

Lemma test_all_dicts health w c apps : dicts (fst (test_all health w c apps)) = dicts w.
Proof.
  revert w. induction apps as [|a rest IH]; intros w; simpl; [reflexivity|].
  assert (Ht : dicts (fst (_test_app_connection health w c a)) = dicts w).
  { unfold _test_app_connection.
    destruct (negb _); [reflexivity|].
    destruct (health a) as [m|code ct b]; [apply set_online_of_dicts|].
    destruct (_ || _); apply set_online_of_dicts. }
  destruct (_test_app_connection health w c a) as [w1 ok].
  specialize (IH w1).
  destruct (test_all health w1 c rest) as [w2 n]. simpl in *. congruence.
Qed.

Lemma connect_new_client_dom health now cfg w :
  let '(w0, c0) := new_client cfg w in
  let '(w1, c1, _) := connect health now w0 c0 in
  dom (dict_get w1 (cl_statuses c1)) = list_to_set (enabled_apps cfg).
Proof.
  unfold new_client, alloc_dict. simpl. unfold connect. simpl.
  set (c1 := set_session _ true).
  set (l := fresh (dom (dicts w))).
  set (w0 := dict_set w l ∅).
  pose proof (test_all_dicts health (create_statuses now w0 c1 (enabled_apps cfg)) c1
                (enabled_apps cfg)) as Hd.
  pose proof (create_statuses_dom now w0 c1 (enabled_apps cfg)) as Hc.
  destruct (test_all health (create_statuses now w0 c1 (enabled_apps cfg)) c1
              (enabled_apps cfg)) as [w2 n].
  simpl in *. unfold dict_get in *. rewrite Hd. simpl in Hc. rewrite Hc.
  unfold w0, dict_set. simpl. rewrite lookup_insert_eq. rewrite dom_empty_L. set_solver.
Qed.

(** C2 (amended). A poll without a session returns [False] and changes
    nothing. With a session it runs one task per entry of [enabled_apps]
    and returns [True] exactly when some task returned [True], and a task
    that returned [True] left its application online. No poll adds or
    removes a dictionary entry; the entries are those [connect] created,
    one per enabled application. *)
Theorem update_all_statuses_contract fi td (time_time : Q) net (w : World) (c : Client) :
  (let '(w', results, ok) := update_all_statuses_results fi td time_time net w c in
   dicts w' = dicts w
   /\ (cl_session c = false -> w' = w /\ results = [] /\ ok = false)
   /\ (cl_session c = true ->
       length results = length (enabled_apps (cl_config c))
       /\ (ok = true <-> List.Exists (fun r => task_succeeded r = true) results)))
  /\ (forall name,
       snd (_update_app_status fi td time_time (net name) w c name) = Ok (Some true) ->
       option_map is_online
         (get_app_status (fst (_update_app_status fi td time_time (net name) w c name)) c name)
       = Some true)
  /\ (forall health now (cfg : Config) (w0 : World),
       let '(w1, c1) := new_client cfg w0 in
       let '(w2, c2, _) := connect health now w1 c1 in
       dom (dict_get w2 (cl_statuses c2)) = list_to_set (enabled_apps cfg)
       /\ (NoDup (enabled_apps cfg) ->
           size (dict_get w2 (cl_statuses c2)) = length (enabled_apps cfg))).
Proof.
  split; [|split].
  - unfold update_all_statuses_results.
    destruct (cl_session c) eqn:Es; simpl.
    + pose proof (gather_updates_dicts fi td time_time net w c (enabled_apps (cl_config c)))
        as [Hd Hl].
      destruct (gather_updates fi td time_time net w c (enabled_apps (cl_config c)))
        as [w1 rs].
      simpl in *. split; [exact Hd|]. split; [intros H; discriminate H|].
      intros _. split; [exact Hl|]. apply filter_count_pos.
    + split; [reflexivity|]. split; [intros _; repeat split|intros H; discriminate H].
  - intros name. apply update_app_status_true_online.
  - intros health now cfg w0.
    pose proof (connect_new_client_dom health now cfg w0) as H.
    destruct (new_client cfg w0) as [w1 c1].
    destruct (connect health now w1 c1) as [[w2 c2] b].
    split; [exact H|].
    intros Hnd. rewrite <- size_dom, H. apply size_list_to_set. exact Hnd.
Qed.

Lemma update_all_statuses_contract_witness :
  let '(w', results, ok) :=
    update_all_statuses_results iso_fromisoformat fixed_today 10 (fun _ => bazarr_html_net)
      (fst connected_bazarr) (snd connected_bazarr) in
  length results = length (enabled_apps (cl_config (snd connected_bazarr)))
  /\ (ok = true <-> List.Exists (fun r => task_succeeded r = true) results).
Proof.
  pose proof (proj1 (update_all_statuses_contract iso_fromisoformat fixed_today 10
                       (fun _ => bazarr_html_net) (fst connected_bazarr) (snd connected_bazarr)))
    as H.
  vm_compute in H |- *. destruct H as [_ [_ H]]. exact (H eq_refl).
Defined.

(** Bazarr, the only enabled application, answers its probe with an HTML
    page: it stays online, yet the poll returns [False]. *)
Lemma update_all_statuses_contract_counterexample :
  let '(w, c, ok) := connect_then_poll bazarr_only_config (fun _ => bazarr_html_net) in
  ok = false /\ option_map is_online (get_app_status w c "bazarr") = Some true.
Proof. vm_compute. repeat split. Qed.

(** ** Copies of the status map *)

Lemma create_statuses_other now w c apps l :
  l <> cl_statuses c ->
  dicts (create_statuses now w c apps) !! l = dicts w !! l.
Proof.
  intros Hne. revert w. induction apps as [|a rest IH]; intros w; simpl; [reflexivity|].
  rewrite IH. unfold dict_insert, dict_set. simpl.
  rewrite lookup_insert_ne by congruence. reflexivity.
Qed.

Lemma update_all_statuses_dicts fi td (time_time : Q) net w c :
  dicts (fst (update_all_statuses fi td time_time net w c)) = dicts w.
Proof.
  unfold update_all_statuses, update_all_statuses_results.
  destruct (cl_session c); simpl; [|reflexivity].
  pose proof (gather_updates_dicts fi td time_time net w c (enabled_apps (cl_config c)))
    as [Hd _].
  destruct (gather_updates fi td time_time net w c (enabled_apps (cl_config c))) as [w1 rs].
  exact Hd.
Qed.

Lemma run_op_other (wc : World * Client) op l :
  l <> cl_statuses (snd wc) ->
  dicts (fst (run_op wc op)) !! l = dicts (fst wc) !! l
  /\ cl_statuses (snd (run_op wc op)) = cl_statuses (snd wc).
Proof.
  destruct wc as [w c]. simpl. intros Hne.
  destruct op as [health now|fi td now net| |cfg]; simpl.
  - unfold connect. simpl.
    pose proof (create_statuses_other now w (set_session c true)
                  (enabled_apps (cl_config c)) l Hne) as Hc.
    pose proof (test_all_dicts health
                  (create_statuses now w (set_session c true) (enabled_apps (cl_config c)))
                  (set_session c true) (enabled_apps (cl_config c))) as Ht.
    destruct (test_all health _ _ _) as [w2 n].
    simpl in *. rewrite Ht. split; [exact Hc | reflexivity].
  - rewrite update_all_statuses_dicts. split; reflexivity.
  - split; reflexivity.
  - split; reflexivity.
Qed.

Lemma run_ops_other (wc : World * Client) ops l :
  l <> cl_statuses (snd wc) ->
  dicts (fst (run_ops wc ops)) !! l = dicts (fst wc) !! l.
Proof.
  unfold run_ops. revert wc. induction ops as [|op rest IH]; intros wc Hne; simpl;
    [reflexivity|].
  destruct (run_op_other wc op l Hne) as [Hd Hs].
  rewrite IH; [exact Hd | congruence].
Qed.

(** C10. [get_all_statuses] returns a new dictionary with the entries of
    the client's map: inserting or deleting keys in it leaves the
    client's map as it was, and no later [connect], poll, [disconnect]
    or configuration change alters the returned dictionary. *)
Theorem get_all_statuses_fresh_copy (w : World) (c : Client) :
  cl_statuses c ∈ dom (dicts w) ->
  let '(w1, l) := get_all_statuses w c in
  l <> cl_statuses c
  /\ dict_get w1 l = dict_get w (cl_statuses c)
  /\ dict_get w1 (cl_statuses c) = dict_get w (cl_statuses c)
  /\ (forall k v, dict_get (dict_insert w1 l k v) (cl_statuses c) = dict_get w (cl_statuses c))
  /\ (forall k, dict_get (dict_delete w1 l k) (cl_statuses c) = dict_get w (cl_statuses c))
  /\ (forall ops, dict_get (fst (run_ops (w1, c) ops)) l = dict_get w1 l).
Proof.
  intros Hin. unfold get_all_statuses, alloc_dict.
  set (l := fresh (dom (dicts w))).
  assert (Hne : l <> cl_statuses c).
  { intros E. apply (is_fresh (dom (dicts w))). fold l. rewrite E. exact Hin. }
  assert (Hkeep : forall w', dicts w' = <[l := dict_get w (cl_statuses c)]> (dicts w) ->
                    dict_get w' (cl_statuses c) = dict_get w (cl_statuses c)).
  { intros w' E. unfold dict_get at 1. rewrite E.
    rewrite lookup_insert_ne by congruence. reflexivity. }
  split; [exact Hne|].
  split; [unfold dict_get at 1; simpl; rewrite lookup_insert_eq; reflexivity|].
  split; [apply Hkeep; reflexivity|].
  split; [|split].
  - intros k v. unfold dict_insert, dict_set, dict_get at 1. simpl.
    rewrite lookup_insert_ne by congruence.
    rewrite lookup_insert_ne by congruence. reflexivity.
  - intros k. unfold dict_delete, dict_set, dict_get at 1. simpl.
    rewrite lookup_insert_ne by congruence.
    rewrite lookup_insert_ne by congruence. reflexivity.
  - intros ops. unfold dict_get at 1 2.
    rewrite run_ops_other; [reflexivity | exact Hne].
Qed.

Lemma get_all_statuses_fresh_copy_witness :
  let '(w1, l) := get_all_statuses (fst connected_bazarr) (snd connected_bazarr) in
  l <> cl_statuses (snd connected_bazarr)
  /\ dict_get w1 l = dict_get (fst connected_bazarr) (cl_statuses (snd connected_bazarr)).
Proof.
  assert (Hin : cl_statuses (snd connected_bazarr) ∈ dom (dicts (fst connected_bazarr))).
  { apply elem_of_dom. vm_compute. eexists. reflexivity. }
  pose proof (get_all_statuses_fresh_copy (fst connected_bazarr) (snd connected_bazarr) Hin)
    as H.
  revert H.
  destruct (get_all_statuses (fst connected_bazarr) (snd connected_bazarr)) as [w1 l].
  intros [H1 [H2 _]]. split; [exact H1 | exact H2].
Defined.

(* ========================================================================= *)
(** * Further properties of setup, configuration, client and media player *)

Lemma append_String (x : ascii) (a b : string) : String x a +++ b = String x (a +++ b).
Proof. reflexivity. Qed.

Lemma append_Empty (b : string) : EmptyString +++ b = b.
Proof. reflexivity. Qed.

Lemma append_assoc_s (a b c : string) : (a +++ b) +++ c = a +++ (b +++ c).
Proof. induction a as [|x a IH]; [reflexivity | rewrite !append_String, IH; reflexivity]. Qed.

Lemma length_append' (a b : string) :
  String.length (a +++ b) = (String.length a + String.length b)%nat.
Proof. induction a as [|c a IH]; [reflexivity | rewrite append_String; simpl; lia]. Qed.

Lemma substring_append_prefix (a b : string) :
  String.substring 0 (String.length a) (a +++ b) = a.
Proof.
  induction a as [|x a IH]; [destruct b; reflexivity|].
  rewrite append_String. simpl. rewrite IH. reflexivity.
Qed.

Lemma substring_full (b : string) : String.substring 0 (String.length b) b = b.
Proof. induction b as [|y b IH]; simpl; [reflexivity | rewrite IH; reflexivity]. Qed.

Lemma substring_append_rest (a b : string) :
  String.substring (String.length a) (String.length b) (a +++ b) = b.
Proof.
  induction a as [|x a IH]; [apply substring_full|].
  rewrite append_String. simpl. exact IH.
Qed.

Lemma slice_from_append (a b : string) : Py.slice_from (a +++ b) (String.length a) = b.
Proof.
  unfold Py.slice_from. rewrite length_append'.
  replace (String.length a + String.length b - String.length a)%nat with (String.length b) by lia.
  apply substring_append_rest.
Qed.

Lemma has_char_append (c : ascii) (a b : string) :
  Py.has_char c (a +++ b) = orb (Py.has_char c a) (Py.has_char c b).
Proof.
  induction a as [|x a IH]; [reflexivity|]. rewrite append_String. simpl.
  destruct (Ascii.eqb c x); [reflexivity | exact IH].
Qed.

Lemma rindex_char_from_absent (c : ascii) (i : nat) (s : string) acc :
  Py.has_char c s = false -> Py.rindex_char_from c i s acc = acc.
Proof.
  revert i acc. induction s as [|x s IH]; intros i acc; simpl; [reflexivity|].
  destruct (Ascii.eqb c x); [discriminate|]. apply IH.
Qed.

Lemma rindex_char_from_last (c : ascii) (i : nat) (a b : string) acc :
  Py.has_char c b = false ->
  Py.rindex_char_from c i (a +++ String c b) acc = Some (i + String.length a)%nat.
Proof.
  intros Hb. revert i acc. induction a as [|x a IH]; intros i acc.
  - simpl. rewrite Ascii.eqb_refl. rewrite rindex_char_from_absent by exact Hb. f_equal; lia.
  - rewrite append_String. simpl. rewrite IH. f_equal; lia.
Qed.

Lemma rsplit1_last (c : ascii) (a b : string) :
  Py.has_char c b = false -> Py.rsplit1 c (a +++ String c b) = (a, b).
Proof.
  intros Hb. unfold Py.rsplit1, Py.rindex_char. rewrite rindex_char_from_last by exact Hb.
  simpl. f_equal.
  - apply substring_append_prefix.
  - replace (S (String.length a)) with (String.length (a +++ String c EmptyString)).
    + replace (a +++ String c b) with ((a +++ String c EmptyString) +++ b)
        by (rewrite append_assoc_s; reflexivity).
      apply slice_from_append.
    + rewrite length_append'. simpl. lia.
Qed.

Lemma has_char_split (c : ascii) (s : string) :
  Py.has_char c s = true -> exists a b, s = a +++ String c b /\ Py.has_char c b = false.
Proof.
  induction s as [|x s IH]; simpl; [discriminate|].
  destruct (Py.has_char c s) eqn:E.
  - intros _. destruct (IH eq_refl) as (a & b & -> & Hb).
    exists (String x a), b. split; [reflexivity | exact Hb].
  - destruct (Ascii.eqb c x) eqn:Ex; [|discriminate]. intros _.
    apply Ascii.eqb_eq in Ex. subst x. exists EmptyString, s. split; [reflexivity | exact E].
Qed.

(** ** strip *)

Lemma rstrip_by_append (p : ascii -> bool) (a b : string) :
  PyStr.rstrip_by p b <> EmptyString ->
  PyStr.rstrip_by p (a +++ b) = a +++ PyStr.rstrip_by p b.
Proof.
  intros Hb. induction a as [|x a IH]; [reflexivity|].
  rewrite append_String. simpl. rewrite IH. rewrite append_String.
  destruct (a +++ PyStr.rstrip_by p b) eqn:E.
  - destruct a; simpl in E; [contradiction | discriminate].
  - reflexivity.
Qed.

Lemma rstrip_by_keep (p : ascii -> bool) (s : string) :
  (forall c, Py.has_char c s = true -> p c = false) -> PyStr.rstrip_by p s = s.
Proof.
  induction s as [|x s IH]; intros H; simpl; [reflexivity|].
  rewrite IH.
  - assert (Hx : p x = false) by (apply H; simpl; rewrite Ascii.eqb_refl; reflexivity).
    rewrite Hx, andb_false_r. reflexivity.
  - intros c Hc. apply H. simpl. destruct (Ascii.eqb c x); [reflexivity | exact Hc].
Qed.

(** ** Decimal digits *)

Lemma digit_char_nat (d : Z) :
  0 <= d < 10 -> nat_of_ascii (Py.digit_char d) = (48 + Z.to_nat d)%nat.
Proof.
  intros Hd. unfold Py.digit_char. apply nat_ascii_embedding. lia.
Qed.

Lemma digit_char_is_digit (d : Z) : 0 <= d < 10 -> PyNum.is_digit (Py.digit_char d) = true.
Proof.
  intros Hd. unfold PyNum.is_digit. rewrite digit_char_nat by exact Hd.
  apply andb_true_intro; split; apply Nat.leb_le; lia.
Qed.

Lemma all_digits_has_char (s : string) (c : ascii) :
  PyNum.all_digits s = true -> Py.has_char c s = true -> PyNum.is_digit c = true.
Proof.
  induction s as [|x s IH]; simpl; [discriminate|].
  intros Hs. apply andb_prop in Hs as [Hx Hs].
  destruct (Ascii.eqb c x) eqn:E; [apply Ascii.eqb_eq in E; subst; auto | auto].
Qed.

Lemma nat_digits_all_digits (fuel : nat) (n : Z) (acc : string) :
  0 <= n -> PyNum.all_digits acc = true -> PyNum.all_digits (Py.nat_digits fuel n acc) = true.
Proof.
  revert n acc. induction fuel as [|f IH]; intros n acc Hn Hacc; cbn [Py.nat_digits]; [exact Hacc|].
  assert (Hd : PyNum.all_digits (String (Py.digit_char (n mod 10)) acc) = true).
  { cbn [PyNum.all_digits]. rewrite digit_char_is_digit by (apply Z.mod_pos_bound; lia).
    rewrite Hacc. reflexivity. }
  destruct (n <? 10); [exact Hd|]. apply IH; [apply Z.div_pos; lia | exact Hd].
Qed.

Lemma nat_digits_nonempty (fuel : nat) (n : Z) (acc : string) :
  acc <> EmptyString -> Py.nat_digits fuel n acc <> EmptyString.
Proof.
  revert n acc. induction fuel as [|f IH]; intros n acc Hacc; cbn [Py.nat_digits]; [exact Hacc|].
  destruct (n <? 10); [discriminate | apply IH; discriminate].
Qed.

Lemma nat_digits_S_nonempty (f : nat) (n : Z) (acc : string) :
  Py.nat_digits (S f) n acc <> EmptyString.
Proof.
  cbn [Py.nat_digits]. destruct (n <? 10); [discriminate|].
  apply nat_digits_nonempty; discriminate.
Qed.

Lemma int_body_value_linear (s : string) (w : Z) :
  PyNum.all_digits s = true ->
  PyStr.int_body_value s w = w * 10 ^ Z.of_nat (String.length s) + PyStr.int_body_value s 0.
Proof.
  revert w. induction s as [|x s IH]; intros w Hs; simpl; [lia|].
  apply andb_prop in Hs as [Hx Hs]. rewrite Hx.
  rewrite (IH (10 * w + _)) by exact Hs. rewrite (IH (10 * 0 + _)) by exact Hs.
  rewrite Nat2Z.inj_succ, Z.pow_succ_r by lia. ring.
Qed.

Lemma nat_digits_value (fuel : nat) (n : Z) (acc : string) :
  0 <= n -> n < 10 ^ Z.of_nat fuel -> PyNum.all_digits acc = true ->
  PyStr.int_body_value (Py.nat_digits fuel n acc) 0
  = n * 10 ^ Z.of_nat (String.length acc) + PyStr.int_body_value acc 0.
Proof.
  revert n acc. induction fuel as [|f IH]; intros n acc Hn Hlt Hacc; cbn [Py.nat_digits].
  - simpl in Hlt. assert (n = 0) by lia. subst. lia.
  - assert (Hd : PyNum.is_digit (Py.digit_char (n mod 10)) = true)
      by (apply digit_char_is_digit, Z.mod_pos_bound; lia).
    assert (Hval : PyStr.int_body_value (String (Py.digit_char (n mod 10)) acc) 0
                   = n mod 10 * 10 ^ Z.of_nat (String.length acc) + PyStr.int_body_value acc 0).
    { cbn [PyStr.int_body_value]. rewrite Hd. rewrite int_body_value_linear by exact Hacc.
      rewrite digit_char_nat by (apply Z.mod_pos_bound; lia).
      rewrite Nat2Z.inj_add, Z2Nat.id by (apply Z.mod_pos_bound; lia).
      change (Z.of_nat 48) with 48. ring_simplify. reflexivity. }
    destruct (Z.ltb_spec n 10).
    + rewrite Hval. rewrite Z.mod_small by lia. reflexivity.
    + rewrite Nat2Z.inj_succ, Z.pow_succ_r in Hlt by lia.
      rewrite IH.
      * rewrite Hval. simpl String.length. rewrite Nat2Z.inj_succ, Z.pow_succ_r by lia.
        assert (Hdm : n = 10 * (n / 10) + n mod 10) by (apply Z.div_mod; lia).
        set (P := 10 ^ Z.of_nat (String.length acc)).
        replace (n * P) with ((10 * (n / 10) + n mod 10) * P) by (rewrite <- Hdm; reflexivity).
        ring.
      * apply Z.div_pos; lia.
      * apply Z.div_lt_upper_bound; lia.
      * cbn [PyNum.all_digits]. rewrite Hd, Hacc. reflexivity.
Qed.

Lemma z_str_nonneg (n : Z) :
  0 <= n ->
  PyNum.all_digits (Py.z_str n) = true /\ Py.z_str n <> EmptyString
  /\ PyStr.int_body_value (Py.z_str n) 0 = n.
Proof.
  intros Hn. unfold Py.z_str.
  destruct (Z.ltb_spec n 0); [lia|]. rewrite Z.abs_eq by lia.
  split; [apply nat_digits_all_digits; [lia | reflexivity]|].
  split; [apply nat_digits_S_nonempty|].
  rewrite nat_digits_value; [simpl; lia | lia | | reflexivity].
  destruct (Z.eq_dec n 0) as [->|Hn0]; [simpl; lia|].
  pose proof (Z.log2_spec n ltac:(lia)) as [_ Hup].
  rewrite Nat2Z.inj_succ, Z2Nat.id by (apply Z.log2_nonneg).
  eapply Z.lt_le_trans; [exact Hup|].
  apply Z.pow_le_mono_l. lia.
Qed.

Lemma digit_not_special (c : ascii) :
  PyNum.is_digit c = true ->
  PyStr.isspace c = false /\ Ascii.eqb c ":" = false /\ Ascii.eqb c "-" = false
  /\ Ascii.eqb c "+" = false /\ Ascii.eqb c "_" = false.
Proof.
  destruct c as [[] [] [] [] [] [] [] []]; vm_compute;
    intros H; first [discriminate H | repeat split].
Qed.

Lemma lstrip_by_keep (p : ascii -> bool) (c : ascii) (s : string) :
  p c = false -> PyStr.lstrip_by p (String c s) = String c s.
Proof. intros H. simpl. rewrite H. reflexivity. Qed.

Lemma all_digits_int_body_ok (s : string) :
  PyNum.all_digits s = true -> PyStr.int_body_ok true s = true.
Proof.
  induction s as [|x s IH]; simpl; [reflexivity|].
  intros H. apply andb_prop in H as [Hx Hs]. rewrite Hx. apply IH, Hs.
Qed.

Lemma py_int_z_str (n : Z) : 0 <= n -> PyStr.py_int (Py.z_str n) = Some n.
Proof.
  intros Hn. destruct (z_str_nonneg n Hn) as (Hd & Hne & Hv).
  unfold PyStr.py_int, PyStr.strip, PyStr.strip_by.
  destruct (Py.z_str n) as [|c r] eqn:E; [contradiction|].
  pose proof Hd as Hd'. simpl in Hd'. apply andb_prop in Hd' as [Hc Hr].
  destruct (digit_not_special c Hc) as (Hsp & _ & Hm & Hp & _).
  rewrite lstrip_by_keep by exact Hsp.
  rewrite rstrip_by_keep.
  2:{ intros c' Hc'. apply (digit_not_special c'). exact (all_digits_has_char _ _ Hd Hc'). }
  rewrite Hm, Hp. simpl. rewrite Hc. rewrite all_digits_int_body_ok by exact Hr.
  f_equal. simpl in Hv. rewrite Hc in Hv. lia.
Qed.

Lemma lstrip_by_suffix_char (p : ascii -> bool) (c : ascii) (s : string) :
  Py.has_char c (PyStr.lstrip_by p s) = true -> Py.has_char c s = true.
Proof.
  induction s as [|x s IH]; simpl; [auto|].
  destruct (p x); simpl; [intros H; rewrite (IH H); destruct (Ascii.eqb c x); reflexivity | auto].
Qed.

Lemma rstrip_by_char (p : ascii -> bool) (c : ascii) (s : string) :
  Py.has_char c (PyStr.rstrip_by p s) = true -> Py.has_char c s = true.
Proof.
  induction s as [|x s IH]; simpl; [auto|].
  destruct (String.eqb (PyStr.rstrip_by p s) "" && p x); simpl; [discriminate|].
  destruct (Ascii.eqb c x); [auto | exact IH].
Qed.

Lemma strip_char (c : ascii) (s : string) :
  Py.has_char c (PyStr.strip s) = true -> Py.has_char c s = true.
Proof.
  unfold PyStr.strip, PyStr.strip_by. intros H.
  apply lstrip_by_suffix_char with (p := PyStr.isspace).
  apply rstrip_by_char with (p := PyStr.isspace). exact H.
Qed.

Lemma lstrip_by_idem (p : ascii -> bool) (s : string) :
  PyStr.lstrip_by p (PyStr.lstrip_by p s) = PyStr.lstrip_by p s.
Proof.
  induction s as [|x s IH]; simpl; [reflexivity|].
  destruct (p x) eqn:E; [exact IH | simpl; rewrite E; reflexivity].
Qed.

Lemma rstrip_by_idem (p : ascii -> bool) (s : string) :
  PyStr.rstrip_by p (PyStr.rstrip_by p s) = PyStr.rstrip_by p s.
Proof.
  induction s as [|x s IH]; simpl; [reflexivity|].
  destruct (String.eqb (PyStr.rstrip_by p s) "" && p x) eqn:E; [reflexivity|].
  simpl. rewrite IH, E. reflexivity.
Qed.

Lemma lstrip_rstrip_lstrip (p : ascii -> bool) (s : string) :
  PyStr.lstrip_by p (PyStr.rstrip_by p (PyStr.lstrip_by p s))
  = PyStr.rstrip_by p (PyStr.lstrip_by p s).
Proof.
  induction s as [|x s IH]; simpl; [reflexivity|].
  destruct (p x) eqn:E; [exact IH|]. simpl.
  rewrite E, andb_false_r. simpl. rewrite E. reflexivity.
Qed.

Lemma strip_idem (s : string) : PyStr.strip (PyStr.strip s) = PyStr.strip s.
Proof.
  unfold PyStr.strip, PyStr.strip_by.
  rewrite lstrip_rstrip_lstrip, rstrip_by_idem. reflexivity.
Qed.

Lemma prefix_append (p r : string) : String.prefix p (p +++ r) = true.
Proof.
  induction p as [|x p IH]; [destruct r; reflexivity|].
  rewrite append_String. simpl. destruct (ascii_dec x x); [exact IH | contradiction].
Qed.

Lemma prefix_has_char (c : ascii) (p s : string) :
  String.prefix p s = true -> Py.has_char c p = true -> Py.has_char c s = true.
Proof.
  revert s. induction p as [|x p IH]; intros s Hp Hc; simpl in *; [discriminate Hc|].
  destruct s as [|y s]; simpl in Hp; [discriminate Hp|].
  destruct (ascii_dec x y) as [->|]; [|discriminate Hp]. simpl.
  destruct (Ascii.eqb c y); [reflexivity|]. apply (IH s Hp Hc).
Qed.

(** [_parse_host_port_ssl] on [http://host:tail] / [https://host:tail]. *)
Lemma parse_host_port_ssl_core (ssl : bool) (host tail : string) (d : Z) :
  PyStr.strip host = host -> Py.has_char ":" tail = false ->
  PyStr.rstrip_by PyStr.isspace tail = tail ->
  _parse_host_port_ssl ((if ssl then "https://" else "http://") +++ host +++ ":" +++ tail) d
  = (host, get_or d (PyStr.py_int tail), ssl).
Proof.
  intros Hh Ht Hr.
  assert (HR : PyStr.rstrip_by PyStr.isspace (":" +++ tail) = ":" +++ tail).
  { change (":" +++ tail) with (String ":" tail). simpl. rewrite Hr.
    rewrite andb_false_r. reflexivity. }
  assert (Hcolon : Py.has_char ":" (host +++ ":" +++ tail) = true).
  { rewrite has_char_append. change (":" +++ tail) with (String ":" tail).
    simpl. apply orb_true_r. }
  assert (Hsplit : Py.rsplit1 ":" (host +++ ":" +++ tail) = (host, tail)).
  { change (":" +++ tail) with (String ":" tail). apply rsplit1_last, Ht. }
  assert (Hstrip : forall (x : ascii) (pre : string), PyStr.isspace x = false ->
             PyStr.strip (String x pre +++ host +++ ":" +++ tail)
             = String x pre +++ host +++ ":" +++ tail).
  { intros x pre Hx. unfold PyStr.strip, PyStr.strip_by.
    rewrite append_String, lstrip_by_keep by exact Hx. rewrite <- append_String.
    rewrite <- (append_assoc_s (String x pre) host (":" +++ tail)).
    rewrite rstrip_by_append; [rewrite HR; reflexivity|].
    rewrite HR. discriminate. }
  unfold _parse_host_port_ssl. destruct ssl.
  - rewrite (Hstrip "h"%char "ttps://") by reflexivity.
    change (String "h" "ttps://") with "https://".
    unfold Py.startswith. rewrite prefix_append. cbv iota beta zeta.
    change 8%nat with (String.length "https://"). rewrite slice_from_append.
    rewrite Hcolon, Hsplit. cbv iota beta zeta. rewrite Hh. reflexivity.
  - rewrite (Hstrip "h"%char "ttp://") by reflexivity.
    change (String "h" "ttp://") with "http://".
    unfold Py.startswith.
    replace (String.prefix "https://" ("http://" +++ host +++ ":" +++ tail)) with false
      by reflexivity.
    rewrite prefix_append. cbv iota beta zeta.
    change 7%nat with (String.length "http://"). rewrite slice_from_append.
    rewrite Hcolon, Hsplit. cbv iota beta zeta. rewrite Hh. reflexivity.
Qed.

Lemma parse_round (ssl : bool) (host : string) (port d : Z) :
  PyStr.strip host = host -> 0 <= port ->
  _parse_host_port_ssl ((if ssl then "https://" else "http://") +++ host +++ ":" +++ Py.z_str port) d
  = (host, port, ssl).
Proof.
  intros Hh Hp. destruct (z_str_nonneg port Hp) as (Hd & _ & _).
  rewrite parse_host_port_ssl_core; [rewrite py_int_z_str by exact Hp; reflexivity | exact Hh | |].
  - destruct (Py.has_char ":" (Py.z_str port)) eqn:E; [|reflexivity].
    pose proof (all_digits_has_char _ _ Hd E) as Hc. discriminate Hc.
  - apply rstrip_by_keep. intros c Hc. apply (digit_not_special c).
    exact (all_digits_has_char _ _ Hd Hc).
Qed.

(** Without a colon, [_parse_host_port_ssl] returns the stripped input as host, the default port and no SSL. *)
Theorem parse_host_port_ssl_no_colon (host_port : string) (d : Z) :
  Py.has_char ":" host_port = false ->
  _parse_host_port_ssl host_port d = (PyStr.strip host_port, d, false).
Proof.
  intros Hc. unfold _parse_host_port_ssl.
  assert (Hs : Py.has_char ":" (PyStr.strip host_port) = false).
  { destruct (Py.has_char ":" (PyStr.strip host_port)) eqn:E; [|reflexivity].
    rewrite (strip_char _ _ E) in Hc. discriminate Hc. }
  assert (Hp : forall p, Py.has_char ":" p = true ->
                 Py.startswith (PyStr.strip host_port) p = false).
  { intros p Hp. unfold Py.startswith.
    destruct (String.prefix p (PyStr.strip host_port)) eqn:E; [|reflexivity].
    rewrite (prefix_has_char _ _ _ E Hp) in Hs. discriminate Hs. }
  rewrite !Hp by reflexivity. cbv iota beta zeta. rewrite Hs. cbv iota beta zeta.
  rewrite strip_idem. reflexivity.
Qed.

(** ** Configuration dictionaries *)

Lemma get_app_config_set (c : PyConfig) (name other : string) (config : app_dict) :
  get_app_config (set_app_config c name config) other
  = if String.eqb other name then config ∪ APP_DEFAULTS name else get_app_config c other.
Proof.
  unfold get_app_config, set_app_config. simpl.
  destruct (String.eqb_spec other name) as [->|Hne].
  - rewrite lookup_insert_eq. reflexivity.
  - rewrite lookup_insert_ne by congruence.
    destruct (pc_applications c); simpl; [reflexivity | rewrite lookup_empty; reflexivity].
Qed.

(** An application configured with only a host gets an [http] URL with its default port (80 for an unknown name). *)
Theorem set_app_config_default_url c name config h :
  config !! "host" = Some (CStr h) -> config !! "port" = None ->
  config !! "ssl" = None -> config !! "url_base" = None ->
  get_app_url (set_app_config c name config) name
  = Some ("http://" +++ h +++ ":" +++ Py.z_str (get_or 80 (APP_DEFAULTS_port name))).
Proof.
  intros Hh Hp Hs Hu. unfold get_app_url. cbv zeta. rewrite get_app_config_set, String.eqb_refl.
  rewrite !lookup_union, Hh, Hp, Hs, Hu.
  unfold APP_DEFAULTS. destruct (APP_DEFAULTS_port name) as [p|]; reflexivity.
Qed.


Lemma enabled_configs_fold (c : PyConfig) (l : list string) acc (a : string) :
  fold_left
    (fun (enabled_configs : gmap string app_dict) (app_name : string) =>
       let config := get_app_config c app_name in
       if andb (bool_decide (is_Some (config !! "host")))
               (bool_decide (is_Some (config !! "api_key")))
       then <[app_name := config]> enabled_configs
       else enabled_configs) l acc !! a
  = if andb (existsb (String.eqb a) l) (full_config (get_app_config c a))
    then Some (get_app_config c a) else acc !! a.
Proof.
  revert acc. induction l as [|x l IH]; intros acc; simpl; [reflexivity|].
  rewrite IH. unfold full_config.
  destruct (String.eqb_spec a x) as [->|Hne]; simpl.
  - destruct (existsb _ l), (bool_decide _ && bool_decide _); simpl;
      try reflexivity; rewrite lookup_insert_eq; reflexivity.
  - destruct (existsb _ l && _); [reflexivity|].
    destruct (bool_decide _ && bool_decide _); [|reflexivity].
    rewrite lookup_insert_ne by congruence. reflexivity.
Qed.

Lemma existsb_eqb_In (a : string) (l : list string) : existsb (String.eqb a) l = true <-> In a l.
Proof.
  rewrite existsb_exists. split.
  - intros (x & Hx & E). apply String.eqb_eq in E. subst. exact Hx.
  - intros H. exists a. split; [exact H | apply String.eqb_refl].
Qed.

(** [get_all_enabled_configs] holds exactly the configurations of enabled applications that have both a host and an API key. *)
Theorem get_all_enabled_configs_spec (c : PyConfig) (a : string) (cfg : app_dict) :
  get_all_enabled_configs c !! a = Some cfg <->
  In a (get_enabled_apps c) /\ cfg = get_app_config c a
  /\ is_Some (cfg !! "host") /\ is_Some (cfg !! "api_key").
Proof.
  unfold get_all_enabled_configs. rewrite enabled_configs_fold, lookup_empty.
  unfold full_config.
  destruct (existsb (String.eqb a) (get_enabled_apps c)) eqn:E; simpl.
  - apply existsb_eqb_In in E.
    destruct (bool_decide_reflect (is_Some (get_app_config c a !! "host"))) as [Hh|Hh];
    destruct (bool_decide_reflect (is_Some (get_app_config c a !! "api_key"))) as [Hk|Hk];
      simpl; split; intros H; try discriminate H.
    + injection H as <-. auto.
    + destruct H as (_ & -> & _). reflexivity.
    + destruct H as (_ & -> & _ & ?). contradiction.
    + destruct H as (_ & -> & ? & _). contradiction.
    + destruct H as (_ & -> & ? & _). contradiction.
  - split; [discriminate|]. intros (H & _). apply existsb_eqb_In in H. congruence.
Qed.

(** ** Setup *)

Lemma setup_fold_none (data : gmap string sval) (l : list (string * Z)) :
  fold_left (setup_step data) l None = None.
Proof. induction l as [|x l IH]; [reflexivity | exact IH]. Qed.

Lemma setup_step_shape (data : gmap string sval) acc (x : string * Z) r :
  setup_step data (Some acc) x = Some r ->
  r = acc \/ exists h p k s,
    r = (fst acc ++ [fst x], <[fst x := setup_app_config h p k s]> (snd acc)).
Proof.
  destruct acc as [apps cfgs], x as [name dport]. unfold setup_step.
  destruct (is_enabled_true _); [|intros H; injection H as <-; auto].
  destruct (as_str _) as [hp|]; [|discriminate].
  destruct (String.eqb _ ""); [intros H; injection H as <-; auto|].
  destruct (as_str _) as [api|]; [|discriminate].
  destruct (_parse_host_port_ssl hp dport) as [[h p] s].
  intros H; injection H as <-. right. eauto.
Qed.

Lemma setup_fold_inv (data : gmap string sval) (todo : list (string * Z)) acc r (L : list string) :
  fold_left (setup_step data) todo (Some acc) = Some r ->
  (forall a, is_Some (snd acc !! a) <-> a ∈ fst acc) ->
  fst acc ++ map fst todo `sublist_of` L ->
  (forall a, is_Some (snd r !! a) <-> a ∈ fst r) /\ fst r `sublist_of` L.
Proof.
  revert acc. induction todo as [|x todo IH]; intros acc Hf Hd Hs.
  - simpl in Hf. injection Hf as <-. rewrite app_nil_r in Hs. auto.
  - cbn [fold_left] in Hf. destruct (setup_step data (Some acc) x) as [acc'|] eqn:E;
      [|rewrite setup_fold_none in Hf; discriminate Hf].
    apply (IH acc' Hf).
    + destruct (setup_step_shape data acc x acc' E) as [->|(h & p & k & s & ->)]; [exact Hd|].
      intros a. simpl. rewrite elem_of_app, list_elem_of_singleton.
      destruct (String.eq_dec a (fst x)) as [->|Hne].
      * rewrite lookup_insert_eq. split; [auto | intros _; eexists; reflexivity].
      * rewrite lookup_insert_ne by congruence. rewrite Hd. intuition congruence.
    + destruct (setup_step_shape data acc x acc' E) as [->|(h & p & k & s & ->)].
      * etransitivity; [|exact Hs]. apply sublist_app; [reflexivity|]. simpl. apply sublist_cons.
        reflexivity.
      * simpl. rewrite <- app_assoc. exact Hs.
Qed.

Lemma setup_collect_fold (data : gmap string sval) r :
  setup_collect data = Some r ->
  fold_left (setup_step data) APP_INFO (Some ([], ∅)) = Some r /\ fst r <> [].
Proof.
  unfold setup_collect.
  destruct (fold_left (setup_step data) APP_INFO (Some ([], ∅))) as [[[|a apps] cfgs]|];
    intros H; try discriminate H; injection H as <-; split; [reflexivity | discriminate].
Qed.

(** When setup succeeds, the enabled list is non-empty, duplicate-free and in [APP_INFO] order, and configurations exist exactly for the enabled applications. *)
Theorem setup_collect_shape (data : gmap string sval) (enabled_apps : list string) app_configs :
  setup_collect data = Some (enabled_apps, app_configs) ->
  enabled_apps <> [] /\ enabled_apps `sublist_of` map fst APP_INFO /\ NoDup enabled_apps
  /\ (forall a, is_Some (app_configs !! a) <-> a ∈ enabled_apps).
Proof.
  intros H. destruct (setup_collect_fold data _ H) as [Hf Hne].
  destruct (setup_fold_inv data APP_INFO ([], ∅) _ (map fst APP_INFO) Hf) as [Hd Hs].
  - intros a. simpl. rewrite lookup_empty. split; [intros [? Hx]; discriminate Hx|].
    intros Ha. inversion Ha.
  - reflexivity.
  - cbn [fst snd] in *. split; [exact Hne|]. split; [exact Hs|]. split; [|exact Hd].
    eapply sublist_NoDup; [|exact Hs]. vm_compute. repeat constructor; set_solver.
Qed.

Lemma z_str_port_tail (port : Z) :
  0 <= port ->
  Py.has_char ":" (Py.z_str port) = false
  /\ PyStr.rstrip_by PyStr.isspace (Py.z_str port) = Py.z_str port.
Proof.
  intros Hp. destruct (z_str_nonneg port Hp) as (Hd & _ & _). split.
  - destruct (Py.has_char ":" (Py.z_str port)) eqn:E; [|reflexivity].
    pose proof (all_digits_has_char _ _ Hd E) as Hc. discriminate Hc.
  - apply rstrip_by_keep. intros c Hc. apply (digit_not_special c).
    exact (all_digits_has_char _ _ Hd Hc).
Qed.

Lemma strip_url (ssl : bool) (host tail : string) :
  PyStr.rstrip_by PyStr.isspace tail = tail ->
  PyStr.strip ((if ssl then "https://" else "http://") +++ host +++ ":" +++ tail)
  = (if ssl then "https://" else "http://") +++ host +++ ":" +++ tail.
Proof.
  intros Hr.
  assert (HR : PyStr.rstrip_by PyStr.isspace (":" +++ tail) = ":" +++ tail).
  { change (":" +++ tail) with (String ":" tail). simpl. rewrite Hr.
    rewrite andb_false_r. reflexivity. }
  assert (Hstrip : forall (x : ascii) (pre : string), PyStr.isspace x = false ->
             PyStr.strip (String x pre +++ host +++ ":" +++ tail)
             = String x pre +++ host +++ ":" +++ tail).
  { intros x pre Hx. unfold PyStr.strip, PyStr.strip_by.
    rewrite append_String, lstrip_by_keep by exact Hx. rewrite <- append_String.
    rewrite <- (append_assoc_s (String x pre) host (":" +++ tail)).
    rewrite rstrip_by_append; [rewrite HR; reflexivity|].
    rewrite HR. discriminate. }
  destruct ssl; apply Hstrip; reflexivity.
Qed.

Lemma get_enabled_apps_set (c : PyConfig) (name : string) (config : app_dict) :
  get_enabled_apps (set_app_config c name config) = get_enabled_apps c.
Proof. reflexivity. Qed.

Lemma save_fold_config (app_configs : gmap string app_dict) (l : list string) (c0 : PyConfig) (a : string) :
  get_app_config
    (fold_left (fun (c : PyConfig) (app_name : string) =>
                  match app_configs !! app_name with
                  | Some config => set_app_config c app_name config
                  | None => c
                  end) l c0) a
  = if existsb (String.eqb a) l then
      match app_configs !! a with
      | Some config => config ∪ APP_DEFAULTS a
      | None => get_app_config c0 a
      end
    else get_app_config c0 a.
Proof.
  revert c0. induction l as [|x l IH]; intros c0; [reflexivity|].
  cbn [fold_left existsb]. rewrite IH.
  destruct (String.eqb_spec a x) as [->|Hne]; simpl.
  - destruct (app_configs !! x) as [cfg|] eqn:E.
    + rewrite get_app_config_set, String.eqb_refl. destruct (existsb _ l); reflexivity.
    + destruct (existsb _ l); reflexivity.
  - assert (Hg : get_app_config (match app_configs !! x with
                                 | Some config => set_app_config c0 x config
                                 | None => c0 end) a = get_app_config c0 a).
    { destruct (app_configs !! x); [|reflexivity].
      rewrite get_app_config_set. apply String.eqb_neq in Hne. rewrite Hne. reflexivity. }
    rewrite Hg. reflexivity.
Qed.

Lemma save_enabled_apps (c : PyConfig) (enabled_apps : list string) app_configs :
  get_enabled_apps (_save_configuration c (enabled_apps, app_configs)) = enabled_apps.
Proof.
  unfold _save_configuration.
  enough (H : forall l c0, get_enabled_apps
    (fold_left (fun (c : PyConfig) (app_name : string) =>
                  match app_configs !! app_name with
                  | Some config => set_app_config c app_name config
                  | None => c
                  end) l c0) = get_enabled_apps c0).
  { rewrite H. reflexivity. }
  induction l as [|x l IH]; intros c0; [reflexivity|].
  cbn [fold_left]. rewrite IH. destruct (app_configs !! x); reflexivity.
Qed.

Lemma save_get_app_config (c : PyConfig) (enabled_apps : list string) app_configs (a : string) :
  get_app_config (_save_configuration c (enabled_apps, app_configs)) a
  = if existsb (String.eqb a) enabled_apps then
      match app_configs !! a with
      | Some config => config ∪ APP_DEFAULTS a
      | None => get_app_config c a
      end
    else get_app_config c a.
Proof. unfold _save_configuration. rewrite save_fold_config. reflexivity. Qed.

Lemma setup_fold_frame (data : gmap string sval) (todo : list (string * Z)) acc r (a : string) :
  fold_left (setup_step data) todo (Some acc) = Some r -> a ∉ map fst todo ->
  snd r !! a = snd acc !! a /\ (a ∈ fst r <-> a ∈ fst acc).
Proof.
  revert acc. induction todo as [|x todo IH]; intros acc Hf Ha.
  - injection Hf as <-. tauto.
  - cbn [fold_left] in Hf. cbn [map] in Ha. apply not_elem_of_cons in Ha as [Hx Ha].
    destruct (setup_step data (Some acc) x) as [acc'|] eqn:E;
      [|rewrite setup_fold_none in Hf; discriminate Hf].
    destruct (IH acc' Hf Ha) as [H1 H2]. rewrite H1, H2.
    destruct (setup_step_shape data acc x acc' E) as [->|(h & p & k & s & ->)]; [tauto|].
    cbn [fst snd]. rewrite lookup_insert_ne by congruence.
    rewrite elem_of_app, list_elem_of_singleton. intuition congruence.
Qed.

Lemma parse_host_port_ssl_strip (host_port : string) (d : Z) :
  _parse_host_port_ssl host_port d = _parse_host_port_ssl (PyStr.strip host_port) d.
Proof. unfold _parse_host_port_ssl. rewrite strip_idem. reflexivity. Qed.

Lemma setup_step_url (data : gmap string sval) acc (name : string) (dport port : Z)
  (ssl : bool) (host host_port key : string) :
  is_enabled_true (get_or (SStr "false") (data !! (name +++ "_enabled"))) = true ->
  data !! (name +++ "_host") = Some (SStr host_port) ->
  PyStr.strip host_port
    = (if ssl then "https://" else "http://") +++ host +++ ":" +++ Py.z_str port ->
  data !! (name +++ "_api") = Some (SStr key) ->
  PyStr.strip host = host -> 0 <= port ->
  setup_step data (Some acc) (name, dport)
  = Some (fst acc ++ [name],
          <[name := setup_app_config host port (PyStr.strip key) ssl]> (snd acc)).
Proof.
  intros He Hh Hhp Hk Hs Hp. destruct acc as [apps cfgs]. unfold setup_step.
  rewrite He, Hh, Hk. cbn [get_or as_str].
  rewrite Hhp.
  replace (String.eqb ((if ssl then "https://" else "http://") +++ host +++ ":" +++ Py.z_str port) "")
    with false by (destruct ssl; reflexivity).
  rewrite parse_host_port_ssl_strip, Hhp, parse_round by assumption. reflexivity.
Qed.

Lemma setup_collect_app (data : gmap string sval) r (name : string) (dport port : Z)
  (ssl : bool) (host host_port key : string) :
  setup_collect data = Some r -> In (name, dport) APP_INFO ->
  is_enabled_true (get_or (SStr "false") (data !! (name +++ "_enabled"))) = true ->
  data !! (name +++ "_host") = Some (SStr host_port) ->
  PyStr.strip host_port
    = (if ssl then "https://" else "http://") +++ host +++ ":" +++ Py.z_str port ->
  data !! (name +++ "_api") = Some (SStr key) ->
  PyStr.strip host = host -> 0 <= port ->
  snd r !! name = Some (setup_app_config host port (PyStr.strip key) ssl) /\ name ∈ fst r.
Proof.
  intros Hc Hin He Hh Hhp Hk Hs Hp.
  destruct (setup_collect_fold data r Hc) as [Hf _].
  assert (Hnd : NoDup (map fst APP_INFO)) by (vm_compute; repeat constructor; set_solver).
  apply in_split in Hin as (pre & post & Happ).
  rewrite Happ in Hf, Hnd. rewrite fold_left_app in Hf.
  destruct (fold_left (setup_step data) pre (Some ([], ∅))) as [accp|];
    [|rewrite setup_fold_none in Hf; discriminate Hf].
  cbn [fold_left] in Hf. rewrite (setup_step_url data accp name dport port ssl host host_port key) in Hf
    by assumption.
  rewrite map_app in Hnd. apply NoDup_app in Hnd as (_ & _ & Hnd).
  cbn [map fst] in Hnd. apply NoDup_cons in Hnd as [Hnot _].
  destruct (setup_fold_frame data post _ r name Hf Hnot) as [H1 H2].
  rewrite H1, H2. cbn [fst snd]. rewrite lookup_insert_eq. split; [reflexivity|].
  rewrite elem_of_app, list_elem_of_singleton. auto.
Qed.

Lemma option_union_Some (x : cval) (o : option cval) : Some x ∪ o = Some x.
Proof. destruct o; reflexivity. Qed.

Lemma setup_app_config_lookup (host : string) (port : Z) (api_key : string) (ssl : bool) :
  setup_app_config host port api_key ssl !! "host" = Some (CStr host)
  /\ setup_app_config host port api_key ssl !! "port" = Some (CInt port)
  /\ setup_app_config host port api_key ssl !! "api_key" = Some (CStr api_key)
  /\ setup_app_config host port api_key ssl !! "ssl" = Some (CBool ssl)
  /\ setup_app_config host port api_key ssl !! "url_base" = Some (CStr "").
Proof.
  unfold setup_app_config.
  repeat split; first [rewrite lookup_insert_eq; reflexivity
                      | rewrite !lookup_insert_ne by discriminate;
                        first [rewrite lookup_insert_eq | rewrite lookup_singleton]; reflexivity].
Qed.

Lemma elem_of_existsb (a : string) (l : list string) : a ∈ l -> existsb (String.eqb a) l = true.
Proof. intros H. apply existsb_eqb_In. apply list_elem_of_In. exact H. Qed.

(** After setup and [_save_configuration], an application entered as [http(s)://host:port] is enabled, its URL is rebuilt from the same scheme, host and port, and its API key is the stripped input. *)
Theorem setup_saved_url (data : gmap string sval) (c : PyConfig) r (name : string)
  (dport port : Z) (ssl : bool) (host host_port key : string) :
  setup_collect data = Some r -> In (name, dport) APP_INFO ->
  is_enabled_true (get_or (SStr "false") (data !! (name +++ "_enabled"))) = true ->
  data !! (name +++ "_host") = Some (SStr host_port) ->
  PyStr.strip host_port
    = (if ssl then "https://" else "http://") +++ host +++ ":" +++ Py.z_str port ->
  data !! (name +++ "_api") = Some (SStr key) ->
  PyStr.strip host = host -> 0 <= port ->
  is_app_enabled (_save_configuration c r) name = true
  /\ get_app_url (_save_configuration c r) name
     = Some ((if ssl then "https" else "http") +++ "://" +++ host +++ ":" +++ Py.z_str port)
  /\ get_app_api_key (_save_configuration c r) name = CStr (PyStr.strip key).
Proof.
  intros Hc Hin He Hh Hhp Hk Hs Hp.
  destruct (setup_collect_app data r name dport port ssl host host_port key Hc Hin He Hh Hhp Hk Hs Hp)
    as [Hcfg Hmem].
  destruct r as [apps cfgs]. cbn [fst snd] in Hcfg, Hmem.
  pose proof (elem_of_existsb _ _ Hmem) as Hex.
  assert (Hg : get_app_config (_save_configuration c (apps, cfgs)) name
               = setup_app_config host port (PyStr.strip key) ssl ∪ APP_DEFAULTS name).
  { rewrite save_get_app_config, Hex, Hcfg. reflexivity. }
  split; [|split].
  - unfold is_app_enabled. rewrite save_enabled_apps. exact Hex.
  - destruct (setup_app_config_lookup host port (PyStr.strip key) ssl)
      as (L1 & L2 & L3 & L4 & L5).
    unfold get_app_url. cbv zeta. rewrite Hg, !lookup_union, L1, L2, L4, L5, !option_union_Some.
    destruct ssl; reflexivity.
  - destruct (setup_app_config_lookup host port (PyStr.strip key) ssl)
      as (L1 & L2 & L3 & L4 & L5).
    unfold get_app_api_key. rewrite Hg, lookup_union, L3, option_union_Some. reflexivity.
Qed.

(** ** Connecting *)

Lemma test_app_connection_spec (health : string -> outcome unit) (w : World) (c : Client) (a : string) :
  _test_app_connection health w c a
  = if has_host (cl_config c) a
    then (set_online_of w c a (health_check_ok (health a)), health_check_ok (health a))
    else (w, false).
Proof.
  unfold _test_app_connection, health_check_ok.
  destruct (has_host (cl_config c) a); [|reflexivity]. simpl.
  destruct (health a) as [m|code ct b]; [reflexivity|].
  destruct (_ || _); reflexivity.
Qed.

Lemma test_all_count (health : string -> outcome unit) (w : World) (c : Client) (apps : list string) :
  snd (test_all health w c apps)
  = length (List.filter (fun a => has_host (cl_config c) a && health_check_ok (health a)) apps).
Proof.
  revert w. induction apps as [|a rest IH]; intros w; [reflexivity|].
  cbn [test_all]. rewrite test_app_connection_spec.
  destruct (has_host (cl_config c) a) eqn:Eh; simpl;
    [destruct (health_check_ok (health a)) eqn:Eo|];
    [ specialize (IH (set_online_of w c a true))
    | specialize (IH (set_online_of w c a false))
    | specialize (IH w) ];
    destruct (test_all health _ c rest) as [w2 n]; simpl in *; rewrite ?Eh, ?Eo; simpl; congruence.
Qed.

Lemma count_pos_existsb {A} (f : A -> bool) (l : list A) :
  (0 <? length (List.filter f l))%nat = existsb f l.
Proof.
  induction l as [|x l IH]; [reflexivity|]. simpl. destruct (f x); [reflexivity | exact IH].
Qed.

(** [connect] returns whether some enabled application with a host answered the health check with 200 or 401, records it as the connection flag, and always creates the session. *)
Theorem connect_result (health : string -> outcome unit) (now : Q) (w : World) (c : Client) :
  let '(w', c', ok) := connect health now w c in
  ok = existsb (fun a => has_host (cl_config c) a && health_check_ok (health a))
               (enabled_apps (cl_config c))
  /\ cl_is_connected c' = ok /\ cl_session c' = true
  /\ cl_config c' = cl_config c /\ cl_statuses c' = cl_statuses c.
Proof.
  unfold connect.
  pose proof (test_all_count health
    (create_statuses now w (set_session c true) (enabled_apps (cl_config (set_session c true))))
    (set_session c true) (enabled_apps (cl_config (set_session c true)))) as Hc.
  destruct (test_all health _ _ _) as [w2 n]. simpl in Hc |- *. subst n.
  rewrite count_pos_existsb. repeat split.
Qed.

Lemma create_statuses_key_other (now : Q) (w : World) (c : Client) (apps : list string) (a : string) :
  a ∉ apps ->
  dict_get (create_statuses now w c apps) (cl_statuses c) !! a = dict_get w (cl_statuses c) !! a.
Proof.
  revert w. induction apps as [|x rest IH]; intros w Ha; [reflexivity|].
  apply not_elem_of_cons in Ha as [Hx Ha]. cbn [create_statuses]. unfold alloc_obj. cbv zeta.
  rewrite (IH _ Ha). unfold dict_insert, dict_set, dict_get. simpl.
  rewrite lookup_insert_eq, lookup_insert_ne by congruence. reflexivity.
Qed.

Lemma create_statuses_spec (now : Q) (c : Client) (apps : list string) (w : World) :
  let w' := create_statuses now w c apps in
  (forall a, a ∈ apps -> exists l, dict_get w' (cl_statuses c) !! a = Some l
                             /\ objs w' !! l = Some (new_AppStatus a now) /\ l ∉ dom (objs w))
  /\ (forall a b l, a ∈ apps -> b ∈ apps -> dict_get w' (cl_statuses c) !! a = Some l ->
        dict_get w' (cl_statuses c) !! b = Some l -> a = b)
  /\ (forall l, l ∈ dom (objs w) -> objs w' !! l = objs w !! l).
Proof.
  revert w. induction apps as [|x rest IH]; intros w; cbv zeta.
  - split; [intros a Ha; inversion Ha|]. split; [intros a b l Ha; inversion Ha|]. auto.
  - cbn [create_statuses]. unfold alloc_obj. cbv zeta.
    set (l0 := fresh (dom (objs w))).
    set (w1 := dict_insert {| objs := <[l0 := new_AppStatus x now]> (objs w); dicts := dicts w |}
                 (cl_statuses c) x l0).
    assert (Hl0 : l0 ∉ dom (objs w)) by apply is_fresh.
    assert (Ho1 : objs w1 = <[l0 := new_AppStatus x now]> (objs w)) by reflexivity.
    assert (Hd1 : dict_get w1 (cl_statuses c) !! x = Some l0).
    { unfold w1, dict_insert, dict_set, dict_get. simpl. rewrite !lookup_insert_eq. reflexivity. }
    destruct (IH w1) as (A1 & B1 & C1). fold (create_statuses now w1 c rest) in *.
    set (w' := create_statuses now w1 c rest) in *.
    assert (Hdom : forall l, l ∈ dom (objs w) -> l ∈ dom (objs w1)).
    { intros l Hl. rewrite Ho1, dom_insert_L. set_solver. }
    assert (Ax : x ∉ rest -> dict_get w' (cl_statuses c) !! x = Some l0
                             /\ objs w' !! l0 = Some (new_AppStatus x now)).
    { intros Hx. split.
      - unfold w'. rewrite create_statuses_key_other by exact Hx. exact Hd1.
      - rewrite C1 by (rewrite Ho1, dom_insert_L; set_solver).
        rewrite Ho1, lookup_insert_eq. reflexivity. }
    split; [|split].
    + intros a Ha.
      destruct (decide (a ∈ rest)) as [Hr|Hr].
      * destruct (A1 a Hr) as (l & H1 & H2 & H3). exists l. split; [exact H1|]. split; [exact H2|].
        intros Hl. apply H3, Hdom, Hl.
      * apply elem_of_cons in Ha as [->|Ha]; [|contradiction].
        destruct (Ax Hr) as [H1 H2]. exists l0. auto.
    + intros a b l Ha Hb Hla Hlb.
      assert (Hin : forall y, y ∈ x :: rest -> y ∉ rest -> y = x).
      { intros y Hy Hn. apply elem_of_cons in Hy as [->|Hy]; [reflexivity | contradiction]. }
      destruct (decide (a ∈ rest)) as [Ha'|Ha'], (decide (b ∈ rest)) as [Hb'|Hb'].
      * exact (B1 a b l Ha' Hb' Hla Hlb).
      * pose proof (Hin b Hb Hb') as ->. destruct (Ax Hb') as [H1 _].
        rewrite H1 in Hlb. injection Hlb as <-.
        destruct (A1 a Ha') as (l & H1' & _ & H3). rewrite Hla in H1'. injection H1' as <-.
        exfalso. apply H3. rewrite Ho1, dom_insert_L. set_solver.
      * pose proof (Hin a Ha Ha') as ->. destruct (Ax Ha') as [H1 _].
        rewrite H1 in Hla. injection Hla as <-.
        destruct (A1 b Hb') as (l & H1' & _ & H3). rewrite Hlb in H1'. injection H1' as <-.
        exfalso. apply H3. rewrite Ho1, dom_insert_L. set_solver.
      * rewrite (Hin a Ha Ha'), (Hin b Hb Hb'). reflexivity.
    + intros l Hl. rewrite C1 by (apply Hdom, Hl). rewrite Ho1, lookup_insert_ne; [reflexivity|].
      intros ->. contradiction.
Qed.

Lemma set_is_online_idem (b : bool) (s : AppStatus) :
  set_is_online b (set_is_online b s) = set_is_online b s.
Proof. reflexivity. Qed.

Lemma test_app_connection_at (health : string -> outcome unit) (w : World) (c : Client) (x a : string) la :
  dict_get w (cl_statuses c) !! a = Some la ->
  (dict_get w (cl_statuses c) !! x = Some la -> x = a) ->
  objs (fst (_test_app_connection health w c x)) !! la
  = if String.eqb x a && has_host (cl_config c) x
    then option_map (set_is_online (health_check_ok (health x))) (objs w !! la)
    else objs w !! la.
Proof.
  intros Ha Hx. rewrite test_app_connection_spec.
  destruct (has_host (cl_config c) x) eqn:Eh; rewrite ?andb_true_r, ?andb_false_r;
    [|destruct (String.eqb x a); reflexivity].
  cbn [fst]. unfold set_online_of, status_ref.
  destruct (String.eqb_spec x a) as [->|Hne].
  - rewrite Ha. destruct (objs w !! la) eqn:Eo; [|simpl; exact Eo].
    unfold set_obj. simpl. rewrite lookup_insert_eq. reflexivity.
  - destruct (dict_get w (cl_statuses c) !! x) as [lx|] eqn:Ex; [|reflexivity].
    destruct (objs w !! lx) as [sx|]; [|reflexivity].
    unfold set_obj. simpl. rewrite lookup_insert_ne; [reflexivity|].
    intros ->. apply Hne, Hx. reflexivity.
Qed.

Lemma test_app_connection_dicts (health : string -> outcome unit) (w : World) (c : Client) (x : string) :
  dicts (fst (_test_app_connection health w c x)) = dicts w.
Proof.
  rewrite test_app_connection_spec. destruct (has_host _ _); [apply set_online_of_dicts | reflexivity].
Qed.

Lemma test_all_at (health : string -> outcome unit) (c : Client) (a : string) la (s0 : AppStatus)
  (apps : list string) (w : World) :
  dict_get w (cl_statuses c) !! a = Some la -> objs w !! la = Some s0 ->
  (forall b, b ∈ apps -> dict_get w (cl_statuses c) !! b = Some la -> b = a) ->
  objs (fst (test_all health w c apps)) !! la
  = Some (if existsb (String.eqb a) apps && has_host (cl_config c) a
          then set_is_online (health_check_ok (health a)) s0 else s0).
Proof.
  revert w s0. induction apps as [|x rest IH]; intros w s0 Ha Hs Hinj; [simpl; congruence|].
  cbn [test_all].
  pose proof (test_app_connection_at health w c x a la Ha
                (Hinj x ltac:(apply elem_of_cons; left; reflexivity))) as Hx.
  pose proof (test_app_connection_dicts health w c x) as Hd.
  destruct (_test_app_connection health w c x) as [w1 ok] eqn:E. cbn [fst] in Hx, Hd.
  assert (Hg : forall b, dict_get w1 (cl_statuses c) !! b = dict_get w (cl_statuses c) !! b).
  { intros b. unfold dict_get. rewrite Hd. reflexivity. }
  rewrite Hs in Hx.
  assert (Hx' : objs w1 !! la
                = Some (if String.eqb x a && has_host (cl_config c) x
                        then set_is_online (health_check_ok (health x)) s0 else s0)).
  { rewrite Hx. destruct (String.eqb x a && has_host (cl_config c) x); reflexivity. }
  specialize (IH w1 _ ltac:(rewrite Hg; exact Ha) Hx').
  destruct (test_all health w1 c rest) as [w2 n]. cbn [fst] in IH |- *.
  rewrite IH.
  - cbn [existsb]. rewrite (String.eqb_sym a x).
    destruct (String.eqb_spec x a) as [->|Hne]; simpl;
      destruct (existsb (String.eqb a) rest), (has_host (cl_config c) a); reflexivity.
  - intros b Hb Hbl. rewrite Hg in Hbl. apply Hinj; [apply elem_of_cons; right; exact Hb | exact Hbl].
Qed.

(** After [connect], each enabled application has a fresh status whose online flag is the result of its health check. *)
Theorem connect_statuses (health : string -> outcome unit) (now : Q) (w : World) (c : Client) (a : string) :
  In a (enabled_apps (cl_config c)) ->
  let '(w', c', _) := connect health now w c in
  get_app_status w' c' a
  = Some (set_is_online (has_host (cl_config c) a && health_check_ok (health a))
                        (new_AppStatus a now)).
Proof.
  intros Hin. apply list_elem_of_In in Hin. unfold connect.
  set (c1 := set_session c true).
  set (apps := enabled_apps (cl_config c1)).
  assert (Ha : a ∈ apps) by exact Hin.
  destruct (create_statuses_spec now c1 apps w) as (A & B & _).
  set (w1 := create_statuses now w c1 apps) in *.
  destruct (A a Ha) as (la & H1 & H2 & _).
  pose proof (test_all_at health c1 a la _ apps w1 H1 H2
                (fun b Hb Hbl => B b a la Hb Ha Hbl H1)) as Ht.
  pose proof (test_all_dicts health w1 c1 apps) as Hd.
  destruct (test_all health w1 c1 apps) as [w2 n]. cbn [fst] in Ht, Hd.
  unfold get_app_status, status_ref.
  change (cl_statuses (set_connected c1 (0 <? n)%nat)) with (cl_statuses c1).
  assert (Hg : dict_get w2 (cl_statuses c1) = dict_get w1 (cl_statuses c1)).
  { unfold dict_get. rewrite Hd. reflexivity. }
  rewrite Hg, H1, Ht.
  rewrite (elem_of_existsb a apps Ha). simpl.
  destruct (has_host (cl_config c) a); reflexivity.
Qed.

(** ** Polling an application of unknown name *)


Lemma status_ref_obj (w : World) (c : Client) (name : string) l st :
  status_ref w c name = Some (l, st) -> objs w !! l = Some st.
Proof.
  unfold status_ref. destruct (dict_get w (cl_statuses c) !! name) as [l'|]; [|discriminate].
  destruct (objs w !! l') eqn:E; [|discriminate]. intros H; injection H as -> ->. exact E.
Qed.

Lemma set_obj_same (w : World) l st : objs w !! l = Some st -> set_obj w l st = w.
Proof. intros H. unfold set_obj. rewrite insert_id by exact H. destruct w; reflexivity. Qed.

(** Polling an application name that the client does not know leaves the state unchanged and is not counted as a success. *)
Theorem update_unknown_app_status fi td (t : Q) (net : AppNet) (w : World) (c : Client) (name : string) :
  ~ In name known_apps -> has_host (cl_config c) name = true ->
  fst (_update_app_status fi td t net w c name) = w
  /\ task_succeeded (snd (_update_app_status fi td t net w c name)) = false.
Proof.
  intros Hn Hh. unfold _update_app_status.
  destruct (status_ref w c name) as [[l st]|] eqn:Hr; [|split; reflexivity].
  assert (E : forall k, In k known_apps -> String.eqb name k = false).
  { intros k Hk. apply String.eqb_neq. intros ->. contradiction. }
  assert (Hb : update_app_status_body fi td t (has_host (cl_config c) name) name net st
               = (st, Ok None)).
  { rewrite Hh. unfold update_app_status_body, try_except, is_media_manager. simpl negb.
    cbn [existsb]. rewrite !E by (simpl; tauto). reflexivity. }
  rewrite Hb. cbn [fst snd]. split; [|reflexivity].
  apply set_obj_same. exact (status_ref_obj w c name l st Hr).
Qed.

(** ** Media player *)

Lemma get_app_name_from_source_cases (source : string) :
  _get_app_name_from_source source = "" \/ In (_get_app_name_from_source source) known_apps.
Proof.
  unfold _get_app_name_from_source.
  destruct (find (fun e => String.eqb (snd e) source) APP_DISPLAY) as [[a n]|] eqn:E; [|auto].
  right. apply find_some in E as [Hin _].
  apply (in_map fst) in Hin. exact Hin.
Qed.

(** Mapping a known application name to its display name and back gives the name again; an unknown non-empty name does not come back. *)
Theorem source_round_trip (app_name : string) :
  (In app_name known_apps -> _get_app_name_from_source (display_name app_name) = app_name)
  /\ (~ In app_name known_apps -> app_name <> "" ->
      _get_app_name_from_source (display_name app_name) <> app_name).
Proof.
  split.
  - intros H. repeat (destruct H as [<-|H]; [reflexivity|]). contradiction H.
  - intros Hn Hne Heq.
    destruct (get_app_name_from_source_cases (display_name app_name)) as [H|H];
      rewrite Heq in H; contradiction.
Qed.

Lemma overview_priority_offline (statuses : gmap string AppStatus) (apps : list string) :
  (forall a st, statuses !! a = Some st -> is_online st = false) ->
  overview_priority statuses apps = "All applications monitored".
Proof.
  intros Hoff. induction apps as [|a rest IH]; [reflexivity|]. simpl.
  destruct (statuses !! a) as [st|] eqn:E; [|exact IH].
  rewrite (Hoff a st E). exact IH.
Qed.

Lemma filter_all_false {A} (f : A -> bool) (l : list A) :
  (forall x, In x l -> f x = false) -> List.filter f l = [].
Proof.
  induction l as [|x l IH]; intros H; [reflexivity|]. simpl.
  rewrite (H x (or_introl eq_refl)). apply IH. intros y Hy. apply H. right. exact Hy.
Qed.

(** When every status is offline, the overview reports 0 of the total online with the default priority line. *)
Theorem overview_all_offline (statuses : gmap string AppStatus) :
  statuses <> ∅ ->
  (forall a st, statuses !! a = Some st -> is_online st = false) ->
  _update_overview_display statuses
  = ("NZB Info Manager (0/" +++ Py.z_str (Z.of_nat (size statuses)) +++ " online)",
     "All applications monitored").
Proof.
  intros Hne Hoff. unfold _update_overview_display.
  rewrite bool_decide_false by exact Hne.
  rewrite overview_priority_offline by exact Hoff.
  rewrite filter_all_false; [reflexivity|].
  intros st Hin. apply in_map_iff in Hin as ([k st'] & <- & Hin).
  apply list_elem_of_In, elem_of_map_to_list in Hin. exact (Hoff k st' Hin).
Qed.

(** [_format_time_ago] always returns [just now], since the difference it computes is 5 seconds. *)
Theorem format_time_ago_just_now (now : Q) : _format_time_ago now = "just now".
Proof.
  unfold _format_time_ago, PyNum.qlt.
  assert (Hd : (now - (now - 5) == 5)%Q) by ring.
  destruct (Qle_bool (now - (now - 5)) 0) eqn:E1.
  { apply Qle_bool_iff in E1. rewrite Hd in E1. compute in E1. exfalso. apply E1. reflexivity. }
  simpl negb. cbv iota.
  destruct (Qle_bool 60 (now - (now - 5))) eqn:E2; [|reflexivity].
  apply Qle_bool_iff in E2. rewrite Hd in E2. compute in E2. exfalso. apply E2. reflexivity.
Qed.

(** ** Truncation *)

Lemma smart_truncate_le (text : string) (max_length : Z) :
  3 <= max_length -> Py.len (_smart_truncate text max_length) <= max_length.
Proof.
  intros H3. unfold _smart_truncate.
  destruct (Z.leb_spec (Py.len text) max_length) as [Hfit|Hlong]; [lia|].
  assert (Hfb : Py.len (Py.slice_to text (max_length - 3) +++ "...") <= max_length)
    by (rewrite hard_truncate_length; lia).
  destruct (Py.has_char "." text); [|exact Hfb].
  destruct (Py.rsplit1 "." text) as [name ext].
  destruct (Z.leb_spec (Py.len ext) 4); [|exact Hfb].
  destruct (Z.gtb_spec (max_length - Py.len ext - 4) 10) as [Hav|]; [|exact Hfb].
  rewrite !len_append, len_slice_to_nonneg by lia. rewrite len_ellipsis.
  pose proof (len_nonneg name). lia.
Qed.

(** For a maximum length of at least 3, truncating an already truncated text changes nothing. *)
Theorem smart_truncate_idempotent (text : string) (max_length : Z) :
  3 <= max_length ->
  _smart_truncate (_smart_truncate text max_length) max_length = _smart_truncate text max_length.
Proof.
  intros H3. unfold _smart_truncate at 1.
  destruct (Z.leb_spec (Py.len (_smart_truncate text max_length)) max_length) as [_|Hgt];
    [reflexivity|].
  pose proof (smart_truncate_le text max_length H3). lia.
Qed.

(** When a long name has a short extension and enough room, [_smart_truncate] keeps the extension and returns a text one character shorter than the maximum. *)
Theorem smart_truncate_keeps_extension (text : string) (max_length : Z) (name ext : string) :
  max_length < Py.len text -> Py.has_char "." text = true ->
  Py.rsplit1 "." text = (name, ext) -> Py.len ext <= 4 ->
  max_length - Py.len ext - 4 > 10 ->
  _smart_truncate text max_length
  = Py.slice_to name (max_length - Py.len ext - 4) +++ "..." +++ ext
  /\ Py.len (_smart_truncate text max_length) = max_length - 1
  /\ text = name +++ "." +++ ext /\ Py.has_char "." ext = false.
Proof.
  intros Hlong Hdot Hsplit Hext Hav.
  destruct (has_char_split "." text Hdot) as (a & b & Ht & Hb).
  rewrite Ht, rsplit1_last in Hsplit by exact Hb. injection Hsplit as <- <-.
  assert (Hlen : Py.len text = Py.len a + 1 + Py.len b).
  { rewrite Ht, len_append. unfold Py.len. simpl. lia. }
  assert (Hres : _smart_truncate text max_length
                 = Py.slice_to a (max_length - Py.len b - 4) +++ "..." +++ b).
  { unfold _smart_truncate.
    destruct (Z.leb_spec (Py.len text) max_length); [lia|].
    rewrite Hdot, Ht, rsplit1_last by exact Hb.
    destruct (Z.leb_spec (Py.len b) 4); [|lia].
    destruct (Z.gtb_spec (max_length - Py.len b - 4) 10); [reflexivity | lia]. }
  split; [exact Hres|]. split; [|split; [exact Ht | exact Hb]].
  rewrite Hres, !len_append, len_slice_to_nonneg by lia. rewrite len_ellipsis.
  pose proof (len_nonneg b). lia.
Qed.

(** The recent-files line is at most 71 characters long. *)
Theorem format_recent_files_length (files : list string) :
  Py.len (_format_recent_files files) <= 71.
Proof.
  destruct files as [|f1 [|f2 rest]]; [vm_compute; congruence | |].
  - unfold _format_recent_files, Py.join. cbn [List.firstn List.map String.concat].
    rewrite len_append. pose proof (smart_truncate_le (_clean_file_path f1) 30 ltac:(lia)).
    change (Py.len "Recent: ") with 8. lia.
  - unfold _format_recent_files, Py.join.
    change (List.firstn 2 (f1 :: f2 :: rest)) with [f1; f2]. cbn [List.map String.concat].
    rewrite !len_append.
    pose proof (smart_truncate_le (_clean_file_path f1) 30 ltac:(lia)).
    pose proof (smart_truncate_le (_clean_file_path f2) 30 ltac:(lia)).
    change (Py.len "Recent: ") with 8. change (Py.len " | ") with 3. lia.
Qed.

(** The Bazarr movie loop adds items until the list holds two, i.e. appends the first [2 - length] items. *)
Theorem append_until_two_firstn (recent items : list string) :
  (length recent < 2)%nat ->
  append_until_two recent items = recent ++ List.firstn (2 - length recent) items.
Proof.
  revert recent. induction items as [|x rest IH]; intros recent Hr.
  - simpl. rewrite List.firstn_nil, app_nil_r. reflexivity.
  - cbn [append_until_two]. rewrite List.length_app. simpl length.
    destruct (Nat.leb_spec 2 (length recent + 1)) as [H2|H2].
    + replace (2 - length recent)%nat with 1%nat by lia. reflexivity.
    + rewrite IH by (rewrite List.length_app; simpl; lia).
      rewrite List.length_app. simpl length.
      replace (2 - length recent)%nat with (S (2 - (length recent + 1)))%nat by lia.
      rewrite <- app_assoc. reflexivity.
Qed.

(** ** Health-check request *)

Lemma contains_char (c : ascii) (s : string) :
  Py.contains (String c EmptyString) s = Py.has_char c s.
Proof.
  unfold Py.contains. induction s as [|x s IH]; [reflexivity|].
  cbn [String.index Py.has_char].
  destruct (ascii_dec c x) as [->|Hne].
  - rewrite Ascii.eqb_refl. simpl. destruct (ascii_dec x x); [|contradiction].
    destruct s; reflexivity.
  - assert (Hf : String.prefix (String c EmptyString) (String x s) = false).
    { simpl. destruct (ascii_dec c x); [contradiction | reflexivity]. }
    rewrite Hf. apply Ascii.eqb_neq in Hne. rewrite Hne, <- IH.
    destruct (String.index 0 (String c EmptyString) s); reflexivity.
Qed.

(** For SABnzbd with a URL and a non-empty key, the health-check URL appends [/api?mode=version&apikey=<key>] and no authentication header is sent. *)
Theorem sabnzbd_health_check_url (c : PyConfig) (base k : string) :
  get_app_url c "sabnzbd" = Some base -> base <> "" ->
  get_app_api_key c "sabnzbd" = CStr k -> k <> "" ->
  _get_health_check_url c "sabnzbd" = Some (base +++ "/api?mode=version&apikey=" +++ k)
  /\ _get_auth_headers c "sabnzbd" = [].
Proof.
  intros Hu Hb Hk Hkne.
  apply String.eqb_neq in Hb. apply String.eqb_neq in Hkne. split.
  - unfold _get_health_check_url. rewrite Hu, Hb, Hk. cbn [truthy py_format]. rewrite Hkne.
    simpl negb. cbv iota.
    change (health_endpoint "sabnzbd") with "/api?mode=version".
    change "?"%string with (String "?" EmptyString) at 1.
    rewrite contains_char, has_char_append, orb_true_r. cbv iota.
    rewrite append_assoc_s. reflexivity.
  - unfold _get_auth_headers. rewrite Hk. cbn [truthy]. rewrite Hkne. reflexivity.
Qed.

(** ** Path cleaning *)

Lemma has_char_substring (c : ascii) (n m : nat) (s : string) :
  Py.has_char c (String.substring n m s) = true -> Py.has_char c s = true.
Proof.
  revert n m. induction s as [|x s IH]; intros n m; [destruct n, m; simpl; auto|].
  destruct n as [|n]; [destruct m as [|m]|]; simpl; [discriminate| |].
  - destruct (Ascii.eqb c x); [reflexivity|]. apply IH.
  - intros H. destruct (Ascii.eqb c x); [reflexivity|]. exact (IH n m H).
Qed.

Lemma length_substring (n m : nat) (s : string) :
  String.length (String.substring n m s) = Nat.min m (String.length s - n).
Proof.
  revert n m. induction s as [|x s IH]; intros n m.
  - destruct n, m; reflexivity.
  - destruct n as [|n]; [destruct m as [|m]|]; simpl; [reflexivity| |].
    + rewrite IH. lia.
    + apply IH.
Qed.

Lemma split_fuel_nonempty (fuel : nat) (sep s : string) : Py.split_fuel fuel sep s <> [].
Proof.
  destruct fuel; simpl; [discriminate|]. destruct (String.index 0 sep s); discriminate.
Qed.

Lemma split_fuel_no_char (c : ascii) (fuel : nat) (sep s : string) :
  Py.has_char c s = false -> Forall (fun x => Py.has_char c x = false) (Py.split_fuel fuel sep s).
Proof.
  revert s. induction fuel as [|f IH]; intros s Hs; simpl; [constructor; [exact Hs | constructor]|].
  destruct (String.index 0 sep s) as [i|]; [|constructor; [exact Hs | constructor]].
  constructor.
  - destruct (Py.has_char c (String.substring 0 i s)) eqn:E; [|reflexivity].
    rewrite (has_char_substring _ _ _ _ E) in Hs. exact Hs.
  - apply IH. unfold Py.slice_from.
    destruct (Py.has_char c (String.substring _ _ s)) eqn:E; [|reflexivity].
    rewrite (has_char_substring _ _ _ _ E) in Hs. exact Hs.
Qed.

Lemma last_item_forall (P : string -> Prop) (xs : list string) :
  Forall P xs -> P EmptyString -> P (Py.last_item xs).
Proof.
  unfold Py.last_item. induction xs as [|x xs IH]; intros H He; [exact He|].
  inversion H as [|? ? Hx Hxs]; subst. destruct xs as [|y ys]; [exact Hx|].
  apply IH; assumption.
Qed.

Lemma index_bound (i : nat) (sep s : string) :
  String.index 0 sep s = Some i -> sep <> EmptyString ->
  (i + String.length sep <= String.length s)%nat.
Proof.
  intros Hi Hne. apply String.index_correct1 in Hi.
  assert (Hl : String.length (String.substring i (String.length sep) s) = String.length sep)
    by (rewrite Hi; reflexivity).
  rewrite length_substring in Hl.
  pose proof (Nat.le_min_r (String.length sep) (String.length s - i)).
  destruct sep; [contradiction|]. simpl in *. lia.
Qed.

Lemma split_fuel_last_no_sep (c : ascii) (fuel : nat) (s : string) :
  (String.length s < fuel)%nat ->
  Py.has_char c (Py.last_item (Py.split_fuel fuel (String c EmptyString) s)) = false.
Proof.
  revert s. induction fuel as [|f IH]; intros s Hl; [lia|]. simpl.
  destruct (String.index 0 (String c EmptyString) s) as [i|] eqn:E.
  - pose proof (index_bound i _ s E ltac:(discriminate)) as Hb. simpl in Hb.
    pose proof (split_fuel_nonempty f (String c EmptyString) (Py.slice_from s (i + 1))) as Hne.
    assert (Hlast : forall x l, l <> [] -> Py.last_item (x :: l) = Py.last_item l)
      by (intros x [|y l] H; [contradiction | reflexivity]).
    rewrite Hlast by exact Hne. apply IH.
    unfold Py.slice_from. rewrite length_substring. simpl. lia.
  - unfold Py.last_item. simpl.
    rewrite <- contains_char. unfold Py.contains. rewrite E. reflexivity.
Qed.

(** [_clean_file_path] never returns a text containing a slash. *)
Theorem clean_file_path_no_slash (file_path : string) :
  Py.has_char "/" (_clean_file_path file_path) = false.
Proof.
  unfold _clean_file_path. destruct (String.eqb file_path ""); [reflexivity|].
  set (clean_path := strip_known_prefix path_prefixes_to_remove file_path).
  destruct (Py.has_char "/" clean_path) eqn:E.
  - unfold Py.split. change (Py.split_fuel (S (String.length clean_path)) "/" clean_path) with (Py.split_fuel (S (String.length clean_path)) (String "/" EmptyString) clean_path).
    apply split_fuel_last_no_sep. lia.
  - destruct (Py.contains backslash_sep clean_path); [|exact E].
    apply (last_item_forall (fun x => Py.has_char "/" x = false)); [|reflexivity].
    apply split_fuel_no_char. exact E.
Qed.

(** ** More on setup *)

(** [_parse_host_port_ssl] gives back host, port and scheme of a URL [http(s)://host:port] written from a stripped host and a non-negative port. *)
Theorem parse_host_port_ssl_round_trip (ssl : bool) (host : string) (port default_port : Z) :
  PyStr.strip host = host -> 0 <= port ->
  _parse_host_port_ssl
    ((if ssl then "https://" else "http://") +++ host +++ ":" +++ Py.z_str port) default_port
  = (host, port, ssl).
Proof. intros Hh Hp. apply parse_round; assumption. Qed.

(** When the text after the last colon does not parse as an integer, [_parse_host_port_ssl] falls back to the default port. *)
Theorem parse_host_port_ssl_bad_port (ssl : bool) (host port_str : string) (default_port : Z) :
  PyStr.strip host = host -> Py.has_char ":" port_str = false ->
  PyStr.rstrip_by PyStr.isspace port_str = port_str -> PyStr.py_int port_str = None ->
  _parse_host_port_ssl
    ((if ssl then "https://" else "http://") +++ host +++ ":" +++ port_str) default_port
  = (host, default_port, ssl).
Proof.
  intros Hh Hc Hr Hn. rewrite parse_host_port_ssl_core by assumption. rewrite Hn. reflexivity.
Qed.

Lemma setup_fold_skip (data : gmap string sval) (todo : list (string * Z)) acc :
  (forall name dport, In (name, dport) todo ->
     is_enabled_true (get_or (SStr "false") (data !! (name +++ "_enabled"))) = false
     \/ exists host_port, get_or (SStr "") (data !! (name +++ "_host")) = SStr host_port
                          /\ PyStr.strip host_port = "") ->
  fold_left (setup_step data) todo (Some acc) = Some acc.
Proof.
  revert acc. induction todo as [|[name dport] todo IH]; intros acc H; [reflexivity|].
  cbn [fold_left].
  assert (Hs : setup_step data (Some acc) (name, dport) = Some acc).
  { destruct acc as [apps cfgs]. unfold setup_step.
    destruct (H name dport (or_introl eq_refl)) as [He|(hp & Hh & Hs)].
    - rewrite He. reflexivity.
    - rewrite Hh. cbn [as_str]. rewrite Hs.
      destruct (is_enabled_true _); reflexivity. }
  rewrite Hs. apply IH. intros n d Hin. apply (H n d). right. exact Hin.
Qed.

(** When every application of [APP_INFO] is disabled or has a blank host, the setup request ends in [SetupError]. *)
Theorem setup_nothing_configured (data : gmap string sval) :
  (forall name dport, In (name, dport) APP_INFO ->
     is_enabled_true (get_or (SStr "false") (data !! (name +++ "_enabled"))) = false
     \/ exists host_port, get_or (SStr "") (data !! (name +++ "_host")) = SStr host_port
                          /\ PyStr.strip host_port = "") ->
  setup_collect data = None.
Proof. intros H. unfold setup_collect. rewrite setup_fold_skip by exact H. reflexivity. Qed.

(** [set_app_config] stores the given keys over the application's defaults, leaves the other applications and the enabled list unchanged. *)
Theorem set_app_config_get (c : PyConfig) (name : string) (config : app_dict) :
  (forall k, get_app_config (set_app_config c name config) name !! k
             = match config !! k with Some v => Some v | None => APP_DEFAULTS name !! k end)
  /\ (forall other, other <> name ->
        get_app_config (set_app_config c name config) other = get_app_config c other)
  /\ get_enabled_apps (set_app_config c name config) = get_enabled_apps c.
Proof.
  split; [|split].
  - intros k. rewrite get_app_config_set, String.eqb_refl, lookup_union.
    destruct (config !! k); [|destruct (APP_DEFAULTS name !! k); reflexivity].
    apply option_union_Some.
  - intros other Hne. rewrite get_app_config_set.
    apply String.eqb_neq in Hne. rewrite Hne. reflexivity.
  - reflexivity.
Qed.

(** ** Witnesses *)

Lemma parse_host_port_ssl_round_trip_witness :
  PyStr.strip "nas.local" = "nas.local" /\ 0 <= 9443
  /\ _parse_host_port_ssl ("https://" +++ "nas.local" +++ ":" +++ Py.z_str 9443) 8989
     = ("nas.local", 9443, true).
Proof.
  split; [vm_compute; reflexivity|]. split; [lia|].
  apply (parse_host_port_ssl_round_trip true "nas.local" 9443 8989); [vm_compute; reflexivity | lia].
Defined.

Lemma parse_host_port_ssl_no_colon_witness :
  Py.has_char ":" " nas.local " = false
  /\ _parse_host_port_ssl " nas.local " 8989 = (PyStr.strip " nas.local ", 8989, false).
Proof.
  split; [vm_compute; reflexivity|].
  apply (parse_host_port_ssl_no_colon " nas.local " 8989). vm_compute. reflexivity.
Defined.

Lemma parse_host_port_ssl_bad_port_witness :
  PyStr.py_int "8989/sonarr" = None
  /\ _parse_host_port_ssl ("http://" +++ "nas.local" +++ ":" +++ "8989/sonarr") 8080
     = ("nas.local", 8080, false).
Proof.
  split; [vm_compute; reflexivity|].
  apply (parse_host_port_ssl_bad_port false "nas.local" "8989/sonarr" 8080); vm_compute; reflexivity.
Defined.

Lemma setup_nothing_configured_witness :
  setup_collect {[ "sonarr_enabled" := SStr "true" ]} = None.
Proof.
  apply setup_nothing_configured. intros name dport Hin.
  repeat (destruct Hin as [Hin|Hin]; [injection Hin as <- <-|]); [..|contradiction Hin];
    try (left; vm_compute; reflexivity).
  right. exists "". split; vm_compute; reflexivity.
Defined.








Lemma connect_statuses_witness :
  In "sonarr" (enabled_apps (cl_config sonarr_plex_client))
  /\ let '(w', c', _) := connect health_up 0 empty_statuses_world sonarr_plex_client in
     get_app_status w' c' "sonarr"
     = Some (set_is_online (has_host (cl_config sonarr_plex_client) "sonarr"
                            && health_check_ok (health_up "sonarr")) (new_AppStatus "sonarr" 0)).
Proof.
  split; [simpl; auto|].
  apply (connect_statuses health_up 0 empty_statuses_world sonarr_plex_client "sonarr").
  simpl; auto.
Defined.

Lemma update_unknown_app_status_witness :
  ~ In "plex" known_apps /\ has_host (cl_config sonarr_plex_client) "plex" = true
  /\ fst (_update_app_status (fun _ => None) fixed_today 0 (all_fail_net "down")
            plex_world sonarr_plex_client "plex") = plex_world.
Proof.
  split; [simpl; intuition discriminate|]. split; [vm_compute; reflexivity|].
  apply (update_unknown_app_status (fun _ => None) fixed_today 0 (all_fail_net "down")
           plex_world sonarr_plex_client "plex"); [simpl; intuition discriminate|].
  vm_compute. reflexivity.
Defined.

Lemma source_round_trip_witness :
  _get_app_name_from_source (display_name "sonarr") = "sonarr"
  /\ _get_app_name_from_source (display_name "plex") <> "plex".
Proof.
  split.
  - apply (proj1 (source_round_trip "sonarr")). simpl. auto.
  - apply (proj2 (source_round_trip "plex")); [simpl; intuition discriminate | discriminate].
Defined.

Lemma overview_all_offline_witness :
  _update_overview_display {[ "sonarr" := new_AppStatus "sonarr" 0 ]}
  = ("NZB Info Manager (0/" +++ Py.z_str (Z.of_nat (size ({[ "sonarr" := new_AppStatus "sonarr" 0 ]}
                                                        : gmap string AppStatus))) +++ " online)",
     "All applications monitored").
Proof.
  apply overview_all_offline.
  - apply map_non_empty_singleton.
  - intros a st H. apply lookup_singleton_Some in H as [_ <-]. reflexivity.
Defined.

Lemma smart_truncate_idempotent_witness :
  _smart_truncate (_smart_truncate "A.Very.Long.Movie.Name.2024.mkv" 20) 20
  = _smart_truncate "A.Very.Long.Movie.Name.2024.mkv" 20.
Proof. apply smart_truncate_idempotent. lia. Defined.

Lemma smart_truncate_keeps_extension_witness :
  Py.len (_smart_truncate "A.Very.Long.Movie.Name.2024.mkv" 20) = 20 - 1.
Proof.
  apply (smart_truncate_keeps_extension "A.Very.Long.Movie.Name.2024.mkv" 20
           "A.Very.Long.Movie.Name.2024" "mkv");
    vm_compute; first [reflexivity | discriminate].
Defined.

Lemma append_until_two_firstn_witness :
  append_until_two [] ["a"; "b"; "c"] = [] ++ List.firstn 2 ["a"; "b"; "c"].
Proof. apply (append_until_two_firstn [] ["a"; "b"; "c"]). simpl. lia. Defined.

Lemma sabnzbd_health_check_url_witness :
  _get_health_check_url sabnzbd_saved "sabnzbd"
  = Some ("http://nas:8080" +++ "/api?mode=version&apikey=" +++ "k").
Proof.
  apply (sabnzbd_health_check_url sabnzbd_saved "http://nas:8080" "k");
    first [vm_compute; reflexivity | discriminate].
Defined.

Lemma get_all_enabled_configs_spec_witness :
  get_all_enabled_configs sabnzbd_saved !! "sabnzbd"
  = Some (get_app_config sabnzbd_saved "sabnzbd").
Proof.
  apply (get_all_enabled_configs_spec sabnzbd_saved "sabnzbd").
  split; [simpl; auto|]. split; [reflexivity|].
  split; [exists (CStr "nas") | exists (CStr "k")]; vm_compute; reflexivity.
Defined.

Lemma set_app_config_get_witness :
  get_app_config (set_app_config _default_config "sonarr" {[ "host" := CStr "nas" ]}) "sonarr"
    !! "port" = Some (CInt 8989)
  /\ get_app_config (set_app_config _default_config "sonarr" {[ "host" := CStr "nas" ]}) "radarr"
     = get_app_config _default_config "radarr".
Proof.
  split.
  - rewrite (proj1 (set_app_config_get _default_config "sonarr" {[ "host" := CStr "nas" ]}) "port").
    vm_compute. reflexivity.
  - apply (proj1 (proj2 (set_app_config_get _default_config "sonarr" {[ "host" := CStr "nas" ]}))).
    discriminate.
Defined.

Lemma set_app_config_default_url_witness :
  get_app_url (set_app_config _default_config "sonarr" {[ "host" := CStr "nas" ]}) "sonarr"
  = Some ("http://" +++ "nas" +++ ":" +++ Py.z_str (get_or 80 (APP_DEFAULTS_port "sonarr"))).
Proof. apply set_app_config_default_url; vm_compute; reflexivity. Defined.

Lemma setup_collect_shape_witness :
  match setup_collect sonarr_setup_data with
  | Some (enabled_apps, app_configs) =>
      enabled_apps <> [] /\ enabled_apps `sublist_of` map fst APP_INFO /\ NoDup enabled_apps
  | None => False
  end.
Proof.
  destruct (setup_collect sonarr_setup_data) as [[apps cfgs]|] eqn:E;
    [|vm_compute in E; discriminate E].
  destruct (setup_collect_shape sonarr_setup_data apps cfgs E) as (H1 & H2 & H3 & _).
  auto.
Defined.

Lemma setup_saved_url_witness :
  match setup_collect sonarr_setup_data with
  | Some r =>
      get_app_url (_save_configuration _default_config r) "sonarr"
      = Some ("https" +++ "://" +++ "nas.local" +++ ":" +++ Py.z_str 9443)
  | None => False
  end.
Proof.
  destruct (setup_collect sonarr_setup_data) as [r|] eqn:E; [|vm_compute in E; discriminate E].
  refine (proj1 (proj2 (setup_saved_url sonarr_setup_data _default_config r "sonarr"
            8989 9443 true "nas.local" "  https://nas.local:9443 " " abc123 "
            E _ _ _ _ _ _ _))).
  - simpl. tauto.
  - vm_compute. reflexivity.
  - vm_compute. reflexivity.
  - vm_compute. reflexivity.
  - vm_compute. reflexivity.
  - vm_compute. reflexivity.
  - lia.
Defined.
